(** * Telegram contacts exporter: resumable export pipeline, progress store,
      record writers and nickname matcher.

    A shallow embedding of [src/file_manager.py] (class [FileManager]) and
    [src/telegram_exporter.py] (class [TelegramExporter]), with the remote
    client of [src/telegram_client_wrapper.py] as a source capability.

    Conventions of the embedding:
    - a Python value that can be stored in the JSON files is a [json];
      a Python [dict] with string keys is a [gmap string json];
    - the file system is three stores keyed by path: the [.json] files
      (a document, or a text that [json.load] rejects), the [.csv] files
      (the rows handed to [csv.writer]) and plain text files;
    - a method is a function in the state-and-exception monad [M];
      [print] calls are not modelled. *)

From Stdlib Require Import ZArith Ascii String.
From stdpp Require Import gmap strings list fin_maps pretty.

Set Warnings "-register-all".
Local Open Scope Z_scope.

(** ** Python values *)

(** The values [json.load] can return, without floating point numbers
    (the exporter never writes one). [bool] is kept apart from [int] as in
    JSON; the helpers below give [True] and [False] their integer meaning
    where Python does. *)
Inductive json :=
| JNull
| JBool (b : bool)
| JInt (z : Z)
| JStr (s : string)
| JList (l : list json)
| JDict (d : gmap string json).

Abbreviation pydict := (gmap string json).

Inductive exn :=
| ValueError (msg : string)
| TypeError
| AttributeError
| KeyError (key : string)
| JSONDecodeError
| FileNotFoundError
| OverflowError
| ZeroDivisionError
| RemoteError (msg : string).

Inductive result (A : Type) :=
| Ok (a : A)
| Raise (e : exn).
Arguments Ok {A} a.
Arguments Raise {A} e.

Definition rbind {A B} (r : result A) (k : A → result B) : result B :=
  match r with
  | Ok a => k a
  | Raise e => Raise e
  end.

(** [bool(v)] *)
Definition py_truthy (v : json) : bool :=
  match v with
  | JNull => false
  | JBool b => b
  | JInt z => negb (z =? 0)
  | JStr s => negb (String.eqb s "")
  | JList l => match l with [] => false | _ => true end
  | JDict d => negb (Nat.eqb (size d) 0)
  end.

(** [z == v] for an integer [z] and [s == v] for a string [s]. *)
Definition py_eq_int (z : Z) (v : json) : bool :=
  match v with
  | JInt z' => z =? z'
  | JBool b => z =? (if b then 1 else 0)
  | _ => false
  end.

Definition py_eq_str (s : string) (v : json) : bool :=
  match v with
  | JStr s' => String.eqb s s'
  | _ => false
  end.

Definition is_substring (s t : string) : bool :=
  match String.index 0 s t with
  | Some _ => true
  | None => false
  end.

(** [key in c] for a string [key] *)
Definition py_contains_str (key : string) (c : json) : result bool :=
  match c with
  | JDict d => Ok (bool_decide (is_Some (d !! key)))
  | JList l => Ok (existsb (py_eq_str key) l)
  | JStr s => Ok (is_substring key s)
  | _ => Raise TypeError
  end.

(** [z in c] for an integer [z]; the keys of a loaded dict are strings. *)
Definition py_contains_int (z : Z) (c : json) : result bool :=
  match c with
  | JDict _ => Ok false
  | JList l => Ok (existsb (py_eq_int z) l)
  | _ => Raise TypeError
  end.

(** [c[key]] *)
Definition py_getitem (c : json) (key : string) : result json :=
  match c with
  | JDict d => match d !! key with
               | Some v => Ok v
               | None => Raise (KeyError key)
               end
  | _ => Raise TypeError
  end.

(** [c.get(key, dflt)] *)
Definition py_get (c : json) (key : string) (dflt : json) : result json :=
  match c with
  | JDict d => Ok (default dflt (d !! key))
  | _ => Raise AttributeError
  end.

(** [c[key] = v] *)
Definition py_setitem (c : json) (key : string) (v : json) : result json :=
  match c with
  | JDict d => Ok (JDict (<[key := v]> d))
  | _ => Raise TypeError
  end.

(** The integer a value stands for where Python wants an index. *)
Definition py_index (v : json) : result Z :=
  match v with
  | JInt z => Ok z
  | JBool b => Ok (if b then 1 else 0)
  | _ => Raise TypeError
  end.

(** [l[k:]] *)
Definition py_slice_from {A} (l : list A) (k : Z) : list A :=
  if k <? 0 then drop (Z.to_nat (Z.max 0 (Z.of_nat (length l) + k))) l
  else drop (Z.to_nat k) l.

(** [len(v)] *)
Definition py_len (v : json) : result Z :=
  match v with
  | JList l => Ok (Z.of_nat (length l))
  | JDict d => Ok (Z.of_nat (size d))
  | JStr s => Ok (Z.of_nat (String.length s))
  | _ => Raise TypeError
  end.

(** [v += 1] *)
Definition py_add1 (v : json) : result json :=
  rbind (py_index v) (λ z, Ok (JInt (z + 1))).

(** [v.append(x)], returning the list after the mutation *)
Definition py_append (v x : json) : result json :=
  match v with
  | JList l => Ok (JList (l ++ [x]))
  | _ => Raise AttributeError
  end.

(** [existing + new] for a list [new] *)
Definition py_concat (existing : json) (new : list json) : result json :=
  match existing with
  | JList l => Ok (JList (l ++ new))
  | _ => Raise TypeError
  end.

(** [for x in v] *)
Definition py_iter (v : json) : result (list json) :=
  match v with
  | JList l => Ok l
  | JDict d => Ok (JStr <$> (map_to_list d).*1)
  | JStr s => Ok ((λ c, JStr (String c "")) <$> list_ascii_of_string s)
  | _ => Raise TypeError
  end.

(** ** Strings *)

Definition lower_ascii (c : ascii) : ascii :=
  let n := nat_of_ascii c in
  if (65 <=? n)%nat && (n <=? 90)%nat then ascii_of_nat (n + 32) else c.

(** [s.lower()] on ASCII text (Telegram handles are ASCII). *)
Fixpoint lower (s : string) : string :=
  match s with
  | EmptyString => EmptyString
  | String c rest => String (lower_ascii c) (lower rest)
  end.

(** [v.lower()] *)
Definition py_lower (v : json) : result string :=
  match v with
  | JStr s => Ok (lower s)
  | _ => Raise AttributeError
  end.

(** The characters [str.strip()] removes, within ASCII. *)
Definition is_space (c : ascii) : bool :=
  let n := nat_of_ascii c in
  (n =? 32)%nat || ((9 <=? n)%nat && (n <=? 13)%nat)
  || ((28 <=? n)%nat && (n <=? 31)%nat).

Fixpoint lstrip (s : string) : string :=
  match s with
  | EmptyString => EmptyString
  | String c rest => if is_space c then lstrip rest else s
  end.

(** Right strip: a character stays when something non-blank follows or it is
    not blank itself. *)
Fixpoint rstrip (s : string) : string :=
  match s with
  | EmptyString => EmptyString
  | String c rest =>
      match rstrip rest with
      | EmptyString => if is_space c then EmptyString else String c EmptyString
      | r => String c r
      end
  end.

Definition strip (s : string) : string := rstrip (lstrip s).

(** Iterating over a text file opened with universal newlines: the text is
    cut after each ["\n"], ["\r\n"] or lone ["\r"]. The terminators are
    dropped here; [strip] would remove them anyway. *)
Fixpoint lines_aux (cur : string) (after_cr : bool) (s : string) : list string :=
  match s with
  | EmptyString => if String.eqb cur "" then [] else [cur]
  | String c rest =>
      if Ascii.eqb c "010" then
        if after_cr && String.eqb cur "" then lines_aux "" false rest
        else cur :: lines_aux "" false rest
      else if Ascii.eqb c "013" then cur :: lines_aux "" true rest
      else lines_aux (cur +:+ String c "") false rest
  end.

Definition lines (s : string) : list string := lines_aux "" false s.

(** [str(v)] ([quoted = false]) and [repr(v)] ([quoted = true]): exact on
    scalars up to the escapes of a quoted string; a container is shown with
    its items in [repr] form, the keys of a dict in map order. *)
Fixpoint py_show (quoted : bool) (v : json) : string :=
  match v with
  | JNull => "None"
  | JBool b => if b then "True" else "False"
  | JInt z => pretty z
  | JStr s => if quoted then "'" +:+ s +:+ "'" else s
  | JList l => "[" +:+ String.concat ", " (map (py_show true) l) +:+ "]"
  | JDict d =>
      "{" +:+ String.concat ", "
        (map_fold (λ k x acc, acc ++ ["'" +:+ k +:+ "': " +:+ py_show true x]) [] d)
      +:+ "}"
  end.

Definition py_str (v : json) : string := py_show false v.

(** ** Files and the world *)

(** A [.json] file holds a document, or a text that [json.load] rejects. *)
Inductive json_file :=
| Doc (v : json)
| Malformed (raw : string).

(** A text file can be read, or reading it raises. *)
Inductive text_file :=
| Readable (s : string)
| Unreadable.

(** A CSV row: the values handed to [csv.writer], which prints [str] of each
    ([None] as the empty cell). *)
Abbreviation row := (list json).

(** Calls to the remote source. *)
Inductive event :=
| FetchContacts
| FetchChats
| FetchGroupChats
| FetchMembers (chat : Z).

Record world := World {
  json_files : gmap string json_file;
  csv_files : gmap string (list row);
  text_files : gmap string text_file;
  wall : nat → string;      (* the readings of [datetime.now().isoformat()] *)
  ticks : nat;              (* how many readings were taken *)
  trace : list event        (* the remote calls made so far *)
}.

Definition with_json (f : gmap string json_file → gmap string json_file)
    (w : world) : world :=
  World (f (json_files w)) (csv_files w) (text_files w) (wall w) (ticks w) (trace w).

Definition with_csv (f : gmap string (list row) → gmap string (list row))
    (w : world) : world :=
  World (json_files w) (f (csv_files w)) (text_files w) (wall w) (ticks w) (trace w).

Definition with_tick (w : world) : world :=
  World (json_files w) (csv_files w) (text_files w) (wall w) (S (ticks w)) (trace w).

Definition with_event (e : event) (w : world) : world :=
  World (json_files w) (csv_files w) (text_files w) (wall w) (ticks w) (trace w ++ [e]).

(** ** The monad: state [S], exceptions [exn]. A raise keeps the state
    reached so far. *)
Definition M (S A : Type) : Type := S → result A * S.

Definition ret {S A} (a : A) : M S A := λ s, (Ok a, s).

Definition raise {S A} (e : exn) : M S A := λ s, (Raise e, s).

Definition bind {S A B} (m : M S A) (k : A → M S B) : M S B :=
  λ s, match m s with
       | (Ok a, s') => k a s'
       | (Raise e, s') => (Raise e, s')
       end.

(** [try: m except Exception as e: h e] *)
Definition try_catch {S A} (m : M S A) (h : exn → M S A) : M S A :=
  λ s, match m s with
       | (Ok a, s') => (Ok a, s')
       | (Raise e, s') => h e s'
       end.

Definition gets {S A} (f : S → A) : M S A := λ s, (Ok (f s), s).

Definition modify {S} (f : S → S) : M S unit := λ s, (Ok tt, f s).

Definition lift {S A} (r : result A) : M S A := λ s, (r, s).

Declare Scope monad_scope.
Delimit Scope monad_scope with monad.
Notation "x <- m ;; k" := (bind m (λ x, k))
  (at level 100, m at next level, right associativity) : monad_scope.
Notation "m ;; k" := (bind m (λ _, k))
  (at level 100, right associativity) : monad_scope.
Local Open Scope monad_scope.

(** [os.path.exists], [json.load], [json.dump], [os.remove] on [.json] paths *)
Definition exists_json (p : string) : M world bool :=
  gets (λ w, bool_decide (is_Some (json_files w !! p))).

Definition json_load (p : string) : M world json :=
  f <- gets (λ w, json_files w !! p) ;;
  match f with
  | Some (Doc v) => ret v
  | Some (Malformed _) => raise JSONDecodeError
  | None => raise FileNotFoundError
  end.

Definition json_dump (p : string) (v : json) : M world unit :=
  modify (with_json <[p := Doc v]>).

Definition remove_json (p : string) : M world unit :=
  modify (with_json (delete p)).

(** the same on [.csv] paths *)
Definition exists_csv (p : string) : M world bool :=
  gets (λ w, bool_decide (is_Some (csv_files w !! p))).

Definition remove_csv (p : string) : M world unit :=
  modify (with_csv (delete p)).

(** [datetime.now().isoformat()] *)
Definition datetime_now : M world string :=
  t <- gets (λ w, wall w (ticks w)) ;;
  modify with_tick ;;
  ret t.

(** ** [csv.DictWriter] *)

(** [DictWriter._dict_to_list]: a key outside [fieldnames] raises
    ([extrasaction="raise"]), a missing one gives [restval=""]. *)
Definition dict_to_list (fieldnames : list string) (d : pydict) : result row :=
  if bool_decide (dom d ⊆ (list_to_set fieldnames : gset string))
  then Ok ((λ k, default (JStr "") (d !! k)) <$> fieldnames)
  else Raise (ValueError "dict contains fields not in fieldnames").

(** [writer.writerows]: rows are written one by one; the first bad dict
    raises and leaves the rows before it in the file. *)
Fixpoint writerows (fieldnames : list string) (ds : list pydict)
    : list row * option exn :=
  match ds with
  | [] => ([], None)
  | d :: rest =>
      match dict_to_list fieldnames d with
      | Raise e => ([], Some e)
      | Ok r => let '(rs, e) := writerows fieldnames rest in (r :: rs, e)
      end
  end.

Definition header (fieldnames : list string) : row := JStr <$> fieldnames.

(** [with open(p, mode) as csvfile: ...]: in mode ["a"] ([keep]) the rows
    follow what the file holds, in mode ["w"] they replace it. The file is
    closed with what was written also when a row raises. *)
Definition write_table (p : string) (keep write_header : bool)
    (fieldnames : list string) (ds : list pydict) : M world unit :=
  old <- gets (λ w, if keep then default [] (csv_files w !! p) else []) ;;
  let '(rs, e) := writerows fieldnames ds in
  modify (with_csv
    <[p := old ++ (if write_header then [header fieldnames] else []) ++ rs]>) ;;
  match e with
  | Some e => raise e
  | None => ret tt
  end.

(** ** [config.py] *)

Definition EXPORTS_DIR : string := "exports".
Definition NICKNAMES_FILE : string := "nicknames.txt".
Definition PROGRESS_FILE_TEMPLATE : string := "export_progress_{session}.json".
Definition CONTACTS_CSV_TEMPLATE : string := "telegram_contacts_{session}.csv".
Definition CONTACTS_JSON_TEMPLATE : string := "telegram_contacts_{session}.json".
Definition CHATS_CSV_TEMPLATE : string := "telegram_chats_{session}.csv".
Definition DIALOGS_JSON_TEMPLATE : string := "telegram_dialogs_{session}.json".
Definition CHAT_MEMBERS_CSV_TEMPLATE : string :=
  "telegram_chat_members_{session}.csv".
Definition CHAT_MEMBERS_JSON_TEMPLATE : string :=
  "telegram_chat_members_{session}.json".
Definition NICKNAMES_MATCHES_CSV_TEMPLATE : string :=
  "telegram_nicknames_matches_{session}.csv".
Definition NICKNAMES_MATCHES_JSON_TEMPLATE : string :=
  "telegram_nicknames_matches_{session}.json".

(** ** Paths *)

(** [template.format(session=session)] for a template whose only
    replacement field is [{session}]: [skip] counts the characters of a field
    still to pass over. *)
Fixpoint format_from (skip : nat) (template session : string) : string :=
  match template with
  | EmptyString => EmptyString
  | String c rest =>
      match skip with
      | S k => format_from k rest session
      | O =>
          if String.prefix "{session}" template
          then session +:+ format_from 8 rest session
          else String c (format_from 0 rest session)
      end
  end.

Definition format (template session : string) : string :=
  format_from 0 template session.

(** [os.path.join(a, b)] for a relative [b] and a directory [a] that does
    not end with the separator. *)
Definition path_join (a b : string) : string := a +:+ "/" +:+ b.

(** ** [FileManager] *)

Record FileManager := {
  current_session : option string;
  exports_dir : string
}.

(** [FileManager.__init__] and [set_session] (the directories themselves are
    not part of the model). *)
Definition new_file_manager : FileManager :=
  {| current_session := None; exports_dir := EXPORTS_DIR |}.

Definition set_session (session_name : string) (fm : FileManager) : FileManager :=
  {| current_session := Some session_name; exports_dir := exports_dir fm |}.

(** The session when [self.current_session] is truthy. *)
Definition session_of (fm : FileManager) : option string :=
  match current_session fm with
  | Some s => if String.eqb s "" then None else Some s
  | None => None
  end.

Definition get_session_dir (fm : FileManager) : result string :=
  match session_of fm with
  | None => Raise (ValueError "No session set")
  | Some s => Ok (path_join (exports_dir fm) s)
  end.

Definition get_session_file_path (fm : FileManager) (template : string)
    : result string :=
  match session_of fm with
  | None => Raise (ValueError "No session set")
  | Some s =>
      let filename := format template s in
      rbind (get_session_dir fm) (λ dir, Ok (path_join dir filename))
  end.

(** [load_progress], also the [progress] property *)
Definition load_progress (fm : FileManager) : M world json :=
  match session_of fm with
  | None => ret (JDict ∅)
  | Some _ =>
      progress_file <- lift (get_session_file_path fm PROGRESS_FILE_TEMPLATE) ;;
      ex <- exists_json progress_file ;;
      if ex then json_load progress_file else ret (JDict ∅)
  end.

(** The entry [save_progress] stores for [data] at time [now]. *)
Definition progress_entry (now : string) (data : pydict) : json :=
  JDict (<["timestamp" := JStr now]>
        (<["completed" := default (JInt 0) (data !! "completed")]>
        (<["total" := default (JInt 0) (data !! "total")]>
        (<["finished" := default (JBool false) (data !! "finished")]>
        (<["processed_items" := default (JList []) (data !! "processed_items")]>
         ∅))))).

Definition save_progress (fm : FileManager) (export_type : string)
    (data : pydict) : M world unit :=
  match session_of fm with
  | None => raise (ValueError "No session set")
  | Some _ =>
      current_progress <- load_progress fm ;;
      now <- datetime_now ;;
      current_progress <- lift (py_setitem current_progress export_type
                                  (progress_entry now data)) ;;
      progress_file <- lift (get_session_file_path fm PROGRESS_FILE_TEMPLATE) ;;
      json_dump progress_file current_progress
  end.

Definition CONTACTS_FIELDS : list string :=
  ["id"; "first_name"; "last_name"; "username"; "phone"; "is_bot"; "is_contact"].

Definition CHATS_FIELDS : list string :=
  ["id"; "first_name"; "last_name"; "username"; "phone"; "is_contact";
   "last_message_date"; "unread_count"].

Definition CHAT_MEMBERS_FIELDS : list string :=
  ["chat_id"; "chat_title"; "chat_type"; "user_id"; "first_name"; "last_name";
   "username"; "phone"; "is_bot"; "is_premium"; "is_verified"].

Definition MATCHES_FIELDS : list string :=
  ["source"; "found_in_chat"; "chat_id"; "id"; "first_name"; "last_name";
   "username"; "phone"; "is_bot"; "is_contact"; "is_premium"; "is_verified";
   "last_message_date"; "unread_count"; "matched_nick"].

(** The common body of [save_contacts_to_files] and [save_chats_to_files]:
    both files are replaced. *)
Definition save_records_to_files (fm : FileManager)
    (csv_template json_template : string) (fieldnames : list string)
    (records : list pydict) : M world Z :=
  match session_of fm with
  | None => raise (ValueError "No session set")
  | Some _ =>
      csv_path <- lift (get_session_file_path fm csv_template) ;;
      json_path <- lift (get_session_file_path fm json_template) ;;
      write_table csv_path false true fieldnames records ;;
      json_dump json_path (JList (JDict <$> records)) ;;
      ret (Z.of_nat (length records))
  end.

Definition save_contacts_to_files (fm : FileManager) (contacts : list pydict)
    : M world Z :=
  save_records_to_files fm CONTACTS_CSV_TEMPLATE CONTACTS_JSON_TEMPLATE
    CONTACTS_FIELDS contacts.

Definition save_chats_to_files (fm : FileManager) (chats : list pydict)
    : M world Z :=
  save_records_to_files fm CHATS_CSV_TEMPLATE DIALOGS_JSON_TEMPLATE
    CHATS_FIELDS chats.

Definition save_chat_members_to_files (fm : FileManager)
    (members : list pydict) (append : bool) : M world Z :=
  match members with
  | [] => ret 0
  | _ =>
      match session_of fm with
      | None => raise (ValueError "No session set")
      | Some _ =>
          members_csv <- lift (get_session_file_path fm CHAT_MEMBERS_CSV_TEMPLATE) ;;
          members_json <- lift (get_session_file_path fm CHAT_MEMBERS_JSON_TEMPLATE) ;;
          csv_there <- exists_csv members_csv ;;
          let mode_a := append && csv_there in
          let write_header := negb (append && csv_there) in
          write_table members_csv mode_a write_header CHAT_MEMBERS_FIELDS members ;;
          json_there <- exists_json members_json ;;
          existing_members <-
            (if append && json_there
             then try_catch (json_load members_json)
                    (λ e, match e with
                          | JSONDecodeError | FileNotFoundError => ret (JList [])
                          | _ => raise e
                          end)
             else ret (JList [])) ;;
          all_members <-
            (if append then lift (py_concat existing_members (JDict <$> members))
             else ret (JList (JDict <$> members))) ;;
          json_dump members_json all_members ;;
          ret (Z.of_nat (length members))
      end
  end.

(** ** Nickname matcher *)

(** One line of [nicknames.txt]: [line.strip().lower()] when
    [line.strip()] is not empty. *)
Definition nickname_of_line (line : string) : option string :=
  let t := strip line in
  if String.eqb t "" then None else Some (lower t).

Definition load_nicknames_list : M world (gset string) :=
  f <- gets (λ w, text_files w !! NICKNAMES_FILE) ;;
  match f with
  | None => ret ∅
  | Some (Readable s) => ret (list_to_set (omap nickname_of_line (lines s)))
  | Some Unreadable => ret ∅
  end.

(** [d.get(key, dflt)] on a dict *)
Definition dget (d : pydict) (key : string) (dflt : json) : json :=
  default dflt (d !! key).

(** The loop body shared by the three scans: [info] builds the match from
    the record, its username and the lower-cased handle. A record that is
    not a dict, or a truthy username that is not a string, raises. *)
Definition check_record (info : pydict → json → string → pydict)
    (nicknames_set : gset string) (record : json) : result (option pydict) :=
  match record with
  | JDict d =>
      let username := dget d "username" (JStr "") in
      if py_truthy username then
        rbind (py_lower username) (λ low,
          if bool_decide (low ∈ nicknames_set)
          then Ok (Some (info d username low))
          else Ok None)
      else Ok None
  | _ => Raise AttributeError
  end.

(** The [for] loop inside the [try]: an exception ends the scan and keeps
    the matches appended so far. *)
Fixpoint scan (step : json → result (option pydict)) (records : list json)
    : list pydict :=
  match records with
  | [] => []
  | r :: rest =>
      match step r with
      | Raise _ => []
      | Ok None => scan step rest
      | Ok (Some m) => m :: scan step rest
      end
  end.

Definition check_dataset (fm : FileManager) (template : string)
    (info : pydict → json → string → pydict) (nicknames_set : gset string)
    : M world (list pydict) :=
  try_catch
    (path <- lift (get_session_file_path fm template) ;;
     there <- exists_json path ;;
     if there then
       data <- json_load path ;;
       records <- lift (py_iter data) ;;
       ret (scan (check_record info nicknames_set) records)
     else ret [])
    (λ _, ret []).

Definition contact_info (contact : pydict) (username : json) (low : string)
    : pydict :=
  <["source" := JStr "contacts"]>
  (<["found_in_chat" := JStr "Контакты"]>
  (<["chat_id" := JStr ""]>
  (<["id" := dget contact "id" (JStr "")]>
  (<["first_name" := dget contact "first_name" (JStr "")]>
  (<["last_name" := dget contact "last_name" (JStr "")]>
  (<["username" := username]>
  (<["phone" := dget contact "phone" (JStr "")]>
  (<["is_bot" := dget contact "is_bot" (JBool false)]>
  (<["matched_nick" := JStr low]> ∅))))))))).

Definition dialog_info (dialog : pydict) (username : json) (low : string)
    : pydict :=
  <["source" := JStr "chats"]>
  (<["found_in_chat" := JStr "Личные сообщения"]>
  (<["chat_id" := dget dialog "id" (JStr "")]>
  (<["id" := dget dialog "id" (JStr "")]>
  (<["first_name" := dget dialog "first_name" (JStr "")]>
  (<["last_name" := dget dialog "last_name" (JStr "")]>
  (<["username" := username]>
  (<["phone" := dget dialog "phone" (JStr "")]>
  (<["is_contact" := dget dialog "is_contact" (JBool false)]>
  (<["last_message_date" := dget dialog "last_message_date" (JStr "")]>
  (<["unread_count" := dget dialog "unread_count" (JInt 0)]>
  (<["matched_nick" := JStr low]> ∅))))))))))).

Definition member_info (member : pydict) (username : json) (low : string)
    : pydict :=
  <["source" := JStr "chat_members"]>
  (<["found_in_chat" :=
       JStr (py_str (dget member "chat_title" (JStr "")) +:+ " ("
             +:+ py_str (dget member "chat_type" (JStr "")) +:+ ")")]>
  (<["chat_id" := dget member "chat_id" (JStr "")]>
  (<["id" := dget member "user_id" (JStr "")]>
  (<["first_name" := dget member "first_name" (JStr "")]>
  (<["last_name" := dget member "last_name" (JStr "")]>
  (<["username" := username]>
  (<["phone" := dget member "phone" (JStr "")]>
  (<["is_bot" := dget member "is_bot" (JBool false)]>
  (<["is_premium" := dget member "is_premium" (JBool false)]>
  (<["is_verified" := dget member "is_verified" (JBool false)]>
  (<["matched_nick" := JStr low]> ∅))))))))))).

Definition _check_contacts (fm : FileManager) (nicknames_set : gset string)
    : M world (list pydict) :=
  check_dataset fm CONTACTS_JSON_TEMPLATE contact_info nicknames_set.

Definition _check_chats (fm : FileManager) (nicknames_set : gset string)
    : M world (list pydict) :=
  check_dataset fm DIALOGS_JSON_TEMPLATE dialog_info nicknames_set.

Definition _check_chat_members (fm : FileManager) (nicknames_set : gset string)
    : M world (list pydict) :=
  check_dataset fm CHAT_MEMBERS_JSON_TEMPLATE member_info nicknames_set.

(** The [contact.update(...)] of [_save_matches], chosen by
    [contact["source"]]. *)
Definition fill_missing (contact : pydict) : result pydict :=
  match contact !! "source" with
  | None => Raise (KeyError "source")
  | Some source =>
      if py_eq_str "contacts" source then
        Ok (<["is_contact" := JBool true]>
           (<["is_verified" := JBool false]>
           (<["is_premium" := JBool false]>
           (<["unread_count" := JInt 0]>
           (<["last_message_date" := JStr ""]> contact)))))
      else if py_eq_str "chats" source then
        Ok (<["is_verified" := JBool false]>
           (<["is_premium" := JBool false]> contact))
      else if py_eq_str "chat_members" source then
        Ok (<["unread_count" := JInt 0]>
           (<["last_message_date" := JStr ""]>
           (<["is_contact" := JBool false]> contact)))
      else Ok contact
  end.

(** The writing loop of [_save_matches]: each dict is updated in place and
    its row written; the result is the rows, the updated dicts and the
    exception that stopped the loop, if any. *)
Fixpoint write_matches (matched_contacts : list pydict)
    : list row * list pydict * option exn :=
  match matched_contacts with
  | [] => ([], [], None)
  | contact :: rest =>
      match fill_missing contact with
      | Raise e => ([], [], Some e)
      | Ok contact' =>
          match dict_to_list MATCHES_FIELDS contact' with
          | Raise e => ([], [contact'], Some e)
          | Ok r =>
              let '(rs, cs, e) := write_matches rest in
              (r :: rs, contact' :: cs, e)
          end
      end
  end.

Definition _save_matches (fm : FileManager) (matched_contacts : list pydict)
    : M world unit :=
  matched_csv <- lift (get_session_file_path fm NICKNAMES_MATCHES_CSV_TEMPLATE) ;;
  matched_json <- lift (get_session_file_path fm NICKNAMES_MATCHES_JSON_TEMPLATE) ;;
  let '(rs, updated, e) := write_matches matched_contacts in
  modify (with_csv <[matched_csv := header MATCHES_FIELDS :: rs]>) ;;
  match e with
  | Some e => raise e
  | None => json_dump matched_json (JList (JDict <$> updated))
  end.

Definition cross_reference_nicknames (fm : FileManager) : M world Z :=
  nicknames_set <- load_nicknames_list ;;
  if bool_decide (nicknames_set = ∅) then ret 0
  else
    from_contacts <- _check_contacts fm nicknames_set ;;
    from_chats <- _check_chats fm nicknames_set ;;
    from_members <- _check_chat_members fm nicknames_set ;;
    let matched_contacts := from_contacts ++ from_chats ++ from_members in
    (match matched_contacts with
     | [] => ret tt
     | _ => _save_matches fm matched_contacts
     end) ;;
    ret (Z.of_nat (length matched_contacts)).

(** ** The remote source ([TelegramClientWrapper]) *)

(** The part of a [chat_info] dict the pipeline reads; its [entity] and
    [dialog] objects stay with the source. *)
Record chat_info := {
  chat_id : Z;
  chat_title : string;
  chat_type : string
}.

(** What the remote calls answer during one run. *)
Record TelegramClientWrapper := {
  contacts_answer : result (list pydict);
  chats_answer : result (list pydict);
  group_chats_answer : result (list chat_info);
  members_answer : chat_info → result (list pydict)
}.

Definition get_contacts (tg : TelegramClientWrapper) : M world (list pydict) :=
  modify (with_event FetchContacts) ;; lift (contacts_answer tg).

Definition get_chats (tg : TelegramClientWrapper) : M world (list pydict) :=
  modify (with_event FetchChats) ;; lift (chats_answer tg).

Definition get_all_group_chats (tg : TelegramClientWrapper)
    : M world (list chat_info) :=
  modify (with_event FetchGroupChats) ;; lift (group_chats_answer tg).

Definition get_chat_members_for_chat (tg : TelegramClientWrapper)
    (chat : chat_info) : M world (list pydict) :=
  modify (with_event (FetchMembers (chat_id chat))) ;; lift (members_answer tg chat).

(** The records the wrapper builds from the objects of the remote library:
    [x or ""] for the texts, the flags as they come. *)
Record tl_user := {
  u_id : Z;
  u_first_name : option string;
  u_last_name : option string;
  u_username : option string;
  u_phone : option string;
  u_bot : option bool;
  u_contact : option bool;
  u_premium : option bool;
  u_verified : option bool
}.

Record tl_dialog := {
  d_entity : tl_user;
  d_date : option string;     (* [dialog.date.isoformat()] when there is a date *)
  d_unread_count : Z
}.

Definition text_or_empty (o : option string) : json := JStr (default "" o).

Definition flag (o : option bool) : json :=
  match o with
  | Some b => JBool b
  | None => JNull
  end.

(** [getattr(x, name, False)] *)
Definition flag_or_false (o : option bool) : json := JBool (default false o).

(** the dict of [get_contacts] *)
Definition contact_record (contact : tl_user) : pydict :=
  <["id" := JInt (u_id contact)]>
  (<["first_name" := text_or_empty (u_first_name contact)]>
  (<["last_name" := text_or_empty (u_last_name contact)]>
  (<["username" := text_or_empty (u_username contact)]>
  (<["phone" := text_or_empty (u_phone contact)]>
  (<["is_bot" := flag (u_bot contact)]>
  (<["is_contact" := JBool true]> ∅)))))).

(** the dict of [get_chats] *)
Definition dialog_record (dialog : tl_dialog) : pydict :=
  let entity := d_entity dialog in
  <["id" := JInt (u_id entity)]>
  (<["first_name" := text_or_empty (u_first_name entity)]>
  (<["last_name" := text_or_empty (u_last_name entity)]>
  (<["username" := text_or_empty (u_username entity)]>
  (<["phone" := text_or_empty (u_phone entity)]>
  (<["is_contact" := flag_or_false (u_contact entity)]>
  (<["last_message_date" := text_or_empty (d_date dialog)]>
  (<["unread_count" := JInt (d_unread_count dialog)]> ∅))))))).

(** the dict of [get_chat_members_for_chat] *)
Definition member_record (chat : chat_info) (member : tl_user) : pydict :=
  <["chat_id" := JInt (chat_id chat)]>
  (<["chat_title" := JStr (chat_title chat)]>
  (<["chat_type" := JStr (chat_type chat)]>
  (<["user_id" := JInt (u_id member)]>
  (<["first_name" := text_or_empty (u_first_name member)]>
  (<["last_name" := text_or_empty (u_last_name member)]>
  (<["username" := text_or_empty (u_username member)]>
  (<["phone" := text_or_empty (u_phone member)]>
  (<["is_bot" := flag_or_false (u_bot member)]>
  (<["is_premium" := flag_or_false (u_premium member)]>
  (<["is_verified" := flag_or_false (u_verified member)]> ∅)))))))))).

(** ** [TelegramExporter] *)

(** The dict literals passed to [save_progress]. *)
Definition progress_data (completed total : Z) (finished : bool) : pydict :=
  <["completed" := JInt completed]>
  (<["total" := JInt total]>
  (<["finished" := JBool finished]> ∅)).

(** The largest quotient [x] of two integers for which [x * 100] is still a
    finite float: the float quotient is rounded to nearest, and the product
    by 100 of the next float above this bound is infinite. *)
Definition FLOAT_LIMIT : Z := 11529215046068469 * 2 ^ 964.

(** [progress = int(done / total * 100)], whose value is only printed: the
    division raises for a zero [total], and [int] raises when the quotient
    times 100 is an infinite float. *)
Definition progress_percent (done total : Z) : result unit :=
  if total =? 0 then Raise ZeroDivisionError
  else if FLOAT_LIMIT * Z.abs total <? Z.abs done then Raise OverflowError
  else Ok tt.

(** The [for i, item in enumerate(items, completed)] loop of
    [export_contacts] and [export_chats]. *)
Fixpoint export_loop (fm : FileManager) (kind : string) (total i : Z)
    (items item_list : list pydict) : M world (list pydict) :=
  match items with
  | [] => ret item_list
  | item :: rest =>
      let item_list := item_list ++ [item] in
      lift (progress_percent (i + 1) total) ;;
      (if (i + 1) mod 10 =? 0
       then save_progress fm kind (progress_data (i + 1) total false)
       else ret tt) ;;
      export_loop fm kind total (i + 1) rest item_list
  end.

(** The common body of [export_contacts] and [export_chats]. A stored
    [completed] that is not an integer raises at the slice or at
    [enumerate]. *)
Definition export_records (fm : FileManager) (kind : string)
    (fetch : M world (list pydict)) (save : list pydict → M world Z)
    (resume : bool) : M world Z :=
  items <- fetch ;;
  let total := Z.of_nat (length items) in
  start <-
    (if resume then
       progress <- load_progress fm ;;
       known <- lift (py_contains_str kind progress) ;;
       if known then
         progress <- load_progress fm ;;
         entry <- lift (py_getitem progress kind) ;;
         completed <- lift (py_get entry "completed" (JInt 0)) ;;
         completed <- lift (py_index completed) ;;
         ret (completed, py_slice_from items completed)
       else ret (0, items)
     else ret (0, items)) ;;
  item_list <- export_loop fm kind total (fst start) (snd start) [] ;;
  save item_list ;;
  save_progress fm kind (progress_data total total true) ;;
  ret total.

Definition export_contacts (tg : TelegramClientWrapper) (fm : FileManager)
    (resume : bool) : M world Z :=
  export_records fm "contacts" (get_contacts tg) (save_contacts_to_files fm) resume.

Definition export_chats (tg : TelegramClientWrapper) (fm : FileManager)
    (resume : bool) : M world Z :=
  export_records fm "chats" (get_chats tg) (save_chats_to_files fm) resume.

(** The local variables of [export_chat_members] that its [except] branch
    reads and updates. *)
Record frame := Frame {
  processed_chat_ids : json;
  completed_chats : json;
  total_members : Z
}.

(** A file-manager or source call made from the loop. *)
Definition in_world {A} (m : M world A) : M (frame * world) A :=
  λ s, let '(r, w) := m (snd s) in (r, (fst s, w)).

Definition run_frame {A} (f : frame) (m : M (frame * world) A)
    : M world (A * frame) :=
  λ w, match m (f, w) with
       | (Ok a, (f', w')) => (Ok (a, f'), w')
       | (Raise e, (_, w')) => (Raise e, w')
       end.

Definition the_frame : M (frame * world) frame := gets fst.

Definition set_frame (g : frame → frame) : M (frame * world) unit :=
  modify (λ s, (g (fst s), snd s)).

(** [processed_chat_ids.append(chat_id); completed_chats += 1] *)
Definition mark_processed (chat : chat_info) : M (frame * world) unit :=
  f <- the_frame ;;
  ids <- lift (py_append (processed_chat_ids f) (JInt (chat_id chat))) ;;
  set_frame (λ f, Frame ids (completed_chats f) (total_members f)) ;;
  f <- the_frame ;;
  n <- lift (py_add1 (completed_chats f)) ;;
  set_frame (λ f, Frame (processed_chat_ids f) n (total_members f)).

Definition chat_members_data (f : frame) (total_chats : Z) (finished : bool)
    : pydict :=
  <["completed" := completed_chats f]>
  (<["total" := JInt total_chats]>
  (<["finished" := JBool finished]>
  (<["processed_items" := processed_chat_ids f]> ∅))).

(** [completed_chats > 0 or len(processed_chat_ids) > 0] *)
Definition append_wanted (f : frame) : result bool :=
  rbind (py_index (completed_chats f)) (λ c,
    if 0 <? c then Ok true
    else rbind (py_len (processed_chat_ids f)) (λ n, Ok (0 <? n))).

(** The [try] ... [except Exception] of the loop body. The percentage
    printed after a chat is not part of the model: it raises only for a
    [completed_chats] beyond [FLOAT_LIMIT * total_chats]. *)
Definition process_chat (tg : TelegramClientWrapper) (fm : FileManager)
    (total_chats : Z) (chat : chat_info) : M (frame * world) unit :=
  try_catch
    (chat_members <- in_world (get_chat_members_for_chat tg chat) ;;
     (match chat_members with
      | [] => ret tt
      | _ =>
          f <- the_frame ;;
          append <- lift (append_wanted f) ;;
          in_world (save_chat_members_to_files fm chat_members append) ;;
          set_frame (λ f, Frame (processed_chat_ids f) (completed_chats f)
                            (total_members f + Z.of_nat (length chat_members)))
      end) ;;
     mark_processed chat ;;
     f <- the_frame ;;
     done <- lift (py_index (completed_chats f)) ;;
     in_world (save_progress fm "chat_members"
                 (chat_members_data f total_chats (total_chats <=? done))))
    (λ _, mark_processed chat).

Fixpoint members_loop (tg : TelegramClientWrapper) (fm : FileManager)
    (total_chats : Z) (chats : list chat_info) : M (frame * world) unit :=
  match chats with
  | [] => ret tt
  | chat :: rest =>
      f <- the_frame ;;
      seen <- lift (py_contains_int (chat_id chat) (processed_chat_ids f)) ;;
      (if seen then ret tt else process_chat tg fm total_chats chat) ;;
      members_loop tg fm total_chats rest
  end.

(** [os.remove] of the two member files when they exist. *)
Definition clear_member_files (fm : FileManager) : M world unit :=
  csv_path <- lift (get_session_file_path fm CHAT_MEMBERS_CSV_TEMPLATE) ;;
  there <- exists_csv csv_path ;;
  (if there then remove_csv csv_path else ret tt) ;;
  json_path <- lift (get_session_file_path fm CHAT_MEMBERS_JSON_TEMPLATE) ;;
  there <- exists_json json_path ;;
  (if there then remove_json json_path else ret tt).

Definition fresh_frame : frame := Frame (JList []) (JInt 0) 0.

Definition export_chat_members (tg : TelegramClientWrapper) (fm : FileManager)
    (resume : bool) : M world Z :=
  all_chats <- get_all_group_chats tg ;;
  let total_chats := Z.of_nat (length all_chats) in
  if total_chats =? 0 then ret 0
  else
    start <-
      (if resume then
         progress <- load_progress fm ;;
         known <- lift (py_contains_str "chat_members" progress) ;;
         if known then
           progress <- load_progress fm ;;
           progress_data <- lift (py_getitem progress "chat_members") ;;
           ids <- lift (py_get progress_data "processed_items" (JList [])) ;;
           done <- lift (py_get progress_data "completed" (JInt 0)) ;;
           ret (Frame ids done 0)
         else ret fresh_frame
       else clear_member_files fm ;; ret fresh_frame) ;;
    final <- run_frame start (members_loop tg fm total_chats all_chats) ;;
    let f := snd final in
    save_progress fm "chat_members" (chat_members_data f total_chats true) ;;
    ret (total_members f).

(** ** [FileManager]: the legacy credentials file *)

Definition LEGACY_CREDENTIALS_FILE : string := "credentials.json".

Definition load_credentials : M world json :=
  there <- exists_json LEGACY_CREDENTIALS_FILE ;;
  if there then json_load LEGACY_CREDENTIALS_FILE else ret (JDict ∅).

Definition save_credentials (api_id api_hash phone : string) : M world unit :=
  let credentials : pydict :=
    <["api_id" := JStr api_id]>
    (<["api_hash" := JStr api_hash]>
    (<["phone" := JStr phone]> ∅)) in
  json_dump LEGACY_CREDENTIALS_FILE (JDict credentials).

(** ** [TelegramClientWrapper] over the remote library *)

Module Wrapper.

(** A dialog of [client.get_dialogs()]: what the wrapper reads of it. A
    flag of a received object is a boolean; [None] in [tl_user] stands for
    an entity without the attribute. *)
Record peer := {
  p_dialog : tl_dialog;
  p_is_user : bool;
  p_is_group : bool;
  p_is_channel : bool;
  p_title : option string
}.

(** The answers of the remote library during one run. *)
Record telethon := {
  contacts_result : result (list tl_user);    (* [GetContactsRequest] *)
  dialogs_result : result (list peer);        (* [get_dialogs] *)
  is_chat_entity : chat_info → bool;          (* [isinstance(entity, (Channel, Chat))] *)
  (* [GetParticipantsRequest] or [get_participants]; [None] is an object
     without [id] *)
  participants : chat_info → result (list (option tl_user))
}.

Definition get_contacts (t : telethon) : result (list pydict) :=
  rbind (contacts_result t) (λ contacts, Ok (contact_record <$> contacts)).

Definition get_chats (t : telethon) : result (list pydict) :=
  rbind (dialogs_result t) (λ dialogs,
    let user_dialogs := filter (λ d, p_is_user d = true) dialogs in
    Ok ((λ d, dialog_record (p_dialog d)) <$> user_dialogs)).

Definition chat_info_of (d : peer) : chat_info :=
  {| chat_id := u_id (d_entity (p_dialog d));
     chat_title := match p_title d with
                   | Some t => if String.eqb t "" then "Без названия" else t
                   | None => "Без названия"
                   end;
     chat_type := if p_is_channel d then "channel" else "group" |}.

Definition get_all_group_chats (t : telethon) : result (list chat_info) :=
  rbind (dialogs_result t) (λ dialogs,
    let group_dialogs :=
      filter (λ d, p_is_group d || p_is_channel d = true) dialogs in
    Ok (chat_info_of <$> group_dialogs)).

(** Every exception of the remote call is caught and leaves the list
    empty. *)
Definition get_chat_members_for_chat (t : telethon) (chat : chat_info)
    : result (list pydict) :=
  if is_chat_entity t chat then
    match participants t chat with
    | Ok members => Ok (member_record chat <$> omap (λ m, m) members)
    | Raise _ => Ok []
    end
  else Ok [].

End Wrapper.

(** The wrapper as the source of the pipeline. *)
Definition client_of (t : Wrapper.telethon) : TelegramClientWrapper :=
  {| contacts_answer := Wrapper.get_contacts t;
     chats_answer := Wrapper.get_chats t;
     group_chats_answer := Wrapper.get_all_group_chats t;
     members_answer := Wrapper.get_chat_members_for_chat t |}.

(** ** [MenuManager.ask_resume] and the export entries of the main loop *)

Definition YES_ANSWERS : list string := ["y"; "yes"; "да"; "д"].

(** [answer] is [input(...).lower()]: the line typed if the question is
    asked, in lower case. *)
Definition ask_resume (fm : FileManager) (export_type answer : string)
    : M world bool :=
  progress <- load_progress fm ;;
  known <- lift (py_contains_str export_type progress) ;;
  if known then
    entry <- lift (py_getitem progress export_type) ;;
    finished <- lift (py_get entry "finished" (JBool false)) ;;
    if py_truthy finished then ret false
    else ret (bool_decide (answer ∈ YES_ANSWERS))
  else ret false.

(** Choices 2, 3 and 4 of [TelegramExporter.run], once the connection is
    ensured: the question, then the export. *)
Definition choice_export_contacts (tg : TelegramClientWrapper)
    (fm : FileManager) (answer : string) : M world Z :=
  resume <- ask_resume fm "контактов" answer ;;
  export_contacts tg fm resume.

Definition choice_export_chats (tg : TelegramClientWrapper)
    (fm : FileManager) (answer : string) : M world Z :=
  resume <- ask_resume fm "чатов" answer ;;
  export_chats tg fm resume.

Definition choice_export_chat_members (tg : TelegramClientWrapper)
    (fm : FileManager) (answer : string) : M world Z :=
  resume <- ask_resume fm "участников чатов" answer ;;
  export_chat_members tg fm resume.

(** ** [SessionManager] *)

Record SessionManager := {
  sessions_dir : string
}.

Definition new_session_manager : SessionManager := {| sessions_dir := "sessions" |}.

Definition get_session_info_path (sm : SessionManager) (session_name : string)
    : string :=
  path_join (sessions_dir sm) (session_name +:+ "_info.json").

(** Unlike [load_progress], a file that does not parse counts as absent. *)
Definition get_session_info (sm : SessionManager) (session_name : string)
    : M world json :=
  let info_path := get_session_info_path sm session_name in
  there <- exists_json info_path ;;
  if there then
    try_catch (json_load info_path)
      (λ e, match e with
            | JSONDecodeError | FileNotFoundError => ret (JDict ∅)
            | _ => raise e
            end)
  else ret (JDict ∅).

Definition save_session_info (sm : SessionManager)
    (session_name api_id api_hash phone : string) : M world unit :=
  created <- datetime_now ;;
  last_used <- datetime_now ;;
  let info : pydict :=
    <["api_id" := JStr api_id]>
    (<["api_hash" := JStr api_hash]>
    (<["phone" := JStr phone]>
    (<["created" := JStr created]>
    (<["last_used" := JStr last_used]> ∅)))) in
  json_dump (get_session_info_path sm session_name) (JDict info).

Definition update_last_used (sm : SessionManager) (session_name : string)
    : M world unit :=
  info <- get_session_info sm session_name ;;
  now <- datetime_now ;;
  info <- lift (py_setitem info "last_used" (JStr now)) ;;
  json_dump (get_session_info_path sm session_name) info.

(** [all(key in info for key in keys)]: stops at the first missing key. *)
Fixpoint py_all_in (keys : list string) (info : json) : result bool :=
  match keys with
  | [] => Ok true
  | key :: rest =>
      rbind (py_contains_str key info) (λ b,
        if b then py_all_in rest info else Ok false)
  end.

Definition get_session_credentials (sm : SessionManager)
    (session_name : string) : M world (option pydict) :=
  info <- get_session_info sm session_name ;;
  if py_truthy info then
    complete <- lift (py_all_in ["api_id"; "api_hash"; "phone"] info) ;;
    if complete then
      api_id <- lift (py_getitem info "api_id") ;;
      api_hash <- lift (py_getitem info "api_hash") ;;
      phone <- lift (py_getitem info "phone") ;;
      ret (Some (<["api_id" := api_id]>
                (<["api_hash" := api_hash]>
                (<["phone" := phone]> ∅))))
    else ret None
  else ret None.

(** [c.isalnum()] on ASCII. *)
Definition isalnum (c : ascii) : bool :=
  let n := nat_of_ascii c in
  ((48 <=? n)%nat && (n <=? 57)%nat)
  || ((65 <=? n)%nat && (n <=? 90)%nat)
  || ((97 <=? n)%nat && (n <=? 122)%nat).

(** ["".join(c for c in phone if c.isalnum())] *)
Fixpoint clean_phone (phone : string) : string :=
  match phone with
  | EmptyString => EmptyString
  | String c rest =>
      if isalnum c then String c (clean_phone rest) else clean_phone rest
  end.

Definition create_session_name (phone : string) : string :=
  "session_" +:+ clean_phone phone.

(** * Specification vocabulary *)

(** The path of the session file made from [template]. *)
Definition session_file (fm : FileManager) (s template : string) : string :=
  path_join (path_join (exports_dir fm) s) (format template s).

(** The world after a successful [save_progress]. *)
Definition saved (fm : FileManager) (s kind : string) (data prior : pydict)
    (w : world) : world :=
  with_json
    <[session_file fm s PROGRESS_FILE_TEMPLATE :=
        Doc (JDict (<[kind := progress_entry (wall w (ticks w)) data]> prior))]>
    (with_tick w).

(** What the progress document of the session holds, read as a map: nothing
    when the file is absent, its entries when it is a JSON object. *)
Definition progress_is (fm : FileManager) (s : string) (w : world)
    (prior : pydict) : Prop :=
  match json_files w !! session_file fm s PROGRESS_FILE_TEMPLATE with
  | None => prior = ∅
  | Some (Doc (JDict d)) => prior = d
  | Some _ => False
  end.

(** A record fits a table when its keys are among the columns; then
    [DictWriter] writes it as [row_of]. *)
Definition fits (fieldnames : list string) (d : pydict) : Prop :=
  dom d ⊆ (list_to_set fieldnames : gset string).

Definition row_of (fieldnames : list string) (d : pydict) : row :=
  (λ k, default (JStr "") (d !! k)) <$> fieldnames.

(** What [save_chat_members_to_files] leaves in the CSV file that held
    [old]. *)
Definition members_csv_after (old : option (list row)) (append : bool)
    (members : list pydict) : list row :=
  match old with
  | Some rows =>
      if append then rows ++ (row_of CHAT_MEMBERS_FIELDS <$> members)
      else header CHAT_MEMBERS_FIELDS :: (row_of CHAT_MEMBERS_FIELDS <$> members)
  | None => header CHAT_MEMBERS_FIELDS :: (row_of CHAT_MEMBERS_FIELDS <$> members)
  end.

(** The records it finds in the JSON file; a document that is not a list
    makes the concatenation raise. *)
Definition members_json_before (old : option json_file) (append : bool)
    : option (list json) :=
  if append then
    match old with
    | Some (Doc (JList l)) => Some l
    | Some (Doc _) => None
    | Some (Malformed _) | None => Some []
    end
  else Some [].

(** What a scan finds in the dataset file [template] of session [s]. *)
Definition dataset_matches (fm : FileManager) (s template : string)
    (info : pydict → json → string → pydict) (nicknames_set : gset string)
    (w : world) : list pydict :=
  match json_files w !! session_file fm s template with
  | Some (Doc data) =>
      match py_iter data with
      | Ok records => scan (check_record info nicknames_set) records
      | Raise _ => []
      end
  | _ => []
  end.

(** A match that [_save_matches] can write: it has a [source] and, once
    completed, only the columns of the matches table. *)
Definition writable (m : pydict) : Prop :=
  ∃ m', fill_missing m = Ok m' ∧ fits MATCHES_FIELDS m'.

(** The fields [_save_matches] forces on a match found in the contacts. *)
Definition contacts_defaults (m : pydict) : Prop :=
  m !! "is_contact" = Some (JBool true)
  ∧ m !! "is_premium" = Some (JBool false)
  ∧ m !! "is_verified" = Some (JBool false)
  ∧ m !! "last_message_date" = Some (JStr "")
  ∧ m !! "unread_count" = Some (JInt 0).

(** All matches of the three scans, in the order of
    [cross_reference_nicknames]. *)
Definition all_matches (fm : FileManager) (ns : gset string) (w : world)
    : list pydict :=
  match session_of fm with
  | Some s =>
      dataset_matches fm s CONTACTS_JSON_TEMPLATE contact_info ns w
      ++ dataset_matches fm s DIALOGS_JSON_TEMPLATE dialog_info ns w
      ++ dataset_matches fm s CHAT_MEMBERS_JSON_TEMPLATE member_info ns w
  | None => []
  end.

(** The matcher in the words of its description: a record is a candidate
    when its username is a non-empty string whose lower-cased form is one of
    the targets; [match_of] is the match emitted for it. *)
Definition candidate (ns : gset string) (d : pydict) : Prop :=
  ∃ u, d !! "username" = Some (JStr u) ∧ u ≠ "" ∧ lower u ∈ ns.

Definition match_of (info : pydict → json → string → pydict)
    (ns : gset string) (d : pydict) : option pydict :=
  match d !! "username" with
  | Some (JStr u) =>
      if bool_decide (u ≠ "" ∧ lower u ∈ ns)
      then Some (info d (JStr u) (lower u))
      else None
  | _ => None
  end.

(** The username of an exported record is a string; a value that Python
    takes for false is as good as none. *)
Definition username_ok (d : pydict) : Prop :=
  match d !! "username" with
  | Some (JStr _) | None => True
  | Some v => py_truthy v = false
  end.

(** The cell of a row under the column [name]. *)
Definition cell (fieldnames : list string) (r : row) (name : string)
    : option json :=
  match list_find (λ k, k = name) fieldnames with
  | Some (i, _) => r !! i
  | None => None
  end.

(** The same defaults, read in the row written to the matches table. *)
Definition contacts_row_defaults (r : row) : Prop :=
  cell MATCHES_FIELDS r "is_contact" = Some (JBool true)
  ∧ cell MATCHES_FIELDS r "is_premium" = Some (JBool false)
  ∧ cell MATCHES_FIELDS r "is_verified" = Some (JBool false)
  ∧ cell MATCHES_FIELDS r "last_message_date" = Some (JStr "")
  ∧ cell MATCHES_FIELDS r "unread_count" = Some (JInt 0).

(** From [w] to [w'] nothing but the progress document (and the clock)
    changed. *)
Definition only_progress_changed (fm : FileManager) (s : string)
    (w w' : world) : Prop :=
  csv_files w' = csv_files w
  ∧ text_files w' = text_files w
  ∧ trace w' = trace w
  ∧ wall w' = wall w
  ∧ ∀ p, p ≠ session_file fm s PROGRESS_FILE_TEMPLATE →
         json_files w' !! p = json_files w !! p.

(** Two progress maps with the same entries away from [kind]. *)
Definition agree_off (kind : string) (m m' : pydict) : Prop :=
  ∀ k, k ≠ kind → m !! k = m' !! k.

(** The members the source gives for [chats], in order; a chat whose fetch
    raises gives none. *)
Definition members_of (tg : TelegramClientWrapper) (chat : chat_info)
    : list pydict :=
  match members_answer tg chat with
  | Ok ms => ms
  | Raise _ => []
  end.

Definition fetched (tg : TelegramClientWrapper) (chats : list chat_info)
    : list pydict :=
  concat (members_of tg <$> chats).

(** The two member files hold exactly [collected]: no file when nothing was
    collected, else one header and a row per member, and the JSON list. *)
Definition members_hold (fm : FileManager) (s : string) (w : world)
    (collected : list pydict) : Prop :=
  match collected with
  | [] =>
      csv_files w !! session_file fm s CHAT_MEMBERS_CSV_TEMPLATE = None
      ∧ json_files w !! session_file fm s CHAT_MEMBERS_JSON_TEMPLATE = None
  | _ =>
      csv_files w !! session_file fm s CHAT_MEMBERS_CSV_TEMPLATE
      = Some (header CHAT_MEMBERS_FIELDS
              :: (row_of CHAT_MEMBERS_FIELDS <$> collected))
      ∧ json_files w !! session_file fm s CHAT_MEMBERS_JSON_TEMPLATE
        = Some (Doc (JList (JDict <$> collected)))
  end.

(** The entry of a finished [chat_members] run over [n] chats. *)
Definition members_entry (ts : string) (n : Z) (ids : list Z) : json :=
  JDict (<["timestamp" := JStr ts]>
        (<["completed" := JInt n]>
        (<["total" := JInt n]>
        (<["finished" := JBool true]>
        (<["processed_items" := JList (JInt <$> ids)]> ∅))))).

(** Appending calls of [save_chat_members_to_files], one per batch; the
    result is the number of records written. *)
Fixpoint save_batches (fm : FileManager) (batches : list (list pydict))
    : M world Z :=
  match batches with
  | [] => ret 0
  | batch :: rest =>
      n <- save_chat_members_to_files fm batch true ;;
      m <- save_batches fm rest ;;
      ret (n + m)
  end.

(** What [_save_matches] leaves on a match found in the chats: no [is_bot]
    at all; and on a match found in the chat members. *)
Definition chats_defaults (m : pydict) : Prop :=
  m !! "is_premium" = Some (JBool false)
  ∧ m !! "is_verified" = Some (JBool false)
  ∧ m !! "is_bot" = None
  ∧ cell MATCHES_FIELDS (row_of MATCHES_FIELDS m) "is_bot" = Some (JStr "").

Definition members_defaults (m : pydict) : Prop :=
  m !! "is_contact" = Some (JBool false)
  ∧ m !! "last_message_date" = Some (JStr "")
  ∧ m !! "unread_count" = Some (JInt 0).

(** A match as one of the three scans builds it. *)
Definition scan_built (m : pydict) : Prop :=
  (∃ d u low, m = contact_info d u low)
  ∨ (∃ d u low, m = dialog_info d u low)
  ∨ (∃ d u low, m = member_info d u low).

(** The dataset file [template] holds [records], or is absent and [records]
    is empty. *)
Definition dataset_is (fm : FileManager) (s template : string) (w : world)
    (records : list pydict) : Prop :=
  json_files w !! session_file fm s template
  = Some (Doc (JList (JDict <$> records)))
  ∨ (json_files w !! session_file fm s template = None ∧ records = []).

(** The chats a run still has to process when [done] are processed: each
    new chat id once, in the order of the list. *)
Fixpoint pending (done : list Z) (chats : list chat_info) : list chat_info :=
  match chats with
  | [] => []
  | chat :: rest =>
      if bool_decide (chat_id chat ∈ done) then pending done rest
      else chat :: pending (done ++ [chat_id chat]) rest
  end.

(** The entry that ends a [chat_members] run. *)
Definition chat_members_entry (ts : string) (completed total : Z)
    (ids : list Z) : json :=
  JDict (<["timestamp" := JStr ts]>
        (<["completed" := JInt completed]>
        (<["total" := JInt total]>
        (<["finished" := JBool true]>
        (<["processed_items" := JList (JInt <$> ids)]> ∅))))).

(** Where the percentage of the loop can be shown: the loop has nothing to
    do, or it counts from [i] up to [total] at most, and [i] is not below
    [- total]. *)
Definition within_total (total i : Z) (items : list pydict) : Prop :=
  items = []
  ∨ (0 < total ∧ - total ≤ i ∧ i + Z.of_nat (length items) ≤ total).

(** Text within ASCII, where [str.isalnum] is as modelled. *)
Definition ascii_text (s : string) : Prop :=
  Forall (λ c, (nat_of_ascii c < 128)%nat) (list_ascii_of_string s).

Definition LETTERS_AND_DIGITS : string :=
  "0123456789ABCDEFGHIJKLMNOPQRSTUVWXYZabcdefghijklmnopqrstuvwxyz".

(** The letters and digits of a text, in order. *)
Definition letters_and_digits (s : string) : list ascii :=
  filter (λ c, c ∈ list_ascii_of_string LETTERS_AND_DIGITS)
    (list_ascii_of_string s).

(** * Sample data *)

(** A concrete session and an empty disk, for the examples. *)
Definition demo_fm : FileManager := set_session "session_79991234567" new_file_manager.

Definition demo_wall (n : nat) : string :=
  "2024-05-01T10:00:" +:+
  String (ascii_of_nat (48 + n / 10)) (String (ascii_of_nat (48 + n mod 10)) "").

Definition blank_world : world := World ∅ ∅ ∅ demo_wall 0 [].

Definition demo_progress_path : string :=
  "exports/session_79991234567/export_progress_session_79991234567.json".

(** A member record as the source builds it, for the examples. *)
Definition demo_member (chat user : Z) (username : string) : pydict :=
  <["chat_id" := JInt chat]>
  (<["chat_title" := JStr "Rocq users"]>
  (<["chat_type" := JStr "group"]>
  (<["user_id" := JInt user]>
  (<["first_name" := JStr "Ann"]>
  (<["last_name" := JStr ""]>
  (<["username" := JStr username]>
  (<["phone" := JStr ""]>
  (<["is_bot" := JBool false]>
  (<["is_premium" := JBool true]>
  (<["is_verified" := JBool false]> ∅)))))))))).

(** A contact as the source builds it, for the examples. *)
Definition demo_contact (id : Z) (username : string) : pydict :=
  <["id" := JInt id]>
  (<["first_name" := JStr "Ann"]>
  (<["last_name" := JStr ""]>
  (<["username" := JStr username]>
  (<["phone" := JStr "79990000000"]>
  (<["is_bot" := JBool false]>
  (<["is_contact" := JBool true]> ∅)))))).

Definition demo_contacts_path : string :=
  "exports/session_79991234567/telegram_contacts_session_79991234567.json".

(** Target [alice]: ["Alice"] matches, ["alice2"] does not, neither does an
    empty or a missing username. *)
Definition demo_scan_world : world :=
  World {[demo_contacts_path :=
            Doc (JList (JDict <$> [demo_contact 1 "Alice"; demo_contact 2 "alice2";
                                   demo_contact 3 ""; {["id" := JInt 4]}]))]}
    ∅ {[NICKNAMES_FILE := Readable "  alice 
"]} demo_wall 0 [].

(** A contact on disk that claims to be premium, verified and not a
    contact, with an unread count: the match written for it has the forced
    values. *)
Definition odd_contact : pydict :=
  <["is_contact" := JBool false]>
  (<["is_premium" := JBool true]>
  (<["is_verified" := JBool true]>
  (<["unread_count" := JInt 7]>
  (<["last_message_date" := JStr "2024-04-30"]> (demo_contact 1 "Alice"))))).

Definition odd_world : world :=
  World {[demo_contacts_path := Doc (JList [JDict odd_contact])]}
    ∅ {[NICKNAMES_FILE := Readable "alice"]} demo_wall 0 [].

Definition odd_world_after : world :=
  snd (cross_reference_nicknames demo_fm odd_world).

(** An earlier run left matches files; the targets now match nothing. *)
Definition demo_matches_csv : string :=
  "exports/session_79991234567/telegram_nicknames_matches_session_79991234567.csv".
Definition demo_matches_json : string :=
  "exports/session_79991234567/telegram_nicknames_matches_session_79991234567.json".

Definition stale_world : world :=
  World {[demo_contacts_path := Doc (JList [JDict (demo_contact 1 "Alice")]);
          demo_matches_json := Doc (JList [JDict (demo_contact 9 "old")])]}
    {[demo_matches_csv := [header MATCHES_FIELDS]]}
    {[NICKNAMES_FILE := Readable "bob"]} demo_wall 0 [].

(** Seven contacts at the source, three of them done in an earlier run. *)
Definition seven_contacts : list pydict :=
  [demo_contact 1 "ann"; demo_contact 2 "bob"; demo_contact 3 "cyd";
   demo_contact 4 "dee"; demo_contact 5 "eve"; demo_contact 6 "fay";
   demo_contact 7 "gus"].

Definition demo_tg (contacts : list pydict) : TelegramClientWrapper :=
  {| contacts_answer := Ok contacts;
     chats_answer := Ok [];
     group_chats_answer := Ok [];
     members_answer := λ _, Ok [] |}.

Definition demo_contacts_csv : string :=
  "exports/session_79991234567/telegram_contacts_session_79991234567.csv".

Definition interrupted_world : world :=
  World {[demo_progress_path :=
            Doc (JDict {["contacts" := JDict (progress_data 3 7 false)]})]}
    ∅ ∅ demo_wall 0 [].

(** An export of five contacts that finished, and the same five contacts
    still at the source. *)
Definition five_contacts : list pydict := take 5 seven_contacts.

Definition finished_world : world :=
  World {[demo_progress_path :=
            Doc (JDict {["contacts" := JDict (progress_data 5 5 true)]});
          demo_contacts_path := Doc (JList (JDict <$> five_contacts))]}
    {[demo_contacts_csv :=
        header CONTACTS_FIELDS :: (row_of CONTACTS_FIELDS <$> five_contacts)]}
    ∅ demo_wall 0 [].

Definition finished_run : result Z * world :=
  export_contacts (demo_tg five_contacts) demo_fm true finished_world.

(** Three chats; the members of the second cannot be fetched. *)
Definition three_chats : list chat_info :=
  [ {| chat_id := 101; chat_title := "Rocq users"; chat_type := "group" |};
    {| chat_id := 102; chat_title := "Private"; chat_type := "channel" |};
    {| chat_id := 103; chat_title := "News"; chat_type := "channel" |} ].

Definition second_fails : TelegramClientWrapper :=
  {| contacts_answer := Ok [];
     chats_answer := Ok [];
     group_chats_answer := Ok three_chats;
     members_answer := λ c,
       if chat_id c =? 102 then Raise (RemoteError "ChannelPrivateError")
       else Ok [demo_member (chat_id c) 1 "alice"] |}.

Definition demo_members_csv : string :=
  "exports/session_79991234567/telegram_chat_members_session_79991234567.csv".
Definition demo_members_json : string :=
  "exports/session_79991234567/telegram_chat_members_session_79991234567.json".

(** Member files of an earlier run whose JSON file was damaged. *)
Definition garbled_members_world : world :=
  World {[demo_members_json := Malformed "[{"]}
    {[demo_members_csv :=
        [header CHAT_MEMBERS_FIELDS;
         row_of CHAT_MEMBERS_FIELDS (demo_member 1 1 "ann")]]}
    ∅ demo_wall 0 [].

(** A dialog record as the source builds it, for the examples. *)
Definition demo_dialog (id : Z) (username : string) : pydict :=
  <["id" := JInt id]>
  (<["first_name" := JStr "Ann"]>
  (<["last_name" := JStr ""]>
  (<["username" := JStr username]>
  (<["phone" := JStr ""]>
  (<["is_contact" := JBool true]>
  (<["last_message_date" := JStr "2024-04-30T09:00:00"]>
  (<["unread_count" := JInt 3]> ∅))))))).

Definition demo_dialogs_path : string :=
  "exports/session_79991234567/telegram_dialogs_session_79991234567.json".

(** All three datasets exported; the target [alice] is in each of them. *)
Definition mixed_world : world :=
  World {[demo_contacts_path :=
            Doc (JList (JDict <$> [demo_contact 1 "bob"; demo_contact 2 "Alice"]));
          demo_dialogs_path :=
            Doc (JList (JDict <$> [demo_dialog 2 "alice"; demo_dialog 3 "cyd"]));
          demo_members_json :=
            Doc (JList (JDict <$> [demo_member 10 2 "ALICE"]))]}
    ∅ {[NICKNAMES_FILE := Readable "alice"]} demo_wall 0 [].

Definition mixed_world_after : world :=
  snd (cross_reference_nicknames demo_fm mixed_world).

(** A progress document edited by hand: [completed] is a string. *)
Definition edited_world : world :=
  World {[demo_progress_path :=
            Doc (JDict {["contacts" := JDict {["completed" := JStr "3"]}]})]}
    ∅ ∅ demo_wall 0 [].

(** A [chat_members] run that stopped after the first of the three chats. *)
Definition stopped_entry : pydict :=
  chat_members_data (Frame (JList [JInt 101]) (JInt 1) 1) 3 false.

Definition stopped_world : world :=
  World {[demo_progress_path := Doc (JDict {["chat_members" := JDict stopped_entry]});
          demo_members_json := Doc (JList (JDict <$> [demo_member 101 1 "alice"]))]}
    {[demo_members_csv :=
        header CHAT_MEMBERS_FIELDS
        :: (row_of CHAT_MEMBERS_FIELDS <$> [demo_member 101 1 "alice"])]}
    ∅ demo_wall 1 [].

(** The same chat listed twice by the source. *)
Definition doubled_chats : list chat_info :=
  [ {| chat_id := 101; chat_title := "Rocq users"; chat_type := "group" |};
    {| chat_id := 101; chat_title := "Rocq users"; chat_type := "channel" |} ].

Definition doubled_source : TelegramClientWrapper :=
  {| contacts_answer := Ok [];
     chats_answer := Ok [];
     group_chats_answer := Ok doubled_chats;
     members_answer := λ c, Ok [demo_member (chat_id c) 1 "alice"] |}.

(** A remote account: two contacts, a private dialog and two groups; the
    participants of the channel cannot be read. *)
Definition ann : tl_user :=
  {| u_id := 7; u_first_name := Some "Ann"; u_last_name := None;
     u_username := Some "Ann_K"; u_phone := Some "79990000001";
     u_bot := Some false; u_contact := Some true;
     u_premium := Some false; u_verified := None |}.

Definition nameless : tl_user :=
  {| u_id := 8; u_first_name := None; u_last_name := None;
     u_username := None; u_phone := None;
     u_bot := Some true; u_contact := None;
     u_premium := None; u_verified := None |}.

Definition group_entity (id : Z) : tl_user :=
  {| u_id := id; u_first_name := None; u_last_name := None;
     u_username := None; u_phone := None;
     u_bot := None; u_contact := None;
     u_premium := None; u_verified := None |}.

Definition demo_peers : list Wrapper.peer :=
  [ {| Wrapper.p_dialog := {| d_entity := ann; d_date := Some "2024-04-30T09:00:00";
                              d_unread_count := 2 |};
       Wrapper.p_is_user := true; Wrapper.p_is_group := false;
       Wrapper.p_is_channel := false; Wrapper.p_title := Some "Ann" |};
    {| Wrapper.p_dialog := {| d_entity := group_entity 201; d_date := None;
                              d_unread_count := 0 |};
       Wrapper.p_is_user := false; Wrapper.p_is_group := true;
       Wrapper.p_is_channel := false; Wrapper.p_title := Some "Family" |};
    {| Wrapper.p_dialog := {| d_entity := group_entity 202; d_date := None;
                              d_unread_count := 0 |};
       Wrapper.p_is_user := false; Wrapper.p_is_group := false;
       Wrapper.p_is_channel := true; Wrapper.p_title := None |} ].

Definition demo_remote : Wrapper.telethon :=
  {| Wrapper.contacts_result := Ok [ann; nameless];
     Wrapper.dialogs_result := Ok demo_peers;
     Wrapper.is_chat_entity := λ _, true;
     Wrapper.participants := λ chat,
       if chat_id chat =? 202 then Raise (RemoteError "ChatAdminRequiredError")
       else Ok [Some ann; None; Some nameless] |}.

(** A progress document that parses and is not an object. *)
Definition list_progress_world : world :=
  World {[demo_progress_path := Doc (JList [])]} ∅ ∅ demo_wall 0 [].

(** A progress document cut short by an interrupted write. *)
Definition garbled_progress_world : world :=
  World {[demo_progress_path := Malformed "{contacts: "]} ∅ ∅ demo_wall 0 [].

(** A source that cannot be reached. *)
Definition offline : TelegramClientWrapper :=
  {| contacts_answer := Raise (RemoteError "ConnectionError");
     chats_answer := Raise (RemoteError "ConnectionError");
     group_chats_answer := Raise (RemoteError "ConnectionError");
     members_answer := λ _, Ok [] |}.

(** * Properties *)

(** ** Paths *)

Lemma path_of fm s template :
  session_of fm = Some s →
  get_session_file_path fm template = Ok (session_file fm s template).
Proof.
  intros Hs. unfold get_session_file_path, get_session_dir. rewrite Hs.
  reflexivity.
Qed.

Lemma append_cancel (a x y : string) : a +:+ x = a +:+ y → x = y.
Proof. induction a as [|c a IH]; simpl; [done|]. intros [= H]. auto. Qed.

Lemma session_file_inj fm s t1 t2 :
  session_file fm s t1 = session_file fm s t2 → format t1 s = format t2 s.
Proof.
  unfold session_file, path_join. intros H.
  apply append_cancel in H. by apply append_cancel in H.
Qed.

(** Two session files differ when their names do. *)
Ltac distinct_files :=
  let H := fresh in
  intros H; apply session_file_inj in H; cbn in H;
  repeat (injection H as _ H); try discriminate H;
  try (apply append_cancel in H; discriminate H).

Lemma progress_not_members_json fm s :
  session_file fm s PROGRESS_FILE_TEMPLATE
  ≠ session_file fm s CHAT_MEMBERS_JSON_TEMPLATE.
Proof. distinct_files. Qed.

Lemma progress_not_contacts_json fm s :
  session_file fm s PROGRESS_FILE_TEMPLATE
  ≠ session_file fm s CONTACTS_JSON_TEMPLATE.
Proof. distinct_files. Qed.

Lemma progress_not_dialogs_json fm s :
  session_file fm s PROGRESS_FILE_TEMPLATE
  ≠ session_file fm s DIALOGS_JSON_TEMPLATE.
Proof. distinct_files. Qed.

(** ** Progress store *)

Lemma load_progress_eq fm s w :
  session_of fm = Some s →
  load_progress fm w =
    match json_files w !! session_file fm s PROGRESS_FILE_TEMPLATE with
    | None => (Ok (JDict ∅), w)
    | Some (Doc v) => (Ok v, w)
    | Some (Malformed _) => (Raise JSONDecodeError, w)
    end.
Proof.
  intros Hs. unfold load_progress. rewrite Hs.
  unfold bind, lift. rewrite (path_of _ _ _ Hs).
  unfold exists_json, json_load, gets, bind; simpl.
  destruct (json_files w !! _) as [[v|raw]|] eqn:E; simpl;
    rewrite ?E; reflexivity.
Qed.

Lemma load_progress_no_session fm w :
  session_of fm = None → load_progress fm w = (Ok (JDict ∅), w).
Proof. intros Hs. unfold load_progress. by rewrite Hs. Qed.

(** Loading never changes the world. *)
Lemma load_progress_pure fm w : snd (load_progress fm w) = w.
Proof.
  destruct (session_of fm) as [s|] eqn:Hs.
  - rewrite (load_progress_eq _ _ _ Hs).
    by destruct (json_files w !! _) as [[v|raw]|].
  - by rewrite load_progress_no_session.
Qed.

Lemma save_progress_eq fm s kind data prior w :
  session_of fm = Some s →
  load_progress fm w = (Ok (JDict prior), w) →
  save_progress fm kind data w = (Ok tt, saved fm s kind data prior w).
Proof.
  intros Hs Hl. unfold save_progress. rewrite Hs.
  unfold bind at 1. rewrite Hl.
  unfold datetime_now, bind, gets, modify, lift, ret, json_dump; simpl.
  rewrite (path_of _ _ _ Hs). reflexivity.
Qed.

Lemma load_after_save fm s kind data prior w :
  session_of fm = Some s →
  load_progress fm (saved fm s kind data prior w)
  = (Ok (JDict (<[kind := progress_entry (wall w (ticks w)) data]> prior)),
     saved fm s kind data prior w).
Proof.
  intros Hs. rewrite (load_progress_eq _ _ _ Hs).
  unfold saved, with_json; simpl. by rewrite lookup_insert_eq.
Qed.

Lemma progress_is_load fm s w prior :
  session_of fm = Some s → progress_is fm s w prior →
  load_progress fm w = (Ok (JDict prior), w).
Proof.
  intros Hs Hp. rewrite (load_progress_eq _ _ _ Hs). unfold progress_is in Hp.
  destruct (json_files w !! _) as [[[]|]|]; try done; by subst.
Qed.

Lemma progress_is_saved fm s kind data prior w :
  progress_is fm s (saved fm s kind data prior w)
    (<[kind := progress_entry (wall w (ticks w)) data]> prior).
Proof. unfold progress_is, saved, with_json; simpl. by rewrite lookup_insert_eq. Qed.

(** [load_progress] with no persisted document gives the empty map. *)
Lemma load_progress_absent fm s w :
  session_of fm = Some s →
  json_files w !! session_file fm s PROGRESS_FILE_TEMPLATE = None →
  load_progress fm w = (Ok (JDict ∅), w).
Proof. intros Hs Hn. rewrite (load_progress_eq _ _ _ Hs). by rewrite Hn. Qed.

(** C2: [load_progress] on a progress document that is not JSON: the
    [JSONDecodeError] of [json.load] reaches the caller, where the claim
    wants the empty map; with no document the empty map is returned. *)
Theorem load_progress_malformed_raises :
  load_progress demo_fm
    (World {[demo_progress_path := Malformed "{contacts: "]} ∅ ∅ demo_wall 0 [])
  = (Raise JSONDecodeError,
     World {[demo_progress_path := Malformed "{contacts: "]} ∅ ∅ demo_wall 0 [])
  ∧ load_progress demo_fm blank_world = (Ok (JDict ∅), blank_world).
Proof. split; vm_compute; reflexivity. Qed.

(** C4, as stated, fails for a progress file that parses but does not hold
    an object: on the document [[]] the load succeeds, the item assignment
    of [save_progress] raises [TypeError], and the file is left as it was,
    without the new entry. *)
Lemma save_progress_on_list_raises :
  load_progress demo_fm list_progress_world
  = (Ok (JList []), list_progress_world)
  ∧ fst (save_progress demo_fm "contacts" (progress_data 50 100 false)
           list_progress_world)
    = Raise TypeError
  ∧ json_files (snd (save_progress demo_fm "contacts"
                       (progress_data 50 100 false) list_progress_world))
    = json_files list_progress_world.
Proof. split; [|split]; reflexivity. Qed.

(** C4, amended: [save_progress] is a read-modify-write of the progress
    document. When the document is absent or holds a JSON object [prior],
    the save succeeds, and a load right after it returns a map that has at
    [kind] the entry built from [data] (the time of the save, and
    [completed], [total], [finished] and [processed_items] of [data] or
    their defaults 0, 0, false and the empty list) and at every other kind
    the value of [prior]; no other file changes. When the document parses
    to anything else, the save raises [TypeError] and no file changes. *)
Theorem save_progress_read_modify_write fm s kind data w :
  session_of fm = Some s →
  (∀ prior,
     progress_is fm s w prior →
     ∃ w' after,
       save_progress fm kind data w = (Ok tt, w')
       ∧ load_progress fm w' = (Ok (JDict after), w')
       ∧ after !! kind
         = Some (JDict
             (<["timestamp" := JStr (wall w (ticks w))]>
             (<["completed" := default (JInt 0) (data !! "completed")]>
             (<["total" := default (JInt 0) (data !! "total")]>
             (<["finished" := default (JBool false) (data !! "finished")]>
             (<["processed_items" :=
                  default (JList []) (data !! "processed_items")]> ∅))))))
       ∧ (∀ k, k ≠ kind → after !! k = prior !! k)
       ∧ (∀ p, p ≠ session_file fm s PROGRESS_FILE_TEMPLATE →
               json_files w' !! p = json_files w !! p)
       ∧ csv_files w' = csv_files w
       ∧ text_files w' = text_files w)
  ∧ (∀ v,
       json_files w !! session_file fm s PROGRESS_FILE_TEMPLATE = Some (Doc v) →
       (∀ d, v ≠ JDict d) →
       ∃ w',
         save_progress fm kind data w = (Raise TypeError, w')
         ∧ json_files w' = json_files w
         ∧ csv_files w' = csv_files w
         ∧ text_files w' = text_files w).
Proof.
  intros Hs. split.
  - intros prior Hp.
    exists (saved fm s kind data prior w),
           (<[kind := progress_entry (wall w (ticks w)) data]> prior).
    split; [|split; [|split; [|split; [|split; [|split]]]]].
    + apply save_progress_eq; [done|]. by apply progress_is_load with s.
    + by apply load_after_save.
    + apply lookup_insert_eq.
    + intros k Hk. by rewrite lookup_insert_ne.
    + intros p Hp'. unfold saved, with_json; simpl. by rewrite lookup_insert_ne.
    + reflexivity.
    + reflexivity.
  - intros v Hf Hv. exists (with_tick w).
    unfold save_progress. rewrite Hs. unfold bind at 1.
    rewrite (load_progress_eq _ _ _ Hs), Hf.
    unfold bind at 1, datetime_now, bind, gets, modify, ret, lift.
    cbn [fst snd].
    destruct v as [| | | | |d]; try done. by destruct (Hv d).
Qed.

Lemma save_progress_read_modify_write_witness :
  session_of demo_fm = Some "session_79991234567"
  ∧ progress_is demo_fm "session_79991234567"
      (World {[demo_progress_path :=
                 Doc (JDict {["chats" := JDict (progress_data 7 7 true)]})]}
         ∅ ∅ demo_wall 3 [])
      {["chats" := JDict (progress_data 7 7 true)]}
  ∧ ∃ w' after,
      save_progress demo_fm "contacts" (progress_data 50 100 false)
        (World {[demo_progress_path :=
                   Doc (JDict {["chats" := JDict (progress_data 7 7 true)]})]}
           ∅ ∅ demo_wall 3 [])
      = (Ok tt, w')
      ∧ load_progress demo_fm w' = (Ok (JDict after), w')
      ∧ after !! "contacts"
        = Some (JDict
            (<["timestamp" := JStr "2024-05-01T10:00:03"]>
            (<["completed" := JInt 50]>
            (<["total" := JInt 100]>
            (<["finished" := JBool false]>
            (<["processed_items" := JList []]> ∅))))))
      ∧ after !! "chats" = Some (JDict (progress_data 7 7 true)).
Proof.
  assert (Hs : session_of demo_fm = Some "session_79991234567") by reflexivity.
  assert (Hp : progress_is demo_fm "session_79991234567"
      (World {[demo_progress_path :=
                 Doc (JDict {["chats" := JDict (progress_data 7 7 true)]})]}
         ∅ ∅ demo_wall 3 [])
      {["chats" := JDict (progress_data 7 7 true)]}) by (vm_compute; reflexivity).
  split; [exact Hs|]. split; [exact Hp|].
  destruct (save_progress_read_modify_write demo_fm "session_79991234567"
              "contacts" (progress_data 50 100 false)
              (World {[demo_progress_path :=
                 Doc (JDict {["chats" := JDict (progress_data 7 7 true)]})]}
                 ∅ ∅ demo_wall 3 []) Hs) as [H _].
  destruct (H _ Hp) as (w' & after & H1 & H2 & H3 & H4 & _).
  exists w', after. split; [exact H1|]. split; [exact H2|].
  split; [exact H3|]. rewrite H4; [|discriminate]. reflexivity.
Defined.

(** C5: [save_chat_members_to_files] with an empty list returns 0 before
    looking at the session or the files: the world, and with it both member
    files, is the one it started from. *)
Theorem save_no_members_is_noop fm append w :
  save_chat_members_to_files fm [] append w = (Ok 0, w).
Proof. reflexivity. Qed.

(** ** Record writers *)

Lemma dict_to_list_fits fieldnames d :
  fits fieldnames d → dict_to_list fieldnames d = Ok (row_of fieldnames d).
Proof. intros H. unfold dict_to_list. by rewrite bool_decide_true. Qed.

Lemma writerows_fits fieldnames ds :
  Forall (fits fieldnames) ds →
  writerows fieldnames ds = (row_of fieldnames <$> ds, None).
Proof.
  induction 1 as [|d ds Hd _ IH]; simpl; [done|].
  by rewrite dict_to_list_fits, IH.
Qed.

Lemma save_chat_members_eq fm s members append existing w :
  session_of fm = Some s →
  members ≠ [] →
  Forall (fits CHAT_MEMBERS_FIELDS) members →
  members_json_before
    (json_files w !! session_file fm s CHAT_MEMBERS_JSON_TEMPLATE) append
  = Some existing →
  save_chat_members_to_files fm members append w
  = (Ok (Z.of_nat (length members)),
     with_json <[session_file fm s CHAT_MEMBERS_JSON_TEMPLATE :=
                   Doc (JList (existing ++ (JDict <$> members)))]>
       (with_csv <[session_file fm s CHAT_MEMBERS_CSV_TEMPLATE :=
                     members_csv_after
                       (csv_files w !! session_file fm s CHAT_MEMBERS_CSV_TEMPLATE)
                       append members]> w)).
Proof.
  intros Hs Hne Hfit Hex. unfold save_chat_members_to_files.
  destruct members as [|m ms]; [done|]. rewrite Hs.
  set (members := m :: ms) in *.
  unfold bind, lift. rewrite !(path_of _ _ _ Hs).
  unfold exists_csv, exists_json, gets, write_table, bind, gets, modify.
  rewrite (writerows_fits _ _ Hfit).
  unfold members_json_before in Hex. cbn [json_files with_csv].
  unfold members_csv_after, json_dump, modify, ret, try_catch, json_load, bind, gets.
  cbn [json_files with_csv].
  destruct append; simpl.
  - destruct (csv_files w !! _) as [rows|] eqn:Ec; simpl;
      destruct (json_files w !! _) as [[[]|]|] eqn:Ej; simpl;
      simplify_eq; rewrite ?Ej; simpl; try reflexivity.
  - simplify_eq.
    destruct (csv_files w !! _) as [rows|] eqn:Ec; simpl; reflexivity.
Qed.

(** C6: two appending calls of [save_chat_members_to_files], with record
    lists [A] then [B] (non-empty, keys among the member columns), on a
    session that has no member files yet: the JSON file holds [A] followed
    by [B], the CSV file one header row, then the rows of [A], then the rows
    of [B]. *)
Theorem append_twice_concatenates fm s A B w :
  session_of fm = Some s →
  A ≠ [] → B ≠ [] →
  Forall (fits CHAT_MEMBERS_FIELDS) A →
  Forall (fits CHAT_MEMBERS_FIELDS) B →
  csv_files w !! session_file fm s CHAT_MEMBERS_CSV_TEMPLATE = None →
  json_files w !! session_file fm s CHAT_MEMBERS_JSON_TEMPLATE = None →
  ∃ w1 w2,
    save_chat_members_to_files fm A true w = (Ok (Z.of_nat (length A)), w1)
    ∧ save_chat_members_to_files fm B true w1 = (Ok (Z.of_nat (length B)), w2)
    ∧ json_files w2 !! session_file fm s CHAT_MEMBERS_JSON_TEMPLATE
      = Some (Doc (JList (JDict <$> (A ++ B))))
    ∧ csv_files w2 !! session_file fm s CHAT_MEMBERS_CSV_TEMPLATE
      = Some (header CHAT_MEMBERS_FIELDS
              :: (row_of CHAT_MEMBERS_FIELDS <$> A)
              ++ (row_of CHAT_MEMBERS_FIELDS <$> B)).
Proof.
  intros Hs HA HB HfA HfB Hc Hj.
  eexists _, _. split.
  { apply (save_chat_members_eq _ _ _ _ [] _ Hs HA HfA). by rewrite Hj. }
  split.
  { apply (save_chat_members_eq _ _ _ _ (JDict <$> A) _ Hs HB HfB).
    cbn [json_files with_json with_csv]. by rewrite lookup_insert_eq. }
  cbn [json_files csv_files with_json with_csv].
  rewrite !lookup_insert_eq, Hc. simpl. by rewrite fmap_app.
Qed.

Lemma append_twice_concatenates_witness :
  session_of demo_fm = Some "session_79991234567"
  ∧ [demo_member 10 1 "alice"] ≠ []
  ∧ [demo_member 10 2 "Bob"; demo_member 11 1 "alice"] ≠ []
  ∧ ∃ w1 w2,
      save_chat_members_to_files demo_fm [demo_member 10 1 "alice"] true blank_world
      = (Ok 1, w1)
      ∧ save_chat_members_to_files demo_fm
          [demo_member 10 2 "Bob"; demo_member 11 1 "alice"] true w1
        = (Ok 2, w2)
      ∧ json_files w2 !! session_file demo_fm "session_79991234567"
                            CHAT_MEMBERS_JSON_TEMPLATE
        = Some (Doc (JList (JDict <$> [demo_member 10 1 "alice";
                                       demo_member 10 2 "Bob";
                                       demo_member 11 1 "alice"])))
      ∧ csv_files w2 !! session_file demo_fm "session_79991234567"
                           CHAT_MEMBERS_CSV_TEMPLATE
        = Some (header CHAT_MEMBERS_FIELDS
                :: (row_of CHAT_MEMBERS_FIELDS <$> [demo_member 10 1 "alice"])
                ++ (row_of CHAT_MEMBERS_FIELDS
                      <$> [demo_member 10 2 "Bob"; demo_member 11 1 "alice"])).
Proof.
  split; [reflexivity|]. split; [discriminate|]. split; [discriminate|].
  apply (append_twice_concatenates demo_fm "session_79991234567"
           [demo_member 10 1 "alice"]
           [demo_member 10 2 "Bob"; demo_member 11 1 "alice"] blank_world).
  - reflexivity.
  - discriminate.
  - discriminate.
  - repeat constructor; unfold fits; vm_compute; done.
  - repeat constructor; unfold fits; vm_compute; done.
  - reflexivity.
  - reflexivity.
Defined.

(** ** Nickname matcher *)

Lemma check_dataset_eq fm s template info ns w :
  session_of fm = Some s →
  check_dataset fm template info ns w
  = (Ok (dataset_matches fm s template info ns w), w).
Proof.
  intros Hs. unfold check_dataset, dataset_matches, try_catch, bind, lift.
  rewrite (path_of _ _ _ Hs).
  unfold exists_json, json_load, gets, bind, ret, raise.
  destruct (json_files w !! _) as [[data|raw]|] eqn:E; simpl; rewrite ?E;
    try reflexivity.
  by destruct (py_iter data).
Qed.

Lemma check_dataset_no_session fm template info ns w :
  session_of fm = None → check_dataset fm template info ns w = (Ok [], w).
Proof.
  intros Hs. unfold check_dataset, try_catch, bind, lift, get_session_file_path.
  by rewrite Hs.
Qed.

Lemma load_nicknames_list_pure w : ∃ ns, load_nicknames_list w = (Ok ns, w).
Proof.
  unfold load_nicknames_list, bind, gets.
  destruct (text_files w !! NICKNAMES_FILE) as [[t|]|]; eauto.
Qed.

(** Every match of a scan is built by [info]. *)
Lemma scan_Forall (P : pydict → Prop) info ns records :
  (∀ d u low, P (info d u low)) →
  Forall P (scan (check_record info ns) records).
Proof.
  intros HP. induction records as [|r rs IH]; simpl; [constructor|].
  destruct (check_record info ns r) as [[m|]|] eqn:E; try done.
  constructor; [|done].
  unfold check_record in E. destruct r; try done.
  destruct (py_truthy _); [|done].
  destruct (py_lower _); simpl in E; [|done].
  destruct (bool_decide _); simplify_eq. apply HP.
Qed.

(** The keys of a dict literal are known: inclusion in the columns is
    decided by evaluation, whatever the values are. *)
Ltac fits_solver :=
  unfold fits; apply (bool_decide_unpack _); vm_compute; reflexivity.

(** The records the source builds have the columns of their table, and a
    string as username. *)
Lemma source_records_fit :
  (∀ u, fits CONTACTS_FIELDS (contact_record u))
  ∧ (∀ d, fits CHATS_FIELDS (dialog_record d))
  ∧ (∀ c u, fits CHAT_MEMBERS_FIELDS (member_record c u)).
Proof.
  split; [|split]; intros.
  - unfold contact_record. fits_solver.
  - unfold dialog_record. fits_solver.
  - unfold member_record. fits_solver.
Qed.

Lemma contact_info_writable d u low : writable (contact_info d u low).
Proof. eexists. split; [reflexivity|]. unfold contact_info. fits_solver. Qed.

Lemma dialog_info_writable d u low : writable (dialog_info d u low).
Proof. eexists. split; [reflexivity|]. unfold dialog_info. fits_solver. Qed.

Lemma member_info_writable d u low : writable (member_info d u low).
Proof. eexists. split; [reflexivity|]. unfold member_info. fits_solver. Qed.

Lemma write_matches_writable ms :
  Forall writable ms →
  ∃ filled,
    write_matches ms = (row_of MATCHES_FIELDS <$> filled, filled, None)
    ∧ Forall2 (λ m m', fill_missing m = Ok m') ms filled.
Proof.
  induction 1 as [|m ms (m' & Hm & Hfit) _ (filled & IH & IH2)].
  - exists []. by split; [|constructor].
  - exists (m' :: filled). simpl.
    rewrite Hm, (dict_to_list_fits _ _ Hfit), IH. by split; [|constructor].
Qed.

Lemma _save_matches_eq fm s ms rs filled w :
  session_of fm = Some s →
  write_matches ms = (rs, filled, None) →
  _save_matches fm ms w
  = (Ok tt,
     with_json <[session_file fm s NICKNAMES_MATCHES_JSON_TEMPLATE :=
                   Doc (JList (JDict <$> filled))]>
       (with_csv <[session_file fm s NICKNAMES_MATCHES_CSV_TEMPLATE :=
                     header MATCHES_FIELDS :: rs]> w)).
Proof.
  intros Hs Hw. unfold _save_matches, bind, lift.
  rewrite !(path_of _ _ _ Hs), Hw. reflexivity.
Qed.

Lemma py_eq_str_true s v : py_eq_str s v = true → v = JStr s.
Proof.
  destruct v; simpl; try done. intros H. apply String.eqb_eq in H. by subst.
Qed.

Lemma fill_missing_contacts m m' :
  fill_missing m = Ok m' →
  m' !! "source" = Some (JStr "contacts") →
  contacts_defaults m'.
Proof.
  unfold fill_missing. destruct (m !! "source") as [src|] eqn:Hsrc; [|done].
  destruct (py_eq_str "contacts" src) eqn:E1.
  { intros [= <-] _. unfold contacts_defaults. by simplify_map_eq. }
  destruct (py_eq_str "chats" src) eqn:E2.
  { intros [= <-]. rewrite !lookup_insert_ne by done. rewrite Hsrc.
    intros [= ->]. done. }
  destruct (py_eq_str "chat_members" src) eqn:E3.
  { intros [= <-]. rewrite !lookup_insert_ne by done. rewrite Hsrc.
    intros [= ->]. done. }
  intros [= <-]. rewrite Hsrc. intros [= ->]. done.
Qed.

Lemma all_matches_writable fm ns w : Forall writable (all_matches fm ns w).
Proof.
  unfold all_matches. destruct (session_of fm) as [s|]; [|constructor].
  unfold dataset_matches. rewrite !Forall_app. repeat split.
  - destruct (json_files w !! _) as [[data|]|]; try constructor.
    destruct (py_iter data); [|constructor].
    apply scan_Forall, contact_info_writable.
  - destruct (json_files w !! _) as [[data|]|]; try constructor.
    destruct (py_iter data); [|constructor].
    apply scan_Forall, dialog_info_writable.
  - destruct (json_files w !! _) as [[data|]|]; try constructor.
    destruct (py_iter data); [|constructor].
    apply scan_Forall, member_info_writable.
Qed.

(** [cross_reference_nicknames] step by step: the targets are loaded, the
    three scans read the disk, and only a non-empty list of matches reaches
    [_save_matches]. *)
Lemma cross_reference_eq fm w :
  ∃ ns, load_nicknames_list w = (Ok ns, w)
    ∧ cross_reference_nicknames fm w
      = if bool_decide (ns = ∅) then (Ok 0, w)
        else match all_matches fm ns w with
             | [] => (Ok 0, w)
             | m :: ms =>
                 match _save_matches fm (m :: ms) w with
                 | (Ok _, w') => (Ok (Z.of_nat (length (m :: ms))), w')
                 | (Raise e, w') => (Raise e, w')
                 end
             end.
Proof.
  destruct (load_nicknames_list_pure w) as [ns Hns]. exists ns. split; [done|].
  unfold cross_reference_nicknames. unfold bind at 1. rewrite Hns.
  case_bool_decide; [reflexivity|].
  unfold _check_contacts, _check_chats, _check_chat_members, all_matches.
  destruct (session_of fm) as [s|] eqn:Hs.
  - unfold bind at 1. rewrite (check_dataset_eq _ _ _ _ _ _ Hs).
    unfold bind at 1. rewrite (check_dataset_eq _ _ _ _ _ _ Hs).
    unfold bind at 1. rewrite (check_dataset_eq _ _ _ _ _ _ Hs).
    destruct (_ ++ _ ++ _) as [|m ms]; [reflexivity|].
    unfold bind, ret. by destruct (_save_matches fm (m :: ms) w) as [[]?].
  - unfold bind at 1. rewrite (check_dataset_no_session _ _ _ _ _ Hs).
    unfold bind at 1. rewrite (check_dataset_no_session _ _ _ _ _ Hs).
    unfold bind at 1. rewrite (check_dataset_no_session _ _ _ _ _ Hs).
    reflexivity.
Qed.

(** C10: when [cross_reference_nicknames] finds no match it returns 0 and
    leaves the world, and so both matches files, as it was; it never
    raises; and it finds no match when the targets file is missing,
    unreadable or without a handle. *)
Theorem no_match_leaves_matches_files fm w :
  ∃ n w',
    cross_reference_nicknames fm w = (Ok n, w')
    ∧ 0 ≤ n
    ∧ (n = 0 → w' = w)
    ∧ (fst (load_nicknames_list w) = Ok ∅ → n = 0).
Proof.
  destruct (cross_reference_eq fm w) as (ns & Hns & ->).
  rewrite Hns; simpl.
  case_bool_decide as Hempty.
  { exists 0, w. repeat split; done. }
  destruct (all_matches fm ns w) as [|m ms] eqn:Hm.
  { exists 0, w. repeat split; done. }
  destruct (session_of fm) as [s|] eqn:Hs;
    [|unfold all_matches in Hm; by rewrite Hs in Hm].
  pose proof (all_matches_writable fm ns w) as Hw. rewrite Hm in Hw.
  destruct (write_matches_writable _ Hw) as (filled & Hwm & _).
  rewrite (_save_matches_eq _ _ _ _ _ _ Hs Hwm).
  eexists _, _. split; [reflexivity|]. split; [lia|]. split.
  - intros H. simpl in H. lia.
  - intros [= H]. done.
Qed.

Lemma match_of_candidate info ns d :
  is_Some (match_of info ns d) ↔ candidate ns d.
Proof.
  unfold match_of, candidate. split.
  - destruct (d !! "username") as [[| | |u| |]|]; try by intros [? [=]].
    case_bool_decide as H; [|by intros [? [=]]]. destruct H. intros _. by exists u.
  - intros (u & -> & Hu & Hin). rewrite bool_decide_true by done. eauto.
Qed.

Lemma check_record_exact info ns d :
  username_ok d →
  check_record info ns (JDict d) = Ok (match_of info ns d).
Proof.
  unfold username_ok, check_record, match_of, dget.
  destruct (d !! "username") as [[| |z|u|l|m]|] eqn:E; simpl;
    try (by intros ->); try done.
  intros _. destruct (String.eqb_spec u "") as [->|Hne]; simpl.
  - reflexivity.
  - destruct (decide (lower u ∈ ns)) as [Hin|Hout].
    + by rewrite !bool_decide_true.
    + rewrite !bool_decide_false; [done| |done]. by intros [_ ?].
Qed.

Lemma scan_exact info ns ds :
  Forall username_ok ds →
  scan (check_record info ns) (JDict <$> ds) = omap (match_of info ns) ds.
Proof.
  induction 1 as [|d ds Hd _ IH]; [done|].
  rewrite fmap_cons. cbn [scan omap list_omap].
  rewrite (check_record_exact _ _ _ Hd), IH.
  by destruct (match_of info ns d).
Qed.

Lemma check_dataset_exact fm s template info ns ds w :
  session_of fm = Some s →
  json_files w !! session_file fm s template = Some (Doc (JList (JDict <$> ds))) →
  Forall username_ok ds →
  check_dataset fm template info ns w = (Ok (omap (match_of info ns) ds), w).
Proof.
  intros Hs Hf Hok. rewrite (check_dataset_eq _ _ _ _ _ _ Hs).
  unfold dataset_matches. rewrite Hf. simpl. by rewrite scan_exact.
Qed.

(** C7: each of the three scans emits, in the order of its dataset, one
    match for every record that is a candidate and nothing for the others;
    a record is a candidate exactly when its username is a non-empty string
    whose lower-cased form is in the target set. *)
Theorem nickname_match_exact fm s ns w :
  session_of fm = Some s →
  (∀ contacts,
     json_files w !! session_file fm s CONTACTS_JSON_TEMPLATE
     = Some (Doc (JList (JDict <$> contacts))) →
     Forall username_ok contacts →
     _check_contacts fm ns w = (Ok (omap (match_of contact_info ns) contacts), w))
  ∧ (∀ dialogs,
     json_files w !! session_file fm s DIALOGS_JSON_TEMPLATE
     = Some (Doc (JList (JDict <$> dialogs))) →
     Forall username_ok dialogs →
     _check_chats fm ns w = (Ok (omap (match_of dialog_info ns) dialogs), w))
  ∧ (∀ members,
     json_files w !! session_file fm s CHAT_MEMBERS_JSON_TEMPLATE
     = Some (Doc (JList (JDict <$> members))) →
     Forall username_ok members →
     _check_chat_members fm ns w
     = (Ok (omap (match_of member_info ns) members), w))
  ∧ (∀ info d,
     is_Some (match_of info ns d)
     ↔ ∃ u, d !! "username" = Some (JStr u) ∧ u ≠ "" ∧ lower u ∈ ns).
Proof.
  intros Hs. repeat split.
  - intros ds Hf Hok. by apply check_dataset_exact with s.
  - intros ds Hf Hok. by apply check_dataset_exact with s.
  - intros ds Hf Hok. by apply check_dataset_exact with s.
  - by apply match_of_candidate.
  - by apply match_of_candidate.
Qed.

Lemma nickname_match_exact_witness :
  session_of demo_fm = Some "session_79991234567"
  ∧ load_nicknames_list demo_scan_world = (Ok {["alice"]}, demo_scan_world)
  ∧ _check_contacts demo_fm {["alice"]} demo_scan_world
    = (Ok [contact_info (demo_contact 1 "Alice") (JStr "Alice") "alice"],
       demo_scan_world).
Proof.
  split; [reflexivity|]. split; [reflexivity|].
  destruct (nickname_match_exact demo_fm "session_79991234567" {["alice"]}
              demo_scan_world eq_refl) as (H & _).
  rewrite (H [demo_contact 1 "Alice"; demo_contact 2 "alice2";
              demo_contact 3 ""; {["id" := JInt 4]}]).
  - reflexivity.
  - reflexivity.
  - repeat constructor.
Defined.

Lemma contacts_defaults_row m :
  contacts_defaults m → contacts_row_defaults (row_of MATCHES_FIELDS m).
Proof.
  intros (H1 & H2 & H3 & H4 & H5). unfold contacts_row_defaults, cell.
  cbn. by rewrite H1, H2, H3, H4, H5.
Qed.

(** C8: when [cross_reference_nicknames] writes the matches files, every
    match whose [source] is ["contacts"] has, in the JSON file and in its CSV
    row, [is_contact] true, [is_premium] and [is_verified] false,
    [last_message_date] empty and [unread_count] 0, whatever the contact
    record on disk holds. *)
Theorem contacts_match_defaults fm w n w' :
  cross_reference_nicknames fm w = (Ok n, w') →
  n ≠ 0 →
  ∃ s written,
    session_of fm = Some s
    ∧ n = Z.of_nat (length written)
    ∧ json_files w' !! session_file fm s NICKNAMES_MATCHES_JSON_TEMPLATE
      = Some (Doc (JList (JDict <$> written)))
    ∧ csv_files w' !! session_file fm s NICKNAMES_MATCHES_CSV_TEMPLATE
      = Some (header MATCHES_FIELDS :: (row_of MATCHES_FIELDS <$> written))
    ∧ Forall (λ m, m !! "source" = Some (JStr "contacts") →
                   contacts_defaults m
                   ∧ contacts_row_defaults (row_of MATCHES_FIELDS m)) written.
Proof.
  destruct (cross_reference_eq fm w) as (ns & Hns & ->).
  case_bool_decide as Hempty; [by intros [= <- _]|].
  destruct (all_matches fm ns w) as [|m ms] eqn:Hm; [by intros [= <- _]|].
  destruct (session_of fm) as [s|] eqn:Hs;
    [|unfold all_matches in Hm; by rewrite Hs in Hm].
  pose proof (all_matches_writable fm ns w) as Hw. rewrite Hm in Hw.
  destruct (write_matches_writable _ Hw) as (filled & Hwm & Hfill).
  rewrite (_save_matches_eq _ _ _ _ _ _ Hs Hwm).
  rewrite (Forall2_length _ _ _ Hfill).
  intros [= <- <-] _. exists s, filled.
  split; [done|]. split; [done|].
  cbn [json_files csv_files with_json with_csv].
  rewrite !lookup_insert_eq. split; [done|]. split; [done|].
  clear -Hfill. induction Hfill as [|m0 m0' ms0 fs Hm0 _ IH]; constructor; [|done].
  intros Hsrc. pose proof (fill_missing_contacts _ _ Hm0 Hsrc) as Hd.
  split; [done|]. by apply contacts_defaults_row.
Qed.

Lemma contacts_match_defaults_witness :
  cross_reference_nicknames demo_fm odd_world = (Ok 1, odd_world_after)
  ∧ (1 : Z) ≠ 0
  ∧ ∃ s written,
      session_of demo_fm = Some s
      ∧ 1 = Z.of_nat (length written)
      ∧ json_files odd_world_after
          !! session_file demo_fm s NICKNAMES_MATCHES_JSON_TEMPLATE
        = Some (Doc (JList (JDict <$> written)))
      ∧ csv_files odd_world_after
          !! session_file demo_fm s NICKNAMES_MATCHES_CSV_TEMPLATE
        = Some (header MATCHES_FIELDS :: (row_of MATCHES_FIELDS <$> written))
      ∧ Forall (λ m, m !! "source" = Some (JStr "contacts") →
                     contacts_defaults m
                     ∧ contacts_row_defaults (row_of MATCHES_FIELDS m)) written.
Proof.
  assert (H : cross_reference_nicknames demo_fm odd_world = (Ok 1, odd_world_after))
    by reflexivity.
  split; [exact H|]. split; [discriminate|].
  apply (contacts_match_defaults demo_fm odd_world 1 odd_world_after H).
  discriminate.
Defined.

Lemma no_match_leaves_matches_files_witness :
  cross_reference_nicknames demo_fm stale_world = (Ok 0, stale_world).
Proof.
  destruct (no_match_leaves_matches_files demo_fm stale_world)
    as (n & w' & H & _ & Hz & _).
  assert (Hn : n = 0).
  { assert (E : fst (cross_reference_nicknames demo_fm stale_world) = Ok 0)
      by reflexivity.
    rewrite H in E. by injection E. }
  rewrite H, (Hz Hn), Hn. reflexivity.
Defined.

(** ** Contacts and chats pipeline *)

Lemma only_progress_refl fm s w : only_progress_changed fm s w w.
Proof. by repeat split. Qed.

Lemma only_progress_trans fm s w1 w2 w3 :
  only_progress_changed fm s w1 w2 → only_progress_changed fm s w2 w3 →
  only_progress_changed fm s w1 w3.
Proof.
  intros (A1 & A2 & A3 & A4 & A5) (B1 & B2 & B3 & B4 & B5).
  repeat split; try congruence. intros p Hp. by rewrite B5, A5.
Qed.

Lemma only_progress_saved fm s kind data prior w :
  only_progress_changed fm s w (saved fm s kind data prior w).
Proof.
  repeat split. intros p Hp. unfold saved, with_json; simpl.
  by rewrite lookup_insert_ne.
Qed.

Lemma agree_off_insert kind v m m' :
  agree_off kind m m' → agree_off kind (<[kind := v]> m) m'.
Proof. intros H k Hk. rewrite lookup_insert_ne by done. by apply H. Qed.

(** A successful save, with what it leaves behind. *)
Lemma save_progress_ok fm s kind data prior w :
  session_of fm = Some s →
  progress_is fm s w prior →
  ∃ w',
    save_progress fm kind data w = (Ok tt, w')
    ∧ only_progress_changed fm s w w'
    ∧ progress_is fm s w'
        (<[kind := progress_entry (wall w (ticks w)) data]> prior).
Proof.
  intros Hs Hp. exists (saved fm s kind data prior w). split; [|split].
  - apply save_progress_eq; [done|]. by apply progress_is_load with s.
  - apply only_progress_saved.
  - apply progress_is_saved.
Qed.

Lemma FLOAT_LIMIT_pos : 1 ≤ FLOAT_LIMIT.
Proof.
  unfold FLOAT_LIMIT. pose proof (Z.pow_pos_nonneg 2 964 eq_refl) as H.
  assert (0 < 2 ^ 964) by (apply H; discriminate). nia.
Qed.

Lemma progress_percent_ok done total :
  0 < total → - total ≤ done ≤ total → progress_percent done total = Ok tt.
Proof.
  intros Ht Hd. unfold progress_percent.
  destruct (Z.eqb_spec total 0) as [|_]; [lia|].
  destruct (Z.ltb_spec (FLOAT_LIMIT * Z.abs total) (Z.abs done)) as [Hlt|_];
    [|done].
  pose proof FLOAT_LIMIT_pos. nia.
Qed.

Lemma progress_percent_overflow done total :
  0 < total → FLOAT_LIMIT * total < Z.abs done →
  progress_percent done total = Raise OverflowError.
Proof.
  intros Ht Hd. unfold progress_percent.
  destruct (Z.eqb_spec total 0) as [|_]; [lia|].
  rewrite (Z.abs_eq total) by lia.
  destruct (Z.ltb_spec (FLOAT_LIMIT * total) (Z.abs done)); [done|lia].
Qed.

Lemma within_total_step total i item rest :
  within_total total i (item :: rest) →
  progress_percent (i + 1) total = Ok tt ∧ within_total total (i + 1) rest.
Proof.
  intros [[=]|(Ht & Hi & Hn)]. cbn [length] in Hn. split.
  - apply progress_percent_ok; lia.
  - destruct rest as [|item' rest']; [by left|right].
    cbn [length] in *. lia.
Qed.

Lemma within_total_all items :
  within_total (Z.of_nat (length items)) 0 items.
Proof.
  destruct items as [|item rest]; [by left|right]. cbn [length]. lia.
Qed.

Lemma py_slice_from_pos {A} (l : list A) k :
  0 ≤ k → py_slice_from l k = drop (Z.to_nat k) l.
Proof.
  intros Hk. unfold py_slice_from.
  destruct (Z.ltb_spec k 0); [lia|done].
Qed.

Lemma within_total_slice (items : list pydict) k :
  0 ≤ k → within_total (Z.of_nat (length items)) k (py_slice_from items k).
Proof.
  intros Hk. rewrite py_slice_from_pos by done.
  destruct (decide (Z.to_nat k < length items)%nat) as [Hlt|Hge].
  - right. rewrite length_drop. lia.
  - left. apply drop_ge. lia.
Qed.

Lemma export_loop_ok fm s kind total items :
  session_of fm = Some s →
  ∀ i acc w prior,
    within_total total i items →
    progress_is fm s w prior →
    ∃ w' prior',
      export_loop fm kind total i items acc w = (Ok (acc ++ items), w')
      ∧ only_progress_changed fm s w w'
      ∧ progress_is fm s w' prior'
      ∧ agree_off kind prior' prior.
Proof.
  intros Hs. induction items as [|item rest IH]; intros i acc w prior Hin Hp.
  - exists w, prior. simpl. rewrite app_nil_r.
    split; [done|]. split; [apply only_progress_refl|]. by split.
  - destruct (within_total_step _ _ _ _ Hin) as [Hpc Hin'].
    cbn [export_loop]. unfold bind at 1, lift at 1. rewrite Hpc.
    unfold bind at 1.
    destruct ((i + 1) mod 10 =? 0).
    + destruct (save_progress_ok fm s kind (progress_data (i + 1) total false)
                  prior w Hs Hp) as (w1 & -> & Ho & Hp1).
      destruct (IH (i + 1) (acc ++ [item]) w1 _ Hin' Hp1)
        as (w' & prior' & -> & Ho' & Hp' & Ha).
      exists w', prior'. rewrite <- app_assoc. split; [done|].
      split; [by eapply only_progress_trans|]. split; [done|].
      intros k Hk. rewrite (Ha k Hk). by rewrite lookup_insert_ne.
    + unfold ret at 1.
      destruct (IH (i + 1) (acc ++ [item]) w prior Hin' Hp)
        as (w' & prior' & -> & Ho' & Hp' & Ha).
      exists w', prior'. by rewrite <- app_assoc.
Qed.

Lemma save_records_eq fm s csv_t json_t fieldnames records w :
  session_of fm = Some s →
  Forall (fits fieldnames) records →
  save_records_to_files fm csv_t json_t fieldnames records w
  = (Ok (Z.of_nat (length records)),
     with_json <[session_file fm s json_t := Doc (JList (JDict <$> records))]>
       (with_csv <[session_file fm s csv_t :=
                     header fieldnames :: (row_of fieldnames <$> records)]> w)).
Proof.
  intros Hs Hfit. unfold save_records_to_files. rewrite Hs.
  unfold bind, lift. rewrite !(path_of _ _ _ Hs).
  unfold write_table, bind, gets, modify. rewrite (writerows_fits _ _ Hfit).
  reflexivity.
Qed.

Lemma progress_is_ext fm s w w' prior :
  json_files w' !! session_file fm s PROGRESS_FILE_TEMPLATE
  = json_files w !! session_file fm s PROGRESS_FILE_TEMPLATE →
  progress_is fm s w prior → progress_is fm s w' prior.
Proof. unfold progress_is. by intros ->. Qed.

(** A resumed run of [export_contacts] or [export_chats] whose progress
    entry holds the integer [k] as [completed]: the list is fetched, the
    slice from [k] is written over both output files, the entry is replaced
    by the finished one. *)
Lemma export_records_resume fm s kind fetch e csv_t json_t fieldnames
    items prior entry k w :
  session_of fm = Some s →
  fetch w = (Ok items, with_event e w) →
  progress_is fm s w prior →
  prior !! kind = Some (JDict entry) →
  py_index (default (JInt 0) (entry !! "completed")) = Ok k →
  0 ≤ k →
  Forall (fits fieldnames) (py_slice_from items k) →
  session_file fm s PROGRESS_FILE_TEMPLATE ≠ session_file fm s json_t →
  let total := Z.of_nat (length items) in
  ∃ w' final ts,
    export_records fm kind fetch
      (save_records_to_files fm csv_t json_t fieldnames) true w
    = (Ok total, w')
    ∧ trace w' = trace w ++ [e]
    ∧ json_files w' !! session_file fm s json_t
      = Some (Doc (JList (JDict <$> py_slice_from items k)))
    ∧ csv_files w' !! session_file fm s csv_t
      = Some (header fieldnames :: (row_of fieldnames <$> py_slice_from items k))
    ∧ progress_is fm s w' final
    ∧ final !! kind = Some (progress_entry ts (progress_data total total true))
    ∧ agree_off kind final prior.
Proof.
  intros Hs Hfetch Hp Hentry Hk Hk0 Hfit Hne total.
  assert (Hp0 : progress_is fm s (with_event e w) prior)
    by (by apply (progress_is_ext fm s w)).
  pose proof (progress_is_load _ _ _ _ Hs Hp0) as Hload.
  destruct (export_loop_ok fm s kind total (py_slice_from items k) Hs k []
              (with_event e w) prior (within_total_slice items k Hk0) Hp0)
    as (w1 & prior1 & Hloop & (Hc1 & _ & Ht1 & _ & Hj1) & Hp1 & Ha1).
  set (w2 := with_json
         <[session_file fm s json_t := Doc (JList (JDict <$> py_slice_from items k))]>
         (with_csv <[session_file fm s csv_t :=
            header fieldnames :: (row_of fieldnames <$> py_slice_from items k)]> w1)).
  assert (Hp2 : progress_is fm s w2 prior1).
  { apply (progress_is_ext fm s w1); [|done].
    unfold w2; cbn [json_files with_json with_csv]. by rewrite lookup_insert_ne. }
  destruct (save_progress_ok fm s kind (progress_data total total true)
              prior1 w2 Hs Hp2) as (w3 & Hsave & (Hc3 & _ & Ht3 & _ & Hj3) & Hp3).
  exists w3, (<[kind := progress_entry (wall w2 (ticks w2))
                          (progress_data total total true)]> prior1),
         (wall w2 (ticks w2)).
  split.
  { unfold export_records. unfold bind at 1. rewrite Hfetch.
    unfold bind at 1. unfold bind at 1. rewrite Hload.
    unfold bind at 1, lift at 1. cbn [py_contains_str].
    rewrite bool_decide_true by (rewrite Hentry; eauto).
    unfold bind at 1. rewrite Hload.
    unfold bind at 1, lift at 1. cbn [py_getitem]. rewrite Hentry.
    unfold bind at 1, lift at 1. cbn [py_get].
    unfold bind at 1, lift at 1. rewrite Hk. unfold ret at 1.
    cbn [fst snd]. fold total. unfold bind at 1. rewrite Hloop.
    unfold bind at 1. rewrite app_nil_l.
    rewrite (save_records_eq _ _ _ _ _ _ _ Hs Hfit). fold w2.
    unfold bind at 1. rewrite Hsave. reflexivity. }
  split.
  { rewrite Ht3. unfold w2; cbn [trace with_json with_csv]. by rewrite Ht1. }
  split.
  { rewrite Hj3 by done. unfold w2; cbn [json_files with_json with_csv].
    by rewrite lookup_insert_eq. }
  split.
  { rewrite Hc3. unfold w2; cbn [csv_files with_json with_csv].
    by rewrite lookup_insert_eq. }
  split; [done|]. split; [by rewrite lookup_insert_eq|].
  intros k' Hk'. rewrite lookup_insert_ne by done. by apply Ha1.
Qed.

Lemma get_contacts_eq tg items w :
  contacts_answer tg = Ok items →
  get_contacts tg w = (Ok items, with_event FetchContacts w).
Proof. intros H. unfold get_contacts, bind, modify, lift. by rewrite H. Qed.

Lemma get_chats_eq tg items w :
  chats_answer tg = Ok items →
  get_chats tg w = (Ok items, with_event FetchChats w).
Proof. intros H. unfold get_chats, bind, modify, lift. by rewrite H. Qed.


(** C3: a resumed run of [export_contacts] (and of [export_chats]) with a
    stored [completed = k > 0]: the freshly fetched list is cut to its items
    from position [k] on, and the full-replace writer leaves exactly that
    tail in the JSON and CSV files, not the first [k] items. *)
Theorem resume_writes_only_tail tg fm s w prior k :
  session_of fm = Some s →
  progress_is fm s w prior →
  0 < k →
  (∀ items entry,
     contacts_answer tg = Ok items →
     prior !! "contacts" = Some (JDict entry) →
     entry !! "completed" = Some (JInt k) →
     Forall (fits CONTACTS_FIELDS) (drop (Z.to_nat k) items) →
     ∃ w',
       export_contacts tg fm true w = (Ok (Z.of_nat (length items)), w')
       ∧ json_files w' !! session_file fm s CONTACTS_JSON_TEMPLATE
         = Some (Doc (JList (JDict <$> drop (Z.to_nat k) items)))
       ∧ csv_files w' !! session_file fm s CONTACTS_CSV_TEMPLATE
         = Some (header CONTACTS_FIELDS
                 :: (row_of CONTACTS_FIELDS <$> drop (Z.to_nat k) items)))
  ∧ (∀ items entry,
     chats_answer tg = Ok items →
     prior !! "chats" = Some (JDict entry) →
     entry !! "completed" = Some (JInt k) →
     Forall (fits CHATS_FIELDS) (drop (Z.to_nat k) items) →
     ∃ w',
       export_chats tg fm true w = (Ok (Z.of_nat (length items)), w')
       ∧ json_files w' !! session_file fm s DIALOGS_JSON_TEMPLATE
         = Some (Doc (JList (JDict <$> drop (Z.to_nat k) items)))
       ∧ csv_files w' !! session_file fm s CHATS_CSV_TEMPLATE
         = Some (header CHATS_FIELDS
                 :: (row_of CHATS_FIELDS <$> drop (Z.to_nat k) items))).
Proof.
  intros Hs Hp Hk. split; intros items entry Hans Hprior Hentry Hfit.
  - destruct (export_records_resume fm s "contacts" (get_contacts tg)
                FetchContacts CONTACTS_CSV_TEMPLATE CONTACTS_JSON_TEMPLATE
                CONTACTS_FIELDS items prior entry k w Hs
                (get_contacts_eq _ _ _ Hans) Hp Hprior)
      as (w' & _ & _ & Hrun & _ & Hj & Hc & _).
    + by rewrite Hentry.
    + lia.
    + by rewrite py_slice_from_pos by lia.
    + apply progress_not_contacts_json.
    + rewrite py_slice_from_pos in Hj, Hc by lia. by exists w'.
  - destruct (export_records_resume fm s "chats" (get_chats tg)
                FetchChats CHATS_CSV_TEMPLATE DIALOGS_JSON_TEMPLATE
                CHATS_FIELDS items prior entry k w Hs
                (get_chats_eq _ _ _ Hans) Hp Hprior)
      as (w' & _ & _ & Hrun & _ & Hj & Hc & _).
    + by rewrite Hentry.
    + lia.
    + by rewrite py_slice_from_pos by lia.
    + apply progress_not_dialogs_json.
    + rewrite py_slice_from_pos in Hj, Hc by lia. by exists w'.
Qed.

Lemma resume_writes_only_tail_witness :
  session_of demo_fm = Some "session_79991234567"
  ∧ (0 < 3)
  ∧ ∃ w',
      export_contacts (demo_tg seven_contacts) demo_fm true interrupted_world
      = (Ok 7, w')
      ∧ json_files w' !! demo_contacts_path
        = Some (Doc (JList (JDict <$> drop 3 seven_contacts)))
      ∧ csv_files w' !! demo_contacts_csv
        = Some (header CONTACTS_FIELDS
                :: (row_of CONTACTS_FIELDS <$> drop 3 seven_contacts)).
Proof.
  split; [reflexivity|]. split; [lia|].
  destruct (resume_writes_only_tail (demo_tg seven_contacts) demo_fm
              "session_79991234567" interrupted_world
              {["contacts" := JDict (progress_data 3 7 false)]} 3)
    as [H _]; [reflexivity|reflexivity|lia|].
  apply (H seven_contacts (progress_data 3 7 false)).
  - reflexivity.
  - reflexivity.
  - reflexivity.
  - repeat constructor; fits_solver.
Defined.

(** C1, as stated, fails: with [finished = true] and [completed = total = 5]
    stored, a resumed [export_contacts] still calls the source, and it
    replaces the five contacts in both output files by an empty list: it is
    not true that no fetch happens and the output files stay as they
    were. *)
Lemma finished_resume_fetches_and_rewrites :
  fst finished_run = Ok 5
  ∧ trace finished_world = []
  ∧ trace (snd finished_run) = [FetchContacts]
  ∧ json_files finished_world !! demo_contacts_path
    = Some (Doc (JList (JDict <$> five_contacts)))
  ∧ json_files (snd finished_run) !! demo_contacts_path = Some (Doc (JList []))
  ∧ csv_files (snd finished_run) !! demo_contacts_csv
    = Some [header CONTACTS_FIELDS]
  ∧ ¬ (trace (snd finished_run) = trace finished_world
       ∧ json_files (snd finished_run) !! demo_contacts_path
         = json_files finished_world !! demo_contacts_path
       ∧ csv_files (snd finished_run) !! demo_contacts_csv
         = csv_files finished_world !! demo_contacts_csv).
Proof.
  repeat split; try reflexivity.
  intros (H & _). discriminate H.
Qed.

(** C1, amended: [export_contacts] never reads [finished]. With an entry
    [finished = true], [completed = total = k] stored and resume requested,
    it fetches the contact list once; when the source returns [k] contacts
    the slice from [k] is empty, both output files are rewritten with no
    record, and the entry is saved again as finished with
    [completed = total = k]. *)
Theorem finished_resume_refetches tg fm s w prior entry items k :
  session_of fm = Some s →
  progress_is fm s w prior →
  prior !! "contacts" = Some (JDict entry) →
  entry !! "completed" = Some (JInt k) →
  entry !! "total" = Some (JInt k) →
  entry !! "finished" = Some (JBool true) →
  contacts_answer tg = Ok items →
  Z.of_nat (length items) = k →
  ∃ w' final ts,
    export_contacts tg fm true w = (Ok k, w')
    ∧ trace w' = trace w ++ [FetchContacts]
    ∧ json_files w' !! session_file fm s CONTACTS_JSON_TEMPLATE
      = Some (Doc (JList []))
    ∧ csv_files w' !! session_file fm s CONTACTS_CSV_TEMPLATE
      = Some [header CONTACTS_FIELDS]
    ∧ progress_is fm s w' final
    ∧ final !! "contacts" = Some (progress_entry ts (progress_data k k true))
    ∧ agree_off "contacts" final prior.
Proof.
  intros Hs Hp Hprior Hc _ _ Hans Hlen.
  assert (Htail : py_slice_from items k = []).
  { rewrite py_slice_from_pos by lia. apply drop_ge. lia. }
  destruct (export_records_resume fm s "contacts" (get_contacts tg)
              FetchContacts CONTACTS_CSV_TEMPLATE CONTACTS_JSON_TEMPLATE
              CONTACTS_FIELDS items prior entry k w Hs
              (get_contacts_eq _ _ _ Hans) Hp Hprior)
    as (w' & final & ts & Hrun & Ht & Hj & Hcsv & Hp' & Hf & Ha).
  - by rewrite Hc.
  - lia.
  - rewrite Htail. constructor.
  - apply progress_not_contacts_json.
  - rewrite Htail in Hj, Hcsv. rewrite Hlen in Hrun, Hf.
    by exists w', final, ts.
Qed.

Lemma finished_resume_refetches_witness :
  session_of demo_fm = Some "session_79991234567"
  ∧ Z.of_nat (length five_contacts) = 5
  ∧ ∃ w' final ts,
      export_contacts (demo_tg five_contacts) demo_fm true finished_world
      = (Ok 5, w')
      ∧ trace w' = trace finished_world ++ [FetchContacts]
      ∧ json_files w' !! demo_contacts_path = Some (Doc (JList []))
      ∧ csv_files w' !! demo_contacts_csv = Some [header CONTACTS_FIELDS]
      ∧ progress_is demo_fm "session_79991234567" w' final
      ∧ final !! "contacts" = Some (progress_entry ts (progress_data 5 5 true))
      ∧ agree_off "contacts" final
          {["contacts" := JDict (progress_data 5 5 true)]}.
Proof.
  split; [reflexivity|]. split; [reflexivity|].
  apply (finished_resume_refetches (demo_tg five_contacts) demo_fm
           "session_79991234567" finished_world
           {["contacts" := JDict (progress_data 5 5 true)]}
           (progress_data 5 5 true) five_contacts 5); reflexivity.
Defined.

(** ** Chat members pipeline *)

Lemma in_world_eq {A} (m : M world A) f w r w' :
  m w = (r, w') → in_world m (f, w) = (r, (f, w')).
Proof. intros H. unfold in_world. simpl. by rewrite H. Qed.

Lemma mark_processed_eq chat ids c tm w :
  mark_processed chat (Frame (JList ids) (JInt c) tm, w)
  = (Ok tt, (Frame (JList (ids ++ [JInt (chat_id chat)])) (JInt (c + 1)) tm, w)).
Proof. reflexivity. Qed.

Lemma fetch_members_eq tg chat f w :
  in_world (get_chat_members_for_chat tg chat) (f, w)
  = (members_answer tg chat, (f, with_event (FetchMembers (chat_id chat)) w)).
Proof. reflexivity. Qed.

Lemma members_hold_progress fm s w w' collected :
  only_progress_changed fm s w w' →
  members_hold fm s w collected → members_hold fm s w' collected.
Proof.
  intros (Hc & _ & _ & _ & Hj). unfold members_hold.
  rewrite Hc, Hj; [done|]. apply not_eq_sym, progress_not_members_json.
Qed.

(** Writing [ms] after [collected]: the first write of a run replaces, a
    later one appends; both leave [collected ++ ms]. *)
Lemma save_chat_members_hold fm s ms append collected w :
  session_of fm = Some s →
  ms ≠ [] →
  Forall (fits CHAT_MEMBERS_FIELDS) ms →
  members_hold fm s w collected →
  (append = false → collected = []) →
  ∃ w',
    save_chat_members_to_files fm ms append w = (Ok (Z.of_nat (length ms)), w')
    ∧ members_hold fm s w' (collected ++ ms)
    ∧ trace w' = trace w
    ∧ json_files w' !! session_file fm s PROGRESS_FILE_TEMPLATE
      = json_files w !! session_file fm s PROGRESS_FILE_TEMPLATE.
Proof.
  intros Hs Hne Hfit Hold Happ.
  assert (Hex : members_json_before
            (json_files w !! session_file fm s CHAT_MEMBERS_JSON_TEMPLATE) append
          = Some (JDict <$> collected)).
  { unfold members_json_before. destruct append.
    - destruct collected; destruct Hold as [_ ->]; done.
    - by rewrite Happ. }
  eexists. split; [by apply (save_chat_members_eq _ _ _ _ _ _ Hs Hne Hfit Hex)|].
  split; [|split].
  - assert (Hnil : collected ++ ms ≠ []) by (destruct collected, ms; done).
    unfold members_hold. destruct (collected ++ ms) eqn:E; [done|]. rewrite <- E.
    cbn [json_files csv_files with_json with_csv]. rewrite !lookup_insert_eq.
    split; [|by rewrite fmap_app].
    unfold members_csv_after. destruct collected as [|c cs].
    + destruct Hold as [-> _]. done.
    + destruct Hold as [-> _]. destruct append; [|by specialize (Happ eq_refl)].
      by rewrite fmap_app.
  - reflexivity.
  - cbn [json_files with_json with_csv]. rewrite lookup_insert_ne; [done|].
    apply not_eq_sym, progress_not_members_json.
Qed.

(** One turn of the loop on a chat that was not processed yet, in a run
    that has processed [done] so far: the chat is fetched once and marked
    processed whether the fetch succeeds or raises; its members, if any,
    follow those collected so far. *)
Lemma process_chat_ok tg fm s total chat done tm collected prior w :
  session_of fm = Some s →
  progress_is fm s w prior →
  members_hold fm s w collected →
  (done = [] → collected = []) →
  Forall (fits CHAT_MEMBERS_FIELDS) (members_of tg chat) →
  ∃ w' prior',
    process_chat tg fm total chat
      (Frame (JList (JInt <$> done)) (JInt (Z.of_nat (length done))) tm, w)
    = (Ok tt,
       (Frame (JList (JInt <$> (done ++ [chat_id chat])))
              (JInt (Z.of_nat (length (done ++ [chat_id chat]))))
              (tm + Z.of_nat (length (members_of tg chat))), w'))
    ∧ progress_is fm s w' prior'
    ∧ agree_off "chat_members" prior' prior
    ∧ members_hold fm s w' (collected ++ members_of tg chat)
    ∧ trace w' = trace w ++ [FetchMembers (chat_id chat)].
Proof.
  intros Hs Hp Hold Hfirst Hfit.
  assert (Hlen : Z.of_nat (length (done ++ [chat_id chat]))
                 = Z.of_nat (length done) + 1)
    by (rewrite length_app; simpl; lia).
  rewrite Hlen, fmap_app. cbn [fmap list_fmap].
  set (w0 := with_event (FetchMembers (chat_id chat)) w).
  assert (Hp0 : progress_is fm s w0 prior) by (by apply (progress_is_ext fm s w)).
  assert (Hold0 : members_hold fm s w0 collected) by done.
  unfold process_chat, try_catch. unfold bind at 1. rewrite fetch_members_eq.
  fold w0. unfold members_of in *.
  destruct (members_answer tg chat) as [ms|e].
  - destruct ms as [|m ms].
    + (* no member: nothing is written *)
      unfold bind at 1, ret at 1. unfold bind at 1. rewrite mark_processed_eq.
      unfold bind at 1, the_frame, gets. cbn [fst snd completed_chats].
      unfold bind at 1, lift at 1. cbn [py_index].
      destruct (save_progress_ok fm s "chat_members"
        (chat_members_data
           (Frame (JList ((JInt <$> done) ++ [JInt (chat_id chat)]))
                  (JInt (Z.of_nat (length done) + 1)) tm)
           total (total <=? Z.of_nat (length done) + 1)) prior w0 Hs Hp0)
        as (w1 & Hsave & Ho & Hp1).
      rewrite (in_world_eq _ _ _ _ _ Hsave).
      eexists w1, _. split; [by rewrite Z.add_0_r|].
      split; [exact Hp1|]. split; [by apply agree_off_insert|].
      rewrite app_nil_r. split; [by apply (members_hold_progress fm s w0)|].
      by destruct Ho as (_ & _ & -> & _).
    + (* members: written, then the chat is marked *)
      set (members := m :: ms) in *.
      unfold bind at 1. unfold bind at 1.
      unfold bind at 1, the_frame, gets. cbn [fst snd].
      unfold bind at 1, lift at 1, append_wanted.
      cbn [py_index completed_chats processed_chat_ids rbind py_len].
      set (append := if 0 <? Z.of_nat (length done) then true
                     else 0 <? Z.of_nat (length (JInt <$> done))).
      assert (Happ : append = false → collected = []).
      { intros Ha. apply Hfirst. unfold append in Ha.
        destruct done; [done|]. simpl in Ha. done. }
      destruct (save_chat_members_hold fm s members append collected w0 Hs
                  ltac:(done) Hfit Hold0 Happ) as (w1 & Hw & Hold1 & Ht1 & Hj1).
      replace (match 0 <? Z.of_nat (length done) with
               | true => Ok true
               | false => Ok (0 <? Z.of_nat (length (JInt <$> done)))
               end) with (Ok (A:=bool) append)
        by (unfold append; by destruct (0 <? Z.of_nat (length done))).
      unfold bind at 1. rewrite (in_world_eq _ _ _ _ _ Hw).
      unfold set_frame, modify. cbn [fst snd processed_chat_ids completed_chats
                                     total_members].
      rewrite mark_processed_eq.
      unfold bind at 1. cbn [fst snd completed_chats].
      unfold bind at 1, lift at 1. cbn [py_index].
      assert (Hp1 : progress_is fm s w1 prior)
        by (by apply (progress_is_ext fm s w0)).
      destruct (save_progress_ok fm s "chat_members"
        (chat_members_data
           (Frame (JList ((JInt <$> done) ++ [JInt (chat_id chat)]))
                  (JInt (Z.of_nat (length done) + 1))
                  (tm + Z.of_nat (length members)))
           total (total <=? Z.of_nat (length done) + 1)) prior w1 Hs Hp1)
        as (w2 & Hsave & Ho & Hp2).
      rewrite (in_world_eq _ _ _ _ _ Hsave).
      eexists w2, _. split; [done|].
      split; [exact Hp2|]. split; [by apply agree_off_insert|].
      split; [by apply (members_hold_progress fm s w1)|].
      destruct Ho as (_ & _ & -> & _). by rewrite Ht1.
  - (* the fetch raises: the handler marks the chat *)
    rewrite mark_processed_eq.
    exists w0, prior. split; [by rewrite Z.add_0_r|].
    split; [done|]. split; [done|]. rewrite app_nil_r. by split.
Qed.

Lemma existsb_py_eq_int z (l : list Z) :
  existsb (py_eq_int z) (JInt <$> l) = bool_decide (z ∈ l).
Proof.
  induction l as [|x l IH].
  - symmetry. apply bool_decide_eq_false, not_elem_of_nil.
  - rewrite fmap_cons. cbn [existsb py_eq_int]. rewrite IH.
    destruct (Z.eqb_spec z x) as [->|Hne]; cbn [orb].
    + symmetry. apply bool_decide_eq_true, list_elem_of_here.
    + apply bool_decide_ext. rewrite elem_of_cons. split; [tauto|].
      by intros [?|?].
Qed.

(** The loop of a run that has processed [done], over chats that are new
    and distinct: every chat is fetched once, in order, and ends up
    processed; the files hold what was collected before followed by the
    members of the chats whose fetch succeeded. *)
Lemma members_loop_ok tg fm s total chats :
  session_of fm = Some s →
  Forall (λ c, Forall (fits CHAT_MEMBERS_FIELDS) (members_of tg c)) chats →
  ∀ done tm collected prior w,
    NoDup (done ++ (chat_id <$> chats)) →
    progress_is fm s w prior →
    members_hold fm s w collected →
    (done = [] → collected = []) →
    ∃ w' prior',
      members_loop tg fm total chats
        (Frame (JList (JInt <$> done)) (JInt (Z.of_nat (length done))) tm, w)
      = (Ok tt,
         (Frame (JList (JInt <$> (done ++ (chat_id <$> chats))))
                (JInt (Z.of_nat (length (done ++ (chat_id <$> chats)))))
                (tm + Z.of_nat (length (fetched tg chats))), w'))
      ∧ progress_is fm s w' prior'
      ∧ agree_off "chat_members" prior' prior
      ∧ members_hold fm s w' (collected ++ fetched tg chats)
      ∧ trace w' = trace w ++ (FetchMembers <$> (chat_id <$> chats)).
Proof.
  intros Hs Hfit. induction Hfit as [|chat rest Hc _ IH];
    intros done tm collected prior w Hnd Hp Hold Hfirst.
  - exists w, prior. simpl. rewrite !app_nil_r, Z.add_0_r. by repeat split.
  - cbn [members_loop]. unfold bind at 1, the_frame, gets.
    cbn [fst snd processed_chat_ids].
    unfold bind at 1, lift at 1. cbn [py_contains_int].
    rewrite existsb_py_eq_int.
    assert (Hnew : chat_id chat ∉ done).
    { intros Hin. rewrite fmap_cons in Hnd. apply NoDup_app in Hnd as (_ & Hd & _).
      apply (Hd _ Hin). apply list_elem_of_here. }
    rewrite bool_decide_false by done.
    destruct (process_chat_ok tg fm s total chat done tm collected prior w
                Hs Hp Hold Hfirst Hc) as (w1 & prior1 & Hstep & Hp1 & Ha1 & Hold1 & Ht1).
    unfold bind at 1. rewrite Hstep.
    destruct (IH (done ++ [chat_id chat])
                (tm + Z.of_nat (length (members_of tg chat)))
                (collected ++ members_of tg chat) prior1 w1)
      as (w2 & prior2 & Hloop & Hp2 & Ha2 & Hold2 & Ht2).
    + by rewrite <- app_assoc.
    + done.
    + done.
    + by destruct done.
    + exists w2, prior2. rewrite Hloop.
      rewrite fmap_cons, <- !app_assoc. unfold fetched. rewrite fmap_cons.
      cbn [concat app]. fold (fetched tg rest).
      replace (tm + Z.of_nat (length (members_of tg chat ++ fetched tg rest)))
        with (tm + Z.of_nat (length (members_of tg chat))
              + Z.of_nat (length (fetched tg rest)))
        by (rewrite length_app; lia).
      split; [done|]. split; [done|].
      split; [intros k Hk; by rewrite (Ha2 k Hk), (Ha1 k Hk)|].
      split; [by rewrite <- app_assoc in Hold2|].
      rewrite Ht2, Ht1, <- app_assoc. done.
Qed.

(** A run over chats that are all processed fetches no member. *)
Lemma members_loop_skip tg fm total chats f w ids :
  processed_chat_ids f = JList (JInt <$> ids) →
  Forall (λ c, chat_id c ∈ ids) chats →
  members_loop tg fm total chats (f, w) = (Ok tt, (f, w)).
Proof.
  intros Hf. induction 1 as [|chat rest Hin _ IH]; [done|].
  cbn [members_loop]. unfold bind at 1, the_frame, gets. cbn [fst snd].
  rewrite Hf. unfold bind at 1, lift at 1. cbn [py_contains_int].
  rewrite existsb_py_eq_int, bool_decide_true by done.
  unfold bind at 1, ret at 1. exact IH.
Qed.

Lemma clear_member_files_ok fm s w :
  session_of fm = Some s →
  ∃ w',
    clear_member_files fm w = (Ok tt, w')
    ∧ members_hold fm s w' []
    ∧ trace w' = trace w
    ∧ json_files w' !! session_file fm s PROGRESS_FILE_TEMPLATE
      = json_files w !! session_file fm s PROGRESS_FILE_TEMPLATE.
Proof.
  intros Hs.
  exists (with_json (delete (session_file fm s CHAT_MEMBERS_JSON_TEMPLATE))
            (with_csv (delete (session_file fm s CHAT_MEMBERS_CSV_TEMPLATE)) w)).
  split; [|split; [|split]].
  - unfold clear_member_files, bind, lift. rewrite !(path_of _ _ _ Hs).
    unfold exists_csv, exists_json, remove_csv, remove_json, gets, modify, ret.
    cbn [json_files csv_files with_csv with_json].
    destruct (csv_files w !! session_file fm s CHAT_MEMBERS_CSV_TEMPLATE)
      as [rows|] eqn:Ec;
      destruct (json_files w !! session_file fm s CHAT_MEMBERS_JSON_TEMPLATE)
        as [doc|] eqn:Ej; simpl; rewrite ?Ej; simpl;
      unfold with_json, with_csv; simpl;
      rewrite ?(delete_id _ _ Ec), ?(delete_id _ _ Ej); by destruct w.
  - unfold members_hold. cbn [json_files csv_files with_csv with_json].
    by rewrite !lookup_delete_eq.
  - reflexivity.
  - cbn [json_files with_csv with_json]. rewrite lookup_delete_ne; [done|].
    apply not_eq_sym, progress_not_members_json.
Qed.

Lemma get_all_group_chats_eq tg chats w :
  group_chats_answer tg = Ok chats →
  get_all_group_chats tg w = (Ok chats, with_event FetchGroupChats w).
Proof. intros H. unfold get_all_group_chats, bind, modify, lift. by rewrite H. Qed.

(** A fresh run over distinct chats. *)
Lemma export_chat_members_fresh tg fm s w prior chats :
  session_of fm = Some s →
  progress_is fm s w prior →
  group_chats_answer tg = Ok chats →
  chats ≠ [] →
  NoDup (chat_id <$> chats) →
  Forall (λ c, Forall (fits CHAT_MEMBERS_FIELDS) (members_of tg c)) chats →
  ∃ w' final ts,
    export_chat_members tg fm false w
    = (Ok (Z.of_nat (length (fetched tg chats))), w')
    ∧ progress_is fm s w' final
    ∧ final !! "chat_members"
      = Some (members_entry ts (Z.of_nat (length chats)) (chat_id <$> chats))
    ∧ agree_off "chat_members" final prior
    ∧ members_hold fm s w' (fetched tg chats)
    ∧ trace w'
      = trace w ++ FetchGroupChats :: (FetchMembers <$> (chat_id <$> chats)).
Proof.
  intros Hs Hp Hans Hne Hnd Hfit.
  set (w0 := with_event FetchGroupChats w).
  destruct (clear_member_files_ok fm s w0 Hs) as (w1 & Hclear & Hold1 & Ht1 & Hj1).
  assert (Hp1 : progress_is fm s w1 prior).
  { apply (progress_is_ext fm s w0); [done|]. by apply (progress_is_ext fm s w). }
  destruct (members_loop_ok tg fm s (Z.of_nat (length chats)) chats Hs Hfit
              [] 0 [] prior w1 Hnd Hp1 Hold1 ltac:(done))
    as (w2 & prior2 & Hloop & Hp2 & Ha2 & Hold2 & Ht2).
  cbn [app length fmap list_fmap] in Hloop.
  change (Z.of_nat 0) with 0 in Hloop.
  destruct (save_progress_ok fm s "chat_members"
    (chat_members_data
       (Frame (JList (JInt <$> (chat_id <$> chats)))
              (JInt (Z.of_nat (length (chat_id <$> chats))))
              (0 + Z.of_nat (length (fetched tg chats))))
       (Z.of_nat (length chats)) true) prior2 w2 Hs Hp2)
    as (w3 & Hsave & Ho & Hp3).
  eexists w3, _, (wall w2 (ticks w2)). split.
  { unfold export_chat_members. unfold bind at 1.
    rewrite (get_all_group_chats_eq _ _ _ Hans). fold w0.
    destruct (Z.eqb_spec (Z.of_nat (length chats)) 0) as [H0|_];
      [destruct chats; [done|simpl in H0; lia]|].
    unfold bind at 1. unfold bind at 1. rewrite Hclear. unfold ret at 1.
    unfold bind at 1, run_frame, fresh_frame. rewrite Hloop.
    cbn [snd]. unfold bind at 1. rewrite Hsave.
    unfold ret. cbn [total_members]. by rewrite Z.add_0_l. }
  split; [exact Hp3|]. split.
  { rewrite lookup_insert_eq. by rewrite length_fmap. }
  split; [by apply agree_off_insert|].
  split; [by apply (members_hold_progress fm s w2)|].
  destruct Ho as (_ & _ & -> & _). rewrite Ht2, Ht1.
  unfold w0; cbn [trace with_event]. by rewrite <- app_assoc.
Qed.

(** A resumed run after a finished one: every chat of the list is among the
    processed ones, so none is fetched and the member files stay. *)
Lemma export_chat_members_resume_done tg fm s w final ts n ids chats :
  session_of fm = Some s →
  progress_is fm s w final →
  final !! "chat_members" = Some (members_entry ts n ids) →
  group_chats_answer tg = Ok chats →
  Forall (λ c, chat_id c ∈ ids) chats →
  ∃ w',
    export_chat_members tg fm true w = (Ok 0, w')
    ∧ trace w' = trace w ++ [FetchGroupChats]
    ∧ csv_files w' = csv_files w
    ∧ json_files w' !! session_file fm s CHAT_MEMBERS_JSON_TEMPLATE
      = json_files w !! session_file fm s CHAT_MEMBERS_JSON_TEMPLATE.
Proof.
  intros Hs Hp Hentry Hans Hin.
  set (w0 := with_event FetchGroupChats w).
  assert (Hp0 : progress_is fm s w0 final) by (by apply (progress_is_ext fm s w)).
  pose proof (progress_is_load _ _ _ _ Hs Hp0) as Hload.
  unfold export_chat_members. unfold bind at 1.
  rewrite (get_all_group_chats_eq _ _ _ Hans). fold w0.
  destruct (Z.of_nat (length chats) =? 0); [by exists w0|].
  unfold bind at 1. unfold bind at 1. rewrite Hload.
  unfold bind at 1, lift at 1. cbn [py_contains_str].
  rewrite bool_decide_true by (rewrite Hentry; eauto).
  unfold bind at 1. rewrite Hload.
  unfold bind at 1, lift at 1. cbn [py_getitem]. rewrite Hentry.
  unfold bind at 1, lift at 1, bind at 1, lift at 1, ret at 1.
  cbn [py_get members_entry].
  change (default (JList []) (_ !! "processed_items")) with (JList (JInt <$> ids)).
  change (default (JInt 0) (_ !! "completed")) with (JInt n).
  unfold bind at 1, run_frame.
  rewrite (members_loop_skip tg fm _ chats
             (Frame (JList (JInt <$> ids)) (JInt n) 0) w0 ids eq_refl Hin).
  cbn [snd].
  destruct (save_progress_ok fm s "chat_members"
    (chat_members_data (Frame (JList (JInt <$> ids)) (JInt n) 0)
       (Z.of_nat (length chats)) true) final w0 Hs Hp0)
    as (w1 & Hsave & (Hc & _ & Ht & _ & Hj) & _).
  unfold bind at 1. rewrite Hsave. exists w1.
  split; [done|]. split; [by rewrite Ht|]. split; [done|].
  apply Hj, not_eq_sym, progress_not_members_json.
Qed.

(** C9: a fresh [chat_members] run over [n] distinct chats, whatever the
    member fetches answer (any of them may raise): the run ends normally;
    the persisted entry has [completed = n = total], [finished = true] and
    the [n] chat ids as [processed_items]; each chat was fetched once; the
    member files hold the members of the chats whose fetch succeeded and
    nothing for a chat whose fetch raised; and a later resumed run over the
    same chats fetches no member at all, so a failed chat is not retried. *)
Theorem failed_chat_is_marked_processed tg fm s w prior chats :
  session_of fm = Some s →
  progress_is fm s w prior →
  group_chats_answer tg = Ok chats →
  chats ≠ [] →
  NoDup (chat_id <$> chats) →
  Forall (λ c, Forall (fits CHAT_MEMBERS_FIELDS) (members_of tg c)) chats →
  ∃ w' final ts,
    export_chat_members tg fm false w
    = (Ok (Z.of_nat (length (fetched tg chats))), w')
    ∧ progress_is fm s w' final
    ∧ final !! "chat_members"
      = Some (members_entry ts (Z.of_nat (length chats)) (chat_id <$> chats))
    ∧ agree_off "chat_members" final prior
    ∧ members_hold fm s w' (fetched tg chats)
    ∧ trace w'
      = trace w ++ FetchGroupChats :: (FetchMembers <$> (chat_id <$> chats))
    ∧ ∀ tg2,
        group_chats_answer tg2 = Ok chats →
        ∃ w'',
          export_chat_members tg2 fm true w' = (Ok 0, w'')
          ∧ trace w'' = trace w' ++ [FetchGroupChats]
          ∧ members_hold fm s w'' (fetched tg chats).
Proof.
  intros Hs Hp Hans Hne Hnd Hfit.
  destruct (export_chat_members_fresh tg fm s w prior chats Hs Hp Hans Hne Hnd Hfit)
    as (w' & final & ts & Hrun & Hp' & Hentry & Ha & Hold & Ht).
  exists w', final, ts. repeat (split; [done|]).
  intros tg2 Hans2.
  destruct (export_chat_members_resume_done tg2 fm s w' final ts _ _ chats
              Hs Hp' Hentry Hans2) as (w'' & Hrun2 & Ht2 & Hc2 & Hj2).
  { apply Forall_forall. intros c Hc. apply list_elem_of_fmap. by exists c. }
  exists w''. split; [done|]. split; [done|].
  unfold members_hold in *. by rewrite Hc2, Hj2.
Qed.

Lemma failed_chat_is_marked_processed_witness :
  session_of demo_fm = Some "session_79991234567"
  ∧ progress_is demo_fm "session_79991234567" blank_world ∅
  ∧ NoDup (chat_id <$> three_chats)
  ∧ ∃ w' final ts,
      export_chat_members second_fails demo_fm false blank_world = (Ok 2, w')
      ∧ progress_is demo_fm "session_79991234567" w' final
      ∧ final !! "chat_members" = Some (members_entry ts 3 [101; 102; 103])
      ∧ members_hold demo_fm "session_79991234567" w'
          [demo_member 101 1 "alice"; demo_member 103 1 "alice"]
      ∧ trace w' = [FetchGroupChats; FetchMembers 101; FetchMembers 102;
                    FetchMembers 103]
      ∧ ∃ w'',
          export_chat_members second_fails demo_fm true w' = (Ok 0, w'')
          ∧ trace w'' = trace w' ++ [FetchGroupChats].
Proof.
  assert (Hnd : NoDup (chat_id <$> three_chats)).
  { apply (bool_decide_unpack _). vm_compute. reflexivity. }
  split; [reflexivity|]. split; [reflexivity|]. split; [exact Hnd|].
  destruct (failed_chat_is_marked_processed second_fails demo_fm
              "session_79991234567" blank_world ∅ three_chats)
    as (w' & final & ts & Hrun & Hp & Hentry & _ & Hold & Ht & Hlater).
  - reflexivity.
  - reflexivity.
  - reflexivity.
  - discriminate.
  - exact Hnd.
  - repeat constructor; fits_solver.
  - exists w', final, ts. split; [exact Hrun|]. split; [exact Hp|].
    split; [exact Hentry|]. split; [exact Hold|]. split; [exact Ht|].
    destruct (Hlater second_fails eq_refl) as (w'' & H1 & H2 & _).
    exists w''. by split.
Defined.

(** ** More on the file manager *)

(** X1: without a session (none set, or an empty name) every writer raises
    [ValueError] before touching a file, while [load_progress] answers the
    empty map. *)
Theorem no_session_no_write fm w :
  session_of fm = None →
  load_progress fm w = (Ok (JDict ∅), w)
  ∧ (∀ template,
       get_session_file_path fm template = Raise (ValueError "No session set"))
  ∧ (∀ kind data,
       save_progress fm kind data w = (Raise (ValueError "No session set"), w))
  ∧ (∀ contacts,
       save_contacts_to_files fm contacts w
       = (Raise (ValueError "No session set"), w))
  ∧ (∀ chats,
       save_chats_to_files fm chats w = (Raise (ValueError "No session set"), w))
  ∧ (∀ members append,
       members ≠ [] →
       save_chat_members_to_files fm members append w
       = (Raise (ValueError "No session set"), w)).
Proof.
  intros Hs. split; [by apply load_progress_no_session|].
  split; [intros t; unfold get_session_file_path; by rewrite Hs|].
  split; [intros kind data; unfold save_progress; by rewrite Hs|].
  split; [intros cs; unfold save_contacts_to_files, save_records_to_files;
          by rewrite Hs|].
  split; [intros cs; unfold save_chats_to_files, save_records_to_files;
          by rewrite Hs|].
  intros [|m ms] append Hne; [done|].
  unfold save_chat_members_to_files. by rewrite Hs.
Qed.

Lemma no_session_no_write_witness :
  session_of (set_session "" new_file_manager) = None
  ∧ save_progress (set_session "" new_file_manager) "contacts"
      (progress_data 1 2 false) blank_world
    = (Raise (ValueError "No session set"), blank_world)
  ∧ save_chat_members_to_files new_file_manager [demo_member 1 1 "a"] true
      blank_world
    = (Raise (ValueError "No session set"), blank_world).
Proof.
  split; [reflexivity|]. split.
  - apply (no_session_no_write (set_session "" new_file_manager) blank_world
             eq_refl).
  - apply (no_session_no_write new_file_manager blank_world eq_refl).
    discriminate.
Defined.

(** Two session files differ when their templates differ before or after
    the session name. *)
Ltac distinct_paths :=
  let H := fresh in
  intros H; apply session_file_inj in H; cbn in H;
  repeat (injection H as H);
  first [discriminate H | apply append_cancel in H; discriminate H].

(** X2: for one session the nine files of [config.py] have nine different
    paths, whatever the session name and the exports directory are. *)
Theorem session_files_distinct fm s :
  NoDup (session_file fm s <$>
           [PROGRESS_FILE_TEMPLATE; CONTACTS_CSV_TEMPLATE; CONTACTS_JSON_TEMPLATE;
            CHATS_CSV_TEMPLATE; DIALOGS_JSON_TEMPLATE;
            CHAT_MEMBERS_CSV_TEMPLATE; CHAT_MEMBERS_JSON_TEMPLATE;
            NICKNAMES_MATCHES_CSV_TEMPLATE; NICKNAMES_MATCHES_JSON_TEMPLATE]).
Proof.
  cbn [fmap list_fmap].
  repeat (apply NoDup_cons_2;
          [rewrite ?not_elem_of_cons; repeat split;
           first [apply not_elem_of_nil | distinct_paths]|]).
  apply NoDup_nil_2.
Qed.

Lemma save_records_replace fm s csv_t json_t fieldnames records w :
  session_of fm = Some s →
  Forall (fits fieldnames) records →
  ∃ w',
    save_records_to_files fm csv_t json_t fieldnames records w
    = (Ok (Z.of_nat (length records)), w')
    ∧ csv_files w' !! session_file fm s csv_t
      = Some (header fieldnames :: (row_of fieldnames <$> records))
    ∧ json_files w' !! session_file fm s json_t
      = Some (Doc (JList (JDict <$> records)))
    ∧ (∀ p, p ≠ session_file fm s csv_t → csv_files w' !! p = csv_files w !! p)
    ∧ (∀ p, p ≠ session_file fm s json_t → json_files w' !! p = json_files w !! p)
    ∧ save_records_to_files fm csv_t json_t fieldnames records w'
      = (Ok (Z.of_nat (length records)), w').
Proof.
  intros Hs Hfit. eexists. split; [by apply save_records_eq|].
  cbn [json_files csv_files with_json with_csv].
  rewrite !lookup_insert_eq. split; [done|]. split; [done|].
  split; [intros p Hp; by rewrite lookup_insert_ne|].
  split; [intros p Hp; by rewrite lookup_insert_ne|].
  rewrite (save_records_eq _ _ _ _ _ _ _ Hs Hfit).
  unfold with_json, with_csv; simpl. by rewrite !insert_insert_eq.
Qed.

(** X3: [save_contacts_to_files] and [save_chats_to_files] replace: whatever
    the two files held, they hold afterwards the header and one row per
    record, and the JSON list of the records; no other file changes, the
    count of records is returned, and saving the same records again changes
    nothing. *)
Theorem save_records_is_full_replace fm s w :
  session_of fm = Some s →
  (∀ contacts,
     Forall (fits CONTACTS_FIELDS) contacts →
     ∃ w',
       save_contacts_to_files fm contacts w
       = (Ok (Z.of_nat (length contacts)), w')
       ∧ csv_files w' !! session_file fm s CONTACTS_CSV_TEMPLATE
         = Some (header CONTACTS_FIELDS :: (row_of CONTACTS_FIELDS <$> contacts))
       ∧ json_files w' !! session_file fm s CONTACTS_JSON_TEMPLATE
         = Some (Doc (JList (JDict <$> contacts)))
       ∧ (∀ p, p ≠ session_file fm s CONTACTS_CSV_TEMPLATE →
               csv_files w' !! p = csv_files w !! p)
       ∧ (∀ p, p ≠ session_file fm s CONTACTS_JSON_TEMPLATE →
               json_files w' !! p = json_files w !! p)
       ∧ save_contacts_to_files fm contacts w'
         = (Ok (Z.of_nat (length contacts)), w'))
  ∧ (∀ chats,
     Forall (fits CHATS_FIELDS) chats →
     ∃ w',
       save_chats_to_files fm chats w = (Ok (Z.of_nat (length chats)), w')
       ∧ csv_files w' !! session_file fm s CHATS_CSV_TEMPLATE
         = Some (header CHATS_FIELDS :: (row_of CHATS_FIELDS <$> chats))
       ∧ json_files w' !! session_file fm s DIALOGS_JSON_TEMPLATE
         = Some (Doc (JList (JDict <$> chats)))
       ∧ (∀ p, p ≠ session_file fm s CHATS_CSV_TEMPLATE →
               csv_files w' !! p = csv_files w !! p)
       ∧ (∀ p, p ≠ session_file fm s DIALOGS_JSON_TEMPLATE →
               json_files w' !! p = json_files w !! p)
       ∧ save_chats_to_files fm chats w' = (Ok (Z.of_nat (length chats)), w')).
Proof.
  intros Hs. split; intros records Hfit; by apply save_records_replace.
Qed.

Lemma save_records_is_full_replace_witness :
  session_of demo_fm = Some "session_79991234567"
  ∧ ∃ w',
      save_contacts_to_files demo_fm (drop 5 seven_contacts) finished_world
      = (Ok 2, w')
      ∧ csv_files w' !! demo_contacts_csv
        = Some (header CONTACTS_FIELDS
                :: (row_of CONTACTS_FIELDS <$> drop 5 seven_contacts))
      ∧ json_files w' !! demo_contacts_path
        = Some (Doc (JList (JDict <$> drop 5 seven_contacts))).
Proof.
  split; [reflexivity|].
  destruct (save_records_is_full_replace demo_fm "session_79991234567"
              finished_world eq_refl) as [H _].
  destruct (H (drop 5 seven_contacts)) as (w' & H1 & H2 & H3 & _).
  - repeat constructor; fits_solver.
  - exists w'. by repeat split.
Defined.

Lemma writerows_stops fieldnames good bad rest :
  Forall (fits fieldnames) good →
  ¬ fits fieldnames bad →
  writerows fieldnames (good ++ bad :: rest)
  = (row_of fieldnames <$> good,
     Some (ValueError "dict contains fields not in fieldnames")).
Proof.
  intros Hgood Hbad. induction Hgood as [|d ds Hd _ IH]; simpl.
  - unfold dict_to_list. by rewrite bool_decide_false.
  - by rewrite (dict_to_list_fits _ _ Hd), IH.
Qed.

(** X4: a record with a key outside the columns stops
    [save_contacts_to_files] and [save_chats_to_files] with [ValueError]: the
    CSV file is left with the header and the rows of the records before it,
    and the JSON file is not written at all, so the two files no longer
    agree. *)
Theorem bad_record_leaves_partial_csv fm s w good bad rest :
  session_of fm = Some s →
  (Forall (fits CONTACTS_FIELDS) good → ¬ fits CONTACTS_FIELDS bad →
   ∃ w',
     save_contacts_to_files fm (good ++ bad :: rest) w
     = (Raise (ValueError "dict contains fields not in fieldnames"), w')
     ∧ csv_files w' !! session_file fm s CONTACTS_CSV_TEMPLATE
       = Some (header CONTACTS_FIELDS :: (row_of CONTACTS_FIELDS <$> good))
     ∧ json_files w' = json_files w)
  ∧ (Forall (fits CHATS_FIELDS) good → ¬ fits CHATS_FIELDS bad →
   ∃ w',
     save_chats_to_files fm (good ++ bad :: rest) w
     = (Raise (ValueError "dict contains fields not in fieldnames"), w')
     ∧ csv_files w' !! session_file fm s CHATS_CSV_TEMPLATE
       = Some (header CHATS_FIELDS :: (row_of CHATS_FIELDS <$> good))
     ∧ json_files w' = json_files w).
Proof.
  intros Hs. split; intros Hgood Hbad.
  - unfold save_contacts_to_files, save_records_to_files. rewrite Hs.
    unfold bind, lift. rewrite !(path_of _ _ _ Hs).
    unfold write_table, bind, gets, modify.
    rewrite (writerows_stops _ _ _ _ Hgood Hbad).
    eexists. split; [reflexivity|].
    cbn [csv_files json_files with_csv]. by rewrite lookup_insert_eq.
  - unfold save_chats_to_files, save_records_to_files. rewrite Hs.
    unfold bind, lift. rewrite !(path_of _ _ _ Hs).
    unfold write_table, bind, gets, modify.
    rewrite (writerows_stops _ _ _ _ Hgood Hbad).
    eexists. split; [reflexivity|].
    cbn [csv_files json_files with_csv]. by rewrite lookup_insert_eq.
Qed.

Lemma bad_record_leaves_partial_csv_witness :
  session_of demo_fm = Some "session_79991234567"
  ∧ ∃ w',
      save_contacts_to_files demo_fm
        ([demo_contact 1 "ann"] ++ demo_member 7 2 "bob" :: [demo_contact 3 "cyd"])
        finished_world
      = (Raise (ValueError "dict contains fields not in fieldnames"), w')
      ∧ csv_files w' !! demo_contacts_csv
        = Some (header CONTACTS_FIELDS
                :: (row_of CONTACTS_FIELDS <$> [demo_contact 1 "ann"]))
      ∧ json_files w' = json_files finished_world.
Proof.
  split; [reflexivity|].
  destruct (bad_record_leaves_partial_csv demo_fm "session_79991234567"
              finished_world [demo_contact 1 "ann"] (demo_member 7 2 "bob")
              [demo_contact 3 "cyd"] eq_refl) as [H _].
  apply H.
  - repeat constructor; fits_solver.
  - unfold fits. intros Hin. apply (bool_decide_pack _) in Hin.
    vm_compute in Hin. exact Hin.
Defined.

(** X5: any number of appending calls of [save_chat_members_to_files]
    (empty batches included), on member files that hold [collected]: both
    files end up holding [collected] followed by all batches in order, under
    one header, and the counts add up. *)
Theorem appended_batches_concatenate fm s batches :
  session_of fm = Some s →
  Forall (Forall (fits CHAT_MEMBERS_FIELDS)) batches →
  ∀ collected w,
    members_hold fm s w collected →
    ∃ w',
      save_batches fm batches w
      = (Ok (Z.of_nat (length (concat batches))), w')
      ∧ members_hold fm s w' (collected ++ concat batches).
Proof.
  intros Hs Hfit. induction Hfit as [|batch rest Hb _ IH]; intros collected w Hold.
  - exists w. simpl. by rewrite app_nil_r.
  - cbn [save_batches concat]. destruct batch as [|m ms].
    + destruct (IH collected w Hold) as (w' & Hrun & Hold').
      exists w'. unfold bind at 1. cbn [save_chat_members_to_files].
      unfold ret at 1. unfold bind at 1. rewrite Hrun. by split.
    + destruct (save_chat_members_hold fm s (m :: ms) true collected w Hs
                  ltac:(done) Hb Hold ltac:(done)) as (w1 & Hw & Hold1 & _).
      destruct (IH _ w1 Hold1) as (w' & Hrun & Hold').
      exists w'. unfold bind at 1. rewrite Hw. unfold bind at 1. rewrite Hrun.
      split; [|by rewrite app_assoc].
      unfold ret. by rewrite length_app, Nat2Z.inj_add.
Qed.

Lemma appended_batches_concatenate_witness :
  session_of demo_fm = Some "session_79991234567"
  ∧ members_hold demo_fm "session_79991234567" blank_world []
  ∧ ∃ w',
      save_batches demo_fm
        [[demo_member 1 1 "a"]; []; [demo_member 2 1 "a"; demo_member 2 2 "b"]]
        blank_world
      = (Ok 3, w')
      ∧ members_hold demo_fm "session_79991234567" w'
          [demo_member 1 1 "a"; demo_member 2 1 "a"; demo_member 2 2 "b"].
Proof.
  split; [reflexivity|]. split; [by split|].
  assert (Hfit : Forall (Forall (fits CHAT_MEMBERS_FIELDS))
            [[demo_member 1 1 "a"]; [];
             [demo_member 2 1 "a"; demo_member 2 2 "b"]])
    by (repeat constructor; fits_solver).
  apply (appended_batches_concatenate demo_fm "session_79991234567" _ eq_refl
           Hfit [] blank_world).
  by split.
Defined.

(** X6: appending when the member JSON file cannot be used. A file that
    does not parse counts as empty: the CSV file gets the new rows after the
    old ones while the JSON file restarts with the new records only. A
    document that is not a list makes the concatenation raise [TypeError]
    after the CSV file was extended and before the JSON file is written. *)
Theorem append_with_unusable_json fm s members rows w :
  session_of fm = Some s →
  members ≠ [] →
  Forall (fits CHAT_MEMBERS_FIELDS) members →
  csv_files w !! session_file fm s CHAT_MEMBERS_CSV_TEMPLATE = Some rows →
  (∀ raw,
     json_files w !! session_file fm s CHAT_MEMBERS_JSON_TEMPLATE
     = Some (Malformed raw) →
     ∃ w',
       save_chat_members_to_files fm members true w
       = (Ok (Z.of_nat (length members)), w')
       ∧ csv_files w' !! session_file fm s CHAT_MEMBERS_CSV_TEMPLATE
         = Some (rows ++ (row_of CHAT_MEMBERS_FIELDS <$> members))
       ∧ json_files w' !! session_file fm s CHAT_MEMBERS_JSON_TEMPLATE
         = Some (Doc (JList (JDict <$> members))))
  ∧ (∀ v,
     json_files w !! session_file fm s CHAT_MEMBERS_JSON_TEMPLATE
     = Some (Doc v) →
     (∀ l, v ≠ JList l) →
     ∃ w',
       save_chat_members_to_files fm members true w = (Raise TypeError, w')
       ∧ csv_files w' !! session_file fm s CHAT_MEMBERS_CSV_TEMPLATE
         = Some (rows ++ (row_of CHAT_MEMBERS_FIELDS <$> members))
       ∧ json_files w' = json_files w).
Proof.
  intros Hs Hne Hfit Hcsv. split.
  - intros raw Hj. eexists. split.
    { apply (save_chat_members_eq _ _ _ _ [] _ Hs Hne Hfit).
      unfold members_json_before. by rewrite Hj. }
    cbn [json_files csv_files with_json with_csv].
    rewrite !lookup_insert_eq, Hcsv. by split.
  - intros v Hj Hv. unfold save_chat_members_to_files.
    destruct members as [|m ms]; [done|]. rewrite Hs.
    set (members := m :: ms) in *.
    unfold bind, lift. rewrite !(path_of _ _ _ Hs).
    unfold exists_csv, exists_json, gets, write_table, bind, gets, modify, ret.
    rewrite (writerows_fits _ _ Hfit).
    cbn [json_files csv_files with_csv]. rewrite Hcsv, Hj.
    unfold try_catch, json_load, bind, gets, ret. cbn [json_files with_csv].
    simpl. rewrite ?Hj. simpl.
    exists (with_csv
              <[session_file fm s CHAT_MEMBERS_CSV_TEMPLATE :=
                  rows ++ (row_of CHAT_MEMBERS_FIELDS <$> members)]> w).
    split.
    { destruct v as [| | | |l|]; try reflexivity. by destruct (Hv l). }
    cbn [json_files csv_files with_csv]. by rewrite lookup_insert_eq.
Qed.

Lemma append_with_unusable_json_witness :
  session_of demo_fm = Some "session_79991234567"
  ∧ [demo_member 2 5 "bob"] ≠ []
  ∧ ∃ w',
      save_chat_members_to_files demo_fm [demo_member 2 5 "bob"] true
        garbled_members_world
      = (Ok 1, w')
      ∧ csv_files w' !! demo_members_csv
        = Some ([header CHAT_MEMBERS_FIELDS;
                 row_of CHAT_MEMBERS_FIELDS (demo_member 1 1 "ann")]
                ++ (row_of CHAT_MEMBERS_FIELDS <$> [demo_member 2 5 "bob"]))
      ∧ json_files w' !! demo_members_json
        = Some (Doc (JList (JDict <$> [demo_member 2 5 "bob"]))).
Proof.
  split; [reflexivity|]. split; [discriminate|].
  destruct (append_with_unusable_json demo_fm "session_79991234567"
              [demo_member 2 5 "bob"]
              [header CHAT_MEMBERS_FIELDS;
               row_of CHAT_MEMBERS_FIELDS (demo_member 1 1 "ann")]
              garbled_members_world) as [H _].
  - reflexivity.
  - discriminate.
  - repeat constructor; fits_solver.
  - reflexivity.
  - apply (H "[{"). reflexivity.
Defined.

(** ** More on the nickname matcher *)







Lemma all_matches_built fm ns w : Forall scan_built (all_matches fm ns w).
Proof.
  unfold all_matches. destruct (session_of fm) as [s|]; [|constructor].
  unfold dataset_matches. rewrite !Forall_app. repeat split.
  - destruct (json_files w !! _) as [[data|]|]; try constructor.
    destruct (py_iter data); [|constructor].
    apply scan_Forall. intros d u low. left. by exists d, u, low.
  - destruct (json_files w !! _) as [[data|]|]; try constructor.
    destruct (py_iter data); [|constructor].
    apply scan_Forall. intros d u low. right; left. by exists d, u, low.
  - destruct (json_files w !! _) as [[data|]|]; try constructor.
    destruct (py_iter data); [|constructor].
    apply scan_Forall. intros d u low. right; right. by exists d, u, low.
Qed.

Lemma built_defaults m m' :
  scan_built m → fill_missing m = Ok m' →
  (m' !! "source" = Some (JStr "chats") → chats_defaults m')
  ∧ (m' !! "source" = Some (JStr "chat_members") → members_defaults m').
Proof.
  intros [(d & u & low & ->)|[(d & u & low & ->)|(d & u & low & ->)]] [= <-].
  - split; intros [=].
  - split; [|intros [=]]. intros _. by repeat split.
  - split; [intros [=]|]. intros _. by repeat split.
Qed.

(** X8: the other two rows of the defaults table, end to end. In the matches
    files a match found in the chats has [is_premium] and [is_verified]
    false and carries no [is_bot] (its CSV cell is empty); a match found in
    the chat members has [is_contact] false, an empty [last_message_date]
    and [unread_count] 0. *)
Theorem other_sources_defaults fm w n w' :
  cross_reference_nicknames fm w = (Ok n, w') →
  n ≠ 0 →
  ∃ s written,
    session_of fm = Some s
    ∧ json_files w' !! session_file fm s NICKNAMES_MATCHES_JSON_TEMPLATE
      = Some (Doc (JList (JDict <$> written)))
    ∧ csv_files w' !! session_file fm s NICKNAMES_MATCHES_CSV_TEMPLATE
      = Some (header MATCHES_FIELDS :: (row_of MATCHES_FIELDS <$> written))
    ∧ Forall (λ m,
        (m !! "source" = Some (JStr "chats") → chats_defaults m)
        ∧ (m !! "source" = Some (JStr "chat_members") → members_defaults m))
        written.
Proof.
  destruct (cross_reference_eq fm w) as (ns & Hns & ->).
  case_bool_decide as Hempty; [by intros [= <- _]|].
  pose proof (all_matches_built fm ns w) as Hb.
  pose proof (all_matches_writable fm ns w) as Hw.
  destruct (all_matches fm ns w) as [|m ms] eqn:Hm; [by intros [= <- _]|].
  destruct (session_of fm) as [s|] eqn:Hs;
    [|unfold all_matches in Hm; by rewrite Hs in Hm].
  destruct (write_matches_writable _ Hw) as (filled & Hwm & Hfill).
  rewrite (_save_matches_eq _ _ _ _ _ _ Hs Hwm).
  intros [= _ <-] _. exists s, filled.
  split; [done|]. cbn [json_files csv_files with_json with_csv].
  rewrite !lookup_insert_eq. split; [done|]. split; [done|].
  clear -Hfill Hb. induction Hfill as [|m0 m0' ms0 fs Hm0 _ IH];
    constructor.
  - apply (built_defaults m0); [by inversion Hb|done].
  - apply IH. by inversion Hb.
Qed.

Lemma other_sources_defaults_witness :
  cross_reference_nicknames demo_fm mixed_world = (Ok 3, mixed_world_after)
  ∧ (3 : Z) ≠ 0
  ∧ ∃ s written,
      session_of demo_fm = Some s
      ∧ json_files mixed_world_after
          !! session_file demo_fm s NICKNAMES_MATCHES_JSON_TEMPLATE
        = Some (Doc (JList (JDict <$> written)))
      ∧ csv_files mixed_world_after
          !! session_file demo_fm s NICKNAMES_MATCHES_CSV_TEMPLATE
        = Some (header MATCHES_FIELDS :: (row_of MATCHES_FIELDS <$> written))
      ∧ Forall (λ m,
          (m !! "source" = Some (JStr "chats") → chats_defaults m)
          ∧ (m !! "source" = Some (JStr "chat_members") → members_defaults m))
          written.
Proof.
  assert (H : cross_reference_nicknames demo_fm mixed_world
              = (Ok 3, mixed_world_after)) by reflexivity.
  split; [exact H|]. split; [discriminate|].
  apply (other_sources_defaults demo_fm mixed_world 3 mixed_world_after H).
  discriminate.
Defined.

Lemma dataset_matches_exact fm s template info ns records w :
  dataset_is fm s template w records →
  Forall username_ok records →
  dataset_matches fm s template info ns w = omap (match_of info ns) records.
Proof.
  intros [Hf|[Hf ->]] Hok; unfold dataset_matches; rewrite Hf; [|done].
  simpl. by apply scan_exact.
Qed.

(** X9: with the three datasets as exported (a dataset never exported
    counts as empty) and a non-empty target set, [cross_reference_nicknames]
    writes the matches of the contacts first, then those of the chats, then
    those of the chat members, each in the order of its dataset; the number
    it returns is the number of records written. *)
Theorem matches_written_in_scan_order fm s w ns contacts dialogs members :
  session_of fm = Some s →
  load_nicknames_list w = (Ok ns, w) →
  ns ≠ ∅ →
  dataset_is fm s CONTACTS_JSON_TEMPLATE w contacts →
  dataset_is fm s DIALOGS_JSON_TEMPLATE w dialogs →
  dataset_is fm s CHAT_MEMBERS_JSON_TEMPLATE w members →
  Forall username_ok (contacts ++ dialogs ++ members) →
  let found := omap (match_of contact_info ns) contacts
               ++ omap (match_of dialog_info ns) dialogs
               ++ omap (match_of member_info ns) members in
  found ≠ [] →
  ∃ w' written,
    cross_reference_nicknames fm w = (Ok (Z.of_nat (length found)), w')
    ∧ Forall2 (λ m m', fill_missing m = Ok m') found written
    ∧ json_files w' !! session_file fm s NICKNAMES_MATCHES_JSON_TEMPLATE
      = Some (Doc (JList (JDict <$> written)))
    ∧ csv_files w' !! session_file fm s NICKNAMES_MATCHES_CSV_TEMPLATE
      = Some (header MATCHES_FIELDS :: (row_of MATCHES_FIELDS <$> written)).
Proof.
  intros Hs Hload Hne Hc Hd Hm Hok found Hfound.
  apply Forall_app in Hok as [Hokc Hok]. apply Forall_app in Hok as [Hokd Hokm].
  destruct (cross_reference_eq fm w) as (ns' & Hns & ->).
  rewrite Hload in Hns. injection Hns as <-.
  rewrite bool_decide_false by done.
  assert (Hall : all_matches fm ns w = found).
  { unfold all_matches. rewrite Hs.
    by rewrite (dataset_matches_exact _ _ _ _ _ _ _ Hc Hokc),
               (dataset_matches_exact _ _ _ _ _ _ _ Hd Hokd),
               (dataset_matches_exact _ _ _ _ _ _ _ Hm Hokm). }
  pose proof (all_matches_writable fm ns w) as Hw. rewrite Hall in *.
  clearbody found. destruct found as [|m ms]; [done|].
  destruct (write_matches_writable _ Hw) as (filled & Hwm & Hfill).
  rewrite (_save_matches_eq _ _ _ _ _ _ Hs Hwm).
  eexists _, filled. split; [reflexivity|]. split; [done|].
  cbn [json_files csv_files with_json with_csv]. by rewrite !lookup_insert_eq.
Qed.

Lemma matches_written_in_scan_order_witness :
  session_of demo_fm = Some "session_79991234567"
  ∧ load_nicknames_list mixed_world = (Ok {["alice"]}, mixed_world)
  ∧ ∃ w' written,
      cross_reference_nicknames demo_fm mixed_world = (Ok 3, w')
      ∧ Forall2 (λ m m', fill_missing m = Ok m')
          [contact_info (demo_contact 2 "Alice") (JStr "Alice") "alice";
           dialog_info (demo_dialog 2 "alice") (JStr "alice") "alice";
           member_info (demo_member 10 2 "ALICE") (JStr "ALICE") "alice"]
          written
      ∧ json_files w' !! demo_matches_json
        = Some (Doc (JList (JDict <$> written))).
Proof.
  split; [reflexivity|]. split; [reflexivity|].
  destruct (matches_written_in_scan_order demo_fm "session_79991234567"
              mixed_world {["alice"]}
              [demo_contact 1 "bob"; demo_contact 2 "Alice"]
              [demo_dialog 2 "alice"; demo_dialog 3 "cyd"]
              [demo_member 10 2 "ALICE"])
    as (w' & written & H1 & H2 & H3 & _).
  - reflexivity.
  - reflexivity.
  - apply (bool_decide_unpack _). vm_compute. reflexivity.
  - by left.
  - by left.
  - by left.
  - repeat constructor.
  - discriminate.
  - exists w', written. split; [exact H1|]. split; [exact H2|exact H3].
Defined.

(** ** More on the contacts and chats pipeline *)

(** A run of [export_contacts] or [export_chats] that does not resume, or
    resumes with no entry for its kind: all fetched items are written. *)
Lemma export_records_all fm s kind fetch e csv_t json_t fieldnames
    items prior resume w :
  session_of fm = Some s →
  fetch w = (Ok items, with_event e w) →
  progress_is fm s w prior →
  (resume = true → prior !! kind = None) →
  Forall (fits fieldnames) items →
  session_file fm s PROGRESS_FILE_TEMPLATE ≠ session_file fm s json_t →
  let total := Z.of_nat (length items) in
  ∃ w' final ts,
    export_records fm kind fetch
      (save_records_to_files fm csv_t json_t fieldnames) resume w
    = (Ok total, w')
    ∧ trace w' = trace w ++ [e]
    ∧ json_files w' !! session_file fm s json_t
      = Some (Doc (JList (JDict <$> items)))
    ∧ csv_files w' !! session_file fm s csv_t
      = Some (header fieldnames :: (row_of fieldnames <$> items))
    ∧ progress_is fm s w' final
    ∧ final !! kind = Some (progress_entry ts (progress_data total total true))
    ∧ agree_off kind final prior.
Proof.
  intros Hs Hfetch Hp Hres Hfit Hne total.
  assert (Hp0 : progress_is fm s (with_event e w) prior)
    by (by apply (progress_is_ext fm s w)).
  pose proof (progress_is_load _ _ _ _ Hs Hp0) as Hload.
  destruct (export_loop_ok fm s kind total items Hs 0 [] (with_event e w) prior
              (within_total_all items) Hp0)
    as (w1 & prior1 & Hloop & (Hc1 & _ & Ht1 & _ & Hj1) & Hp1 & Ha1).
  set (w2 := with_json
         <[session_file fm s json_t := Doc (JList (JDict <$> items))]>
         (with_csv <[session_file fm s csv_t :=
            header fieldnames :: (row_of fieldnames <$> items)]> w1)).
  assert (Hp2 : progress_is fm s w2 prior1).
  { apply (progress_is_ext fm s w1); [|done].
    unfold w2; cbn [json_files with_json with_csv]. by rewrite lookup_insert_ne. }
  destruct (save_progress_ok fm s kind (progress_data total total true)
              prior1 w2 Hs Hp2) as (w3 & Hsave & (Hc3 & _ & Ht3 & _ & Hj3) & Hp3).
  exists w3, (<[kind := progress_entry (wall w2 (ticks w2))
                          (progress_data total total true)]> prior1),
         (wall w2 (ticks w2)).
  split.
  { unfold export_records. unfold bind at 1. rewrite Hfetch.
    assert (Hstart :
      (if resume
       then progress <- load_progress fm;;
            known <- lift (py_contains_str kind progress);;
            (if known
             then progress0 <- load_progress fm;;
                  entry <- lift (py_getitem progress0 kind);;
                  completed <- lift (py_get entry "completed" (JInt 0));;
                  completed0 <- lift (py_index completed);;
                  ret (completed0, py_slice_from items completed0)
             else ret (0, items))
       else ret (0, items)) (with_event e w)
      = (Ok (0, items), with_event e w)).
    { destruct resume; [|done]. unfold bind at 1. rewrite Hload.
      unfold bind at 1, lift at 1. cbn [py_contains_str].
      rewrite bool_decide_false; [done|]. rewrite (Hres eq_refl).
      by intros [? [=]]. }
    unfold bind at 1. rewrite Hstart. cbn [fst snd]. fold total.
    unfold bind at 1. rewrite Hloop.
    unfold bind at 1. rewrite app_nil_l.
    rewrite (save_records_eq _ _ _ _ _ _ _ Hs Hfit). fold w2.
    unfold bind at 1. rewrite Hsave. reflexivity. }
  split.
  { rewrite Ht3. unfold w2; cbn [trace with_json with_csv]. by rewrite Ht1. }
  split.
  { rewrite Hj3 by done. unfold w2; cbn [json_files with_json with_csv].
    by rewrite lookup_insert_eq. }
  split.
  { rewrite Hc3. unfold w2; cbn [csv_files with_json with_csv].
    by rewrite lookup_insert_eq. }
  split; [done|]. split; [by rewrite lookup_insert_eq|].
  intros k' Hk'. rewrite lookup_insert_ne by done. by apply Ha1.
Qed.

(** X10: a run of [export_contacts] or [export_chats] without resume,
    whatever entry is stored for the kind, and a run with resume when no
    entry is stored: the list is fetched once, both output files hold all
    fetched records, and the entry of the kind becomes
    [completed = total = n], [finished = true]; the entries of the other
    kinds stay. *)
Theorem unresumed_export_writes_all tg fm s w prior :
  session_of fm = Some s →
  progress_is fm s w prior →
  (∀ items resume,
     contacts_answer tg = Ok items →
     Forall (fits CONTACTS_FIELDS) items →
     (resume = true → prior !! "contacts" = None) →
     let n := Z.of_nat (length items) in
     ∃ w' final ts,
       export_contacts tg fm resume w = (Ok n, w')
       ∧ trace w' = trace w ++ [FetchContacts]
       ∧ json_files w' !! session_file fm s CONTACTS_JSON_TEMPLATE
         = Some (Doc (JList (JDict <$> items)))
       ∧ csv_files w' !! session_file fm s CONTACTS_CSV_TEMPLATE
         = Some (header CONTACTS_FIELDS :: (row_of CONTACTS_FIELDS <$> items))
       ∧ progress_is fm s w' final
       ∧ final !! "contacts" = Some (progress_entry ts (progress_data n n true))
       ∧ agree_off "contacts" final prior)
  ∧ (∀ items resume,
     chats_answer tg = Ok items →
     Forall (fits CHATS_FIELDS) items →
     (resume = true → prior !! "chats" = None) →
     let n := Z.of_nat (length items) in
     ∃ w' final ts,
       export_chats tg fm resume w = (Ok n, w')
       ∧ trace w' = trace w ++ [FetchChats]
       ∧ json_files w' !! session_file fm s DIALOGS_JSON_TEMPLATE
         = Some (Doc (JList (JDict <$> items)))
       ∧ csv_files w' !! session_file fm s CHATS_CSV_TEMPLATE
         = Some (header CHATS_FIELDS :: (row_of CHATS_FIELDS <$> items))
       ∧ progress_is fm s w' final
       ∧ final !! "chats" = Some (progress_entry ts (progress_data n n true))
       ∧ agree_off "chats" final prior).
Proof.
  intros Hs Hp. split; intros items resume Hans Hfit Hres.
  - apply (export_records_all fm s "contacts" (get_contacts tg) FetchContacts
             CONTACTS_CSV_TEMPLATE CONTACTS_JSON_TEMPLATE CONTACTS_FIELDS
             items prior resume w Hs (get_contacts_eq _ _ _ Hans) Hp Hres Hfit).
    apply progress_not_contacts_json.
  - apply (export_records_all fm s "chats" (get_chats tg) FetchChats
             CHATS_CSV_TEMPLATE DIALOGS_JSON_TEMPLATE CHATS_FIELDS
             items prior resume w Hs (get_chats_eq _ _ _ Hans) Hp Hres Hfit).
    apply progress_not_dialogs_json.
Qed.

Lemma unresumed_export_writes_all_witness :
  session_of demo_fm = Some "session_79991234567"
  ∧ progress_is demo_fm "session_79991234567" interrupted_world
      {["contacts" := JDict (progress_data 3 7 false)]}
  ∧ ∃ w' (final : pydict) ts,
      export_contacts (demo_tg seven_contacts) demo_fm false interrupted_world
      = (Ok 7, w')
      ∧ json_files w' !! demo_contacts_path
        = Some (Doc (JList (JDict <$> seven_contacts)))
      ∧ final !! "contacts" = Some (progress_entry ts (progress_data 7 7 true)).
Proof.
  split; [reflexivity|]. split; [reflexivity|].
  destruct (unresumed_export_writes_all (demo_tg seven_contacts) demo_fm
              "session_79991234567" interrupted_world
              {["contacts" := JDict (progress_data 3 7 false)]}
              eq_refl eq_refl) as [H _].
  destruct (H seven_contacts false eq_refl)
    as (w' & final & ts & H1 & _ & H3 & _ & _ & H6 & _).
  - repeat constructor; fits_solver.
  - discriminate.
  - exists w', final, ts. split; [exact H1|]. split; [exact H3|exact H6].
Defined.

(** X11: a resumed [export_contacts] or [export_chats] whose stored
    [completed] is not an integer (a string, null, a list, an object): the
    list is fetched, then the slice or [enumerate] raises [TypeError] before
    any file or the progress is written. An entry that is not an object
    raises [AttributeError] at the same point. *)
Theorem resume_with_unusable_entry tg fm s w prior :
  session_of fm = Some s →
  progress_is fm s w prior →
  (∀ items entry v,
     contacts_answer tg = Ok items →
     prior !! "contacts" = Some (JDict entry) →
     entry !! "completed" = Some v →
     py_index v = Raise TypeError →
     export_contacts tg fm true w
     = (Raise TypeError, with_event FetchContacts w))
  ∧ (∀ items entry v,
     chats_answer tg = Ok items →
     prior !! "chats" = Some (JDict entry) →
     entry !! "completed" = Some v →
     py_index v = Raise TypeError →
     export_chats tg fm true w = (Raise TypeError, with_event FetchChats w))
  ∧ (∀ items entry,
     contacts_answer tg = Ok items →
     prior !! "contacts" = Some entry →
     (∀ d, entry ≠ JDict d) →
     export_contacts tg fm true w
     = (Raise AttributeError, with_event FetchContacts w)).
Proof.
  intros Hs Hp.
  assert (Hload : ∀ e, load_progress fm (with_event e w)
                       = (Ok (JDict prior), with_event e w)).
  { intros e. apply (progress_is_load _ s); [done|].
    by apply (progress_is_ext fm s w). }
  split; [|split].
  - intros items entry v Hans Hprior Hv Hidx.
    unfold export_contacts, export_records. unfold bind at 1.
    rewrite (get_contacts_eq _ _ _ Hans).
    unfold bind at 1. unfold bind at 1. rewrite Hload.
    unfold bind at 1, lift at 1. cbn [py_contains_str].
    rewrite bool_decide_true by (rewrite Hprior; eauto).
    unfold bind at 1. rewrite Hload.
    unfold bind at 1, lift at 1. cbn [py_getitem]. rewrite Hprior.
    unfold bind at 1, lift at 1. cbn [py_get]. rewrite Hv. cbn [from_option id].
    unfold bind at 1, lift at 1. by rewrite Hidx.
  - intros items entry v Hans Hprior Hv Hidx.
    unfold export_chats, export_records. unfold bind at 1.
    rewrite (get_chats_eq _ _ _ Hans).
    unfold bind at 1. unfold bind at 1. rewrite Hload.
    unfold bind at 1, lift at 1. cbn [py_contains_str].
    rewrite bool_decide_true by (rewrite Hprior; eauto).
    unfold bind at 1. rewrite Hload.
    unfold bind at 1, lift at 1. cbn [py_getitem]. rewrite Hprior.
    unfold bind at 1, lift at 1. cbn [py_get]. rewrite Hv. cbn [from_option id].
    unfold bind at 1, lift at 1. by rewrite Hidx.
  - intros items entry Hans Hprior Hentry.
    unfold export_contacts, export_records. unfold bind at 1.
    rewrite (get_contacts_eq _ _ _ Hans).
    unfold bind at 1. unfold bind at 1. rewrite Hload.
    unfold bind at 1, lift at 1. cbn [py_contains_str].
    rewrite bool_decide_true by (rewrite Hprior; eauto).
    unfold bind at 1. rewrite Hload.
    unfold bind at 1, lift at 1. cbn [py_getitem]. rewrite Hprior.
    unfold bind at 1, lift at 1.
    destruct entry as [| | | | |d]; try reflexivity. by destruct (Hentry d).
Qed.

Lemma resume_with_unusable_entry_witness :
  session_of demo_fm = Some "session_79991234567"
  ∧ progress_is demo_fm "session_79991234567" edited_world
      {["contacts" := JDict {["completed" := JStr "3"]}]}
  ∧ export_contacts (demo_tg seven_contacts) demo_fm true edited_world
    = (Raise TypeError, with_event FetchContacts edited_world).
Proof.
  assert (Hp : progress_is demo_fm "session_79991234567" edited_world
                 {["contacts" := JDict {["completed" := JStr "3"]}]})
    by reflexivity.
  split; [reflexivity|]. split; [exact Hp|].
  destruct (resume_with_unusable_entry (demo_tg seven_contacts) demo_fm
              "session_79991234567" edited_world _ eq_refl Hp) as [H _].
  exact (H seven_contacts {["completed" := JStr "3"]} (JStr "3")
           eq_refl eq_refl eq_refl eq_refl).
Defined.

(** X12: when the first remote call of an export raises, the exception
    reaches the caller and nothing was read or written: the world differs
    only by the call made. *)
Theorem failed_fetch_writes_nothing tg fm resume e w :
  (contacts_answer tg = Raise e →
   export_contacts tg fm resume w = (Raise e, with_event FetchContacts w))
  ∧ (chats_answer tg = Raise e →
     export_chats tg fm resume w = (Raise e, with_event FetchChats w))
  ∧ (group_chats_answer tg = Raise e →
     export_chat_members tg fm resume w
     = (Raise e, with_event FetchGroupChats w)).
Proof.
  split; [|split]; intros H.
  - unfold export_contacts, export_records, bind at 1, get_contacts, bind,
      modify, lift. by rewrite H.
  - unfold export_chats, export_records, bind at 1, get_chats, bind,
      modify, lift. by rewrite H.
  - unfold export_chat_members, bind at 1, get_all_group_chats, bind,
      modify, lift. by rewrite H.
Qed.

Lemma failed_fetch_writes_nothing_witness :
  export_contacts offline demo_fm true interrupted_world
  = (Raise (RemoteError "ConnectionError"),
     with_event FetchContacts interrupted_world).
Proof.
  exact (proj1 (failed_fetch_writes_nothing offline demo_fm true
                  (RemoteError "ConnectionError") interrupted_world) eq_refl).
Defined.

(** ** More on the chat members pipeline *)

Lemma pending_new done chats :
  Forall (λ c, chat_id c ∉ done) (pending done chats).
Proof.
  revert done. induction chats as [|c rest IH]; intros done; simpl; [constructor|].
  case_bool_decide as Hin; [apply IH|].
  constructor; [done|].
  eapply Forall_impl; [apply IH|]. intros c' Hc' Hin'. apply Hc'.
  apply elem_of_app. by left.
Qed.

Lemma pending_NoDup done chats : NoDup (chat_id <$> pending done chats).
Proof.
  revert done. induction chats as [|c rest IH]; intros done; simpl;
    [apply NoDup_nil_2|].
  case_bool_decide as Hin; [apply IH|].
  rewrite fmap_cons. apply NoDup_cons_2; [|apply IH].
  intros (c' & Heq & Hc')%list_elem_of_fmap.
  pose proof (pending_new (done ++ [chat_id c]) rest) as Hnew.
  rewrite Forall_forall in Hnew. apply (Hnew c' Hc').
  rewrite <- Heq. apply elem_of_app. right. apply list_elem_of_here.
Qed.

Lemma pending_covers done chats c :
  c ∈ chats → chat_id c ∈ done ++ (chat_id <$> pending done chats).
Proof.
  revert done. induction chats as [|c0 rest IH]; intros done Hc;
    [by apply elem_of_nil in Hc|].
  apply elem_of_cons in Hc as [->|Hc]; simpl.
  - case_bool_decide as Hin.
    + apply elem_of_app. by left.
    + rewrite fmap_cons. apply elem_of_app. right. apply list_elem_of_here.
  - case_bool_decide as Hin; [by apply IH|].
    rewrite fmap_cons.
    specialize (IH (done ++ [chat_id c0]) Hc).
    by rewrite <- app_assoc in IH.
Qed.

Lemma pending_length done chats :
  (length (pending done chats) ≤ length chats)%nat
  ∧ (length (pending done chats) = length chats
     ↔ NoDup (chat_id <$> chats) ∧ Forall (λ c, chat_id c ∉ done) chats).
Proof.
  revert done. induction chats as [|c rest IH]; intros done; simpl.
  - split; [done|]. split; [|done]. intros _. split; [apply NoDup_nil_2|constructor].
  - destruct (IH done) as [Hle _].
    destruct (IH (done ++ [chat_id c])) as [Hle' Hiff'].
    case_bool_decide as Hin.
    + split; [lia|]. split; [lia|]. intros [_ Hall]. by inversion Hall.
    + simpl. split; [lia|]. rewrite ?fmap_cons. split.
      * intros Hlen. injection Hlen as Hlen. apply Hiff' in Hlen as [Hnd Hall].
        rewrite Forall_forall in Hall. split.
        -- apply NoDup_cons_2; [|done].
           intros (c' & Heq & Hc')%list_elem_of_fmap. apply (Hall c' Hc').
           rewrite <- Heq. apply elem_of_app. right. apply list_elem_of_here.
        -- constructor; [done|]. apply Forall_forall. intros c' Hc' Hd.
           apply (Hall c' Hc'). apply elem_of_app. by left.
      * intros [Hnd Hall]. f_equal. apply Hiff'.
        apply NoDup_cons in Hnd as [Hc Hnd]. split; [done|].
        inversion Hall as [|? ? _ Hall']; subst.
        rewrite Forall_forall in Hall'. apply Forall_forall. intros c' Hc' Hd.
        apply elem_of_app in Hd as [Hd|Hd]; [by apply (Hall' c' Hc')|].
        apply list_elem_of_singleton in Hd. apply Hc.
        apply list_elem_of_fmap. by exists c'.
Qed.

(** The loop of a run that has processed [done]: the chats still pending
    are fetched once each, in order; the others are skipped. *)
Lemma members_loop_pending tg fm s total chats :
  session_of fm = Some s →
  Forall (λ c, Forall (fits CHAT_MEMBERS_FIELDS) (members_of tg c)) chats →
  ∀ done tm collected prior w,
    progress_is fm s w prior →
    members_hold fm s w collected →
    (done = [] → collected = []) →
    let todo := pending done chats in
    ∃ w' prior',
      members_loop tg fm total chats
        (Frame (JList (JInt <$> done)) (JInt (Z.of_nat (length done))) tm, w)
      = (Ok tt,
         (Frame (JList (JInt <$> (done ++ (chat_id <$> todo))))
                (JInt (Z.of_nat (length (done ++ (chat_id <$> todo)))))
                (tm + Z.of_nat (length (fetched tg todo))), w'))
      ∧ progress_is fm s w' prior'
      ∧ agree_off "chat_members" prior' prior
      ∧ members_hold fm s w' (collected ++ fetched tg todo)
      ∧ trace w' = trace w ++ (FetchMembers <$> (chat_id <$> todo)).
Proof.
  intros Hs Hfit. induction Hfit as [|chat rest Hc _ IH];
    intros done tm collected prior w Hp Hold Hfirst.
  - exists w, prior. simpl. rewrite !app_nil_r, Z.add_0_r. by repeat split.
  - cbn [members_loop pending]. unfold bind at 1, the_frame, gets.
    cbn [fst snd processed_chat_ids].
    unfold bind at 1, lift at 1. cbn [py_contains_int].
    rewrite existsb_py_eq_int. case_bool_decide as Hin.
    + unfold bind at 1, ret at 1. by apply IH.
    + destruct (process_chat_ok tg fm s total chat done tm collected prior w
                  Hs Hp Hold Hfirst Hc)
        as (w1 & prior1 & Hstep & Hp1 & Ha1 & Hold1 & Ht1).
      unfold bind at 1. rewrite Hstep.
      destruct (IH (done ++ [chat_id chat])
                  (tm + Z.of_nat (length (members_of tg chat)))
                  (collected ++ members_of tg chat) prior1 w1 Hp1 Hold1)
        as (w2 & prior2 & Hloop & Hp2 & Ha2 & Hold2 & Ht2);
        [by destruct done|].
      exists w2, prior2. rewrite Hloop.
      rewrite fmap_cons, <- !app_assoc. unfold fetched. rewrite fmap_cons.
      cbn [concat app].
      fold (fetched tg (pending (done ++ [chat_id chat]) rest)).
      replace (tm + Z.of_nat (length
                 (members_of tg chat
                  ++ fetched tg (pending (done ++ [chat_id chat]) rest))))
        with (tm + Z.of_nat (length (members_of tg chat))
              + Z.of_nat (length (fetched tg (pending (done ++ [chat_id chat]) rest))))
        by (rewrite length_app; lia).
      split; [done|]. split; [done|].
      split; [intros k Hk; by rewrite (Ha2 k Hk), (Ha1 k Hk)|].
      split; [by rewrite <- app_assoc in Hold2|].
      rewrite Ht2, Ht1, <- app_assoc. done.
Qed.

(** X13: a resumed [chat_members] run. With [processed_items = done] and
    [completed = length done] stored and the member files holding
    [collected], the run fetches exactly the chats whose id is not in
    [done], each id once, in list order; their members are appended after
    [collected]; the entry is saved with the old and the new ids,
    [completed] raised by the number of chats processed, [total] the length
    of the current list and [finished = true]; only this run's members are
    counted in the result. *)
Theorem resume_processes_pending_chats tg fm s w prior entry done collected chats :
  session_of fm = Some s →
  progress_is fm s w prior →
  prior !! "chat_members" = Some (JDict entry) →
  entry !! "processed_items" = Some (JList (JInt <$> done)) →
  entry !! "completed" = Some (JInt (Z.of_nat (length done))) →
  group_chats_answer tg = Ok chats →
  chats ≠ [] →
  Forall (λ c, Forall (fits CHAT_MEMBERS_FIELDS) (members_of tg c)) chats →
  members_hold fm s w collected →
  (done = [] → collected = []) →
  let todo := pending done chats in
  ∃ w' final ts,
    export_chat_members tg fm true w
    = (Ok (Z.of_nat (length (fetched tg todo))), w')
    ∧ progress_is fm s w' final
    ∧ final !! "chat_members"
      = Some (chat_members_entry ts
                (Z.of_nat (length done) + Z.of_nat (length todo))
                (Z.of_nat (length chats)) (done ++ (chat_id <$> todo)))
    ∧ agree_off "chat_members" final prior
    ∧ members_hold fm s w' (collected ++ fetched tg todo)
    ∧ trace w'
      = trace w ++ FetchGroupChats :: (FetchMembers <$> (chat_id <$> todo))
    ∧ NoDup (chat_id <$> todo)
    ∧ Forall (λ c, chat_id c ∉ done) todo
    ∧ ∀ c, c ∈ chats → chat_id c ∈ done ++ (chat_id <$> todo).
Proof.
  intros Hs Hp Hprior Hids Hdone Hans Hne Hfit Hold Hfirst todo.
  set (w0 := with_event FetchGroupChats w).
  assert (Hp0 : progress_is fm s w0 prior) by (by apply (progress_is_ext fm s w)).
  pose proof (progress_is_load _ _ _ _ Hs Hp0) as Hload.
  destruct (members_loop_pending tg fm s (Z.of_nat (length chats)) chats Hs Hfit
              done 0 collected prior w0 Hp0 Hold Hfirst)
    as (w2 & prior2 & Hloop & Hp2 & Ha2 & Hold2 & Ht2).
  fold todo in Hloop, Hold2, Ht2.
  destruct (save_progress_ok fm s "chat_members"
    (chat_members_data
       (Frame (JList (JInt <$> (done ++ (chat_id <$> todo))))
              (JInt (Z.of_nat (length (done ++ (chat_id <$> todo)))))
              (0 + Z.of_nat (length (fetched tg todo))))
       (Z.of_nat (length chats)) true) prior2 w2 Hs Hp2)
    as (w3 & Hsave & Ho & Hp3).
  eexists w3, _, (wall w2 (ticks w2)). split.
  { unfold export_chat_members. unfold bind at 1.
    rewrite (get_all_group_chats_eq _ _ _ Hans). fold w0.
    destruct (Z.eqb_spec (Z.of_nat (length chats)) 0) as [H0|_];
      [destruct chats; [done|simpl in H0; lia]|].
    unfold bind at 1. unfold bind at 1. rewrite Hload.
    unfold bind at 1, lift at 1. cbn [py_contains_str].
    rewrite bool_decide_true by (rewrite Hprior; eauto).
    unfold bind at 1. rewrite Hload.
    unfold bind at 1, lift at 1. cbn [py_getitem]. rewrite Hprior.
    unfold bind at 1, lift at 1, bind at 1, lift at 1, ret at 1.
    cbn [py_get]. rewrite Hids, Hdone. cbn [from_option id].
    unfold bind at 1, run_frame. rewrite Hloop.
    cbn [snd]. unfold bind at 1. rewrite Hsave.
    unfold ret. cbn [total_members]. by rewrite Z.add_0_l. }
  split; [exact Hp3|]. split.
  { rewrite lookup_insert_eq. f_equal. unfold chat_members_entry, progress_entry,
      chat_members_data. cbn [completed_chats processed_chat_ids].
    rewrite length_app, length_fmap, Nat2Z.inj_add. reflexivity. }
  split; [by apply agree_off_insert|].
  split; [by apply (members_hold_progress fm s w2)|].
  split.
  { destruct Ho as (_ & _ & -> & _). rewrite Ht2.
    unfold w0; cbn [trace with_event]. by rewrite <- app_assoc. }
  split; [apply pending_NoDup|]. split; [apply pending_new|].
  intros c Hc. by apply pending_covers.
Qed.

Lemma resume_processes_pending_chats_witness :
  session_of demo_fm = Some "session_79991234567"
  ∧ progress_is demo_fm "session_79991234567" stopped_world
      {["chat_members" := JDict stopped_entry]}
  ∧ members_hold demo_fm "session_79991234567" stopped_world
      [demo_member 101 1 "alice"]
  ∧ ∃ w' (final : pydict) ts,
      export_chat_members second_fails demo_fm true stopped_world = (Ok 1, w')
      ∧ final !! "chat_members"
        = Some (chat_members_entry ts 3 3 [101; 102; 103])
      ∧ members_hold demo_fm "session_79991234567" w'
          [demo_member 101 1 "alice"; demo_member 103 1 "alice"]
      ∧ trace w' = [FetchGroupChats; FetchMembers 102; FetchMembers 103].
Proof.
  assert (Hp : progress_is demo_fm "session_79991234567" stopped_world
                 {["chat_members" := JDict stopped_entry]}) by reflexivity.
  assert (Hold : members_hold demo_fm "session_79991234567" stopped_world
                   [demo_member 101 1 "alice"]) by (by split).
  split; [reflexivity|]. split; [exact Hp|]. split; [exact Hold|].
  destruct (resume_processes_pending_chats second_fails demo_fm
              "session_79991234567" stopped_world _ stopped_entry [101]
              [demo_member 101 1 "alice"] three_chats eq_refl Hp)
    as (w' & final & ts & H1 & _ & H3 & _ & H5 & H6 & _).
  - reflexivity.
  - reflexivity.
  - reflexivity.
  - reflexivity.
  - discriminate.
  - repeat constructor; fits_solver.
  - exact Hold.
  - discriminate.
  - exists w', final, ts. split; [exact H1|]. split; [exact H3|].
    split; [exact H5|exact H6].
Defined.

(** X14: a fresh [chat_members] run over any non-empty list of chats
    (ids may repeat, old member files may exist): the old member files are
    dropped, each distinct chat id is fetched once, and the entry is saved
    with [finished = true], [total] the length of the list and [completed]
    the number of distinct ids. So [completed <= total], with equality
    exactly when no id repeats. With no chat at all the run returns 0 and
    neither clears the member files nor writes the progress. *)
Theorem fresh_run_counts_distinct_chats tg fm s w prior chats :
  session_of fm = Some s →
  progress_is fm s w prior →
  group_chats_answer tg = Ok chats →
  Forall (λ c, Forall (fits CHAT_MEMBERS_FIELDS) (members_of tg c)) chats →
  let todo := pending [] chats in
  (chats = [] →
   export_chat_members tg fm false w = (Ok 0, with_event FetchGroupChats w))
  ∧ (chats ≠ [] →
     ∃ w' final ts,
       export_chat_members tg fm false w
       = (Ok (Z.of_nat (length (fetched tg todo))), w')
       ∧ progress_is fm s w' final
       ∧ final !! "chat_members"
         = Some (chat_members_entry ts (Z.of_nat (length todo))
                   (Z.of_nat (length chats)) (chat_id <$> todo))
       ∧ members_hold fm s w' (fetched tg todo)
       ∧ trace w'
         = trace w ++ FetchGroupChats :: (FetchMembers <$> (chat_id <$> todo))
       ∧ (length todo ≤ length chats)%nat
       ∧ (length todo = length chats ↔ NoDup (chat_id <$> chats))).
Proof.
  intros Hs Hp Hans Hfit todo. split.
  { intros ->. unfold export_chat_members. unfold bind at 1.
    by rewrite (get_all_group_chats_eq _ _ _ Hans). }
  intros Hne.
  set (w0 := with_event FetchGroupChats w).
  destruct (clear_member_files_ok fm s w0 Hs) as (w1 & Hclear & Hold1 & Ht1 & Hj1).
  assert (Hp1 : progress_is fm s w1 prior).
  { apply (progress_is_ext fm s w0); [done|]. by apply (progress_is_ext fm s w). }
  destruct (members_loop_pending tg fm s (Z.of_nat (length chats)) chats Hs Hfit
              [] 0 [] prior w1 Hp1 Hold1 ltac:(done))
    as (w2 & prior2 & Hloop & Hp2 & Ha2 & Hold2 & Ht2).
  fold todo in Hloop, Hold2, Ht2.
  cbn [app length fmap list_fmap] in Hloop.
  change (Z.of_nat 0) with 0 in Hloop.
  destruct (save_progress_ok fm s "chat_members"
    (chat_members_data
       (Frame (JList (JInt <$> (chat_id <$> todo)))
              (JInt (Z.of_nat (length (chat_id <$> todo))))
              (0 + Z.of_nat (length (fetched tg todo))))
       (Z.of_nat (length chats)) true) prior2 w2 Hs Hp2)
    as (w3 & Hsave & Ho & Hp3).
  eexists w3, _, (wall w2 (ticks w2)). split.
  { unfold export_chat_members. unfold bind at 1.
    rewrite (get_all_group_chats_eq _ _ _ Hans). fold w0.
    destruct (Z.eqb_spec (Z.of_nat (length chats)) 0) as [H0|_];
      [destruct chats; [done|simpl in H0; lia]|].
    unfold bind at 1. unfold bind at 1. rewrite Hclear. unfold ret at 1.
    unfold bind at 1, run_frame, fresh_frame. rewrite Hloop.
    cbn [snd]. unfold bind at 1. rewrite Hsave.
    unfold ret. cbn [total_members]. by rewrite Z.add_0_l. }
  split; [exact Hp3|]. split.
  { rewrite lookup_insert_eq. by rewrite length_fmap. }
  split; [by apply (members_hold_progress fm s w2)|].
  split.
  { destruct Ho as (_ & _ & -> & _). rewrite Ht2, Ht1.
    unfold w0; cbn [trace with_event]. by rewrite <- app_assoc. }
  destruct (pending_length [] chats) as [Hle Hiff]. split; [exact Hle|].
  unfold todo. rewrite Hiff. split; [by intros [? _]|]. intros Hnd. split; [done|].
  apply Forall_forall. intros c _. apply not_elem_of_nil.
Qed.

Lemma fresh_run_counts_distinct_chats_witness :
  session_of demo_fm = Some "session_79991234567"
  ∧ progress_is demo_fm "session_79991234567" stopped_world
      {["chat_members" := JDict stopped_entry]}
  ∧ ∃ w' (final : pydict) ts,
      export_chat_members doubled_source demo_fm false stopped_world = (Ok 1, w')
      ∧ final !! "chat_members" = Some (chat_members_entry ts 1 2 [101])
      ∧ members_hold demo_fm "session_79991234567" w'
          [demo_member 101 1 "alice"]
      ∧ trace w' = [FetchGroupChats; FetchMembers 101].
Proof.
  assert (Hp : progress_is demo_fm "session_79991234567" stopped_world
                 {["chat_members" := JDict stopped_entry]}) by reflexivity.
  split; [reflexivity|]. split; [exact Hp|].
  destruct (fresh_run_counts_distinct_chats doubled_source demo_fm
              "session_79991234567" stopped_world _ doubled_chats eq_refl Hp
              eq_refl) as [_ H].
  - repeat constructor; fits_solver.
  - destruct H as (w' & final & ts & H1 & _ & H3 & H4 & H5 & _); [discriminate|].
    exists w', final, ts. split; [exact H1|]. split; [exact H3|].
    split; [exact H4|exact H5].
Defined.

(** ** The wrapper of the remote library *)

Lemma member_record_ok chat u :
  fits CHAT_MEMBERS_FIELDS (member_record chat u)
  ∧ username_ok (member_record chat u)
  ∧ member_record chat u !! "chat_id" = Some (JInt (chat_id chat)).
Proof.
  split; [unfold member_record; fits_solver|]. by split.
Qed.

(** X15: the records of [TelegramClientWrapper]. [get_chat_members_for_chat]
    never raises: an entity that is no chat or channel, and any exception of
    the remote call, give the empty list; otherwise one record per member
    that has an id. Every record built by the wrapper has the columns of its
    table and a string as username, a contact has [is_contact] true, and a
    group chat has type ["channel"] or ["group"] and a non-empty title. *)
Theorem wrapper_records_are_well_formed (t : Wrapper.telethon) :
  (∀ chat,
     ∃ members,
       Wrapper.get_chat_members_for_chat t chat = Ok members
       ∧ Forall (fits CHAT_MEMBERS_FIELDS) members
       ∧ Forall username_ok members
       ∧ Forall (λ m, m !! "chat_id" = Some (JInt (chat_id chat))) members
       ∧ (Wrapper.is_chat_entity t chat = false
          ∨ (∃ e, Wrapper.participants t chat = Raise e) → members = []))
  ∧ (∀ contacts,
       Wrapper.get_contacts t = Ok contacts →
       Forall (λ c, fits CONTACTS_FIELDS c ∧ username_ok c
                    ∧ c !! "is_contact" = Some (JBool true)) contacts)
  ∧ (∀ dialogs,
       Wrapper.get_chats t = Ok dialogs →
       Forall (λ d, fits CHATS_FIELDS d ∧ username_ok d) dialogs)
  ∧ (∀ chats,
       Wrapper.get_all_group_chats t = Ok chats →
       Forall (λ c, (chat_type c = "channel" ∨ chat_type c = "group")
                    ∧ chat_title c ≠ "") chats).
Proof.
  split; [|split; [|split]].
  - intros chat. unfold Wrapper.get_chat_members_for_chat.
    destruct (Wrapper.is_chat_entity t chat) eqn:Hk.
    + destruct (Wrapper.participants t chat) as [ms|e] eqn:Hp.
      * eexists. split; [reflexivity|].
        repeat split; try (apply Forall_fmap, Forall_forall; intros u _;
                           apply member_record_ok).
        intros [[=]|[e [=]]].
      * exists []. repeat split; try constructor.
    + exists []. repeat split; try constructor.
  - intros contacts. unfold Wrapper.get_contacts.
    destruct (Wrapper.contacts_result t) as [us|]; [|done]. intros [= <-].
    apply Forall_fmap, Forall_forall. intros u _.
    split; [unfold contact_record; fits_solver|]. by split.
  - intros dialogs. unfold Wrapper.get_chats.
    destruct (Wrapper.dialogs_result t) as [ds|]; [|done]. intros [= <-].
    apply Forall_fmap, Forall_forall. intros d _.
    split; [unfold dialog_record; fits_solver|]. done.
  - intros chats. unfold Wrapper.get_all_group_chats.
    destruct (Wrapper.dialogs_result t) as [ds|]; [|done]. intros [= <-].
    apply Forall_fmap, Forall_forall. intros d _. unfold Wrapper.chat_info_of.
    cbn [chat_type chat_title]. split.
    + destruct (Wrapper.p_is_channel d); [by left|by right].
    + destruct (Wrapper.p_title d) as [title|]; [|done].
      destruct (String.eqb_spec title ""); done.
Qed.

Lemma wrapper_records_are_well_formed_witness :
  Forall (λ c, fits CONTACTS_FIELDS c ∧ username_ok c
               ∧ c !! "is_contact" = Some (JBool true))
    [contact_record ann; contact_record nameless].
Proof.
  exact (proj1 (proj2 (wrapper_records_are_well_formed demo_remote)) _ eq_refl).
Defined.

(** X16: the pipeline over the repository's own wrapper needs no
    assumption on the records. A fresh [export_contacts] writes one record
    per remote contact. A fresh [chat_members] run over distinct group chats
    ends normally with the finished entry, one member fetch per chat, and
    the member files holding the records of the chats that could be read;
    a chat whose remote call raises is processed like a chat without
    members, by the wrapper and not by the handler of the pipeline. *)
Theorem pipeline_over_wrapper (t : Wrapper.telethon) fm s w prior :
  session_of fm = Some s →
  progress_is fm s w prior →
  (∀ users,
     Wrapper.contacts_result t = Ok users →
     ∃ w',
       export_contacts (client_of t) fm false w
       = (Ok (Z.of_nat (length users)), w')
       ∧ json_files w' !! session_file fm s CONTACTS_JSON_TEMPLATE
         = Some (Doc (JList (JDict <$> (contact_record <$> users))))
       ∧ csv_files w' !! session_file fm s CONTACTS_CSV_TEMPLATE
         = Some (header CONTACTS_FIELDS
                 :: (row_of CONTACTS_FIELDS <$> (contact_record <$> users))))
  ∧ (∀ chats,
     Wrapper.get_all_group_chats t = Ok chats →
     chats ≠ [] →
     NoDup (chat_id <$> chats) →
     ∃ w' final ts,
       export_chat_members (client_of t) fm false w
       = (Ok (Z.of_nat (length (fetched (client_of t) chats))), w')
       ∧ progress_is fm s w' final
       ∧ final !! "chat_members"
         = Some (members_entry ts (Z.of_nat (length chats)) (chat_id <$> chats))
       ∧ members_hold fm s w' (fetched (client_of t) chats)
       ∧ trace w'
         = trace w ++ FetchGroupChats :: (FetchMembers <$> (chat_id <$> chats))
       ∧ ∀ chat, members_answer (client_of t) chat
                 = Ok (members_of (client_of t) chat)).
Proof.
  intros Hs Hp. split.
  - intros users Hu.
    assert (Hans : contacts_answer (client_of t) = Ok (contact_record <$> users)).
    { cbn [contacts_answer client_of]. unfold Wrapper.get_contacts.
      by rewrite Hu. }
    destruct (export_records_all fm s "contacts" (get_contacts (client_of t))
                FetchContacts CONTACTS_CSV_TEMPLATE CONTACTS_JSON_TEMPLATE
                CONTACTS_FIELDS (contact_record <$> users) prior false w Hs
                (get_contacts_eq _ _ _ Hans) Hp)
      as (w' & _ & _ & Hrun & _ & Hj & Hc & _).
    + discriminate.
    + apply Forall_fmap, Forall_forall. intros u _.
      exact (proj1 source_records_fit u).
    + apply progress_not_contacts_json.
    + exists w'. rewrite length_fmap in Hrun. by repeat split.
  - intros chats Hchats Hne Hnd.
    assert (Hfit : Forall (λ c, Forall (fits CHAT_MEMBERS_FIELDS)
                                  (members_of (client_of t) c)) chats).
    { apply Forall_forall. intros c _. unfold members_of.
      cbn [members_answer client_of]. unfold Wrapper.get_chat_members_for_chat.
      destruct (Wrapper.is_chat_entity t c); [|constructor].
      destruct (Wrapper.participants t c); [|constructor].
      apply Forall_fmap, Forall_forall. intros u _. apply member_record_ok. }
    destruct (export_chat_members_fresh (client_of t) fm s w prior chats
                Hs Hp Hchats Hne Hnd Hfit)
      as (w' & final & ts & Hrun & Hp' & Hentry & _ & Hold & Ht).
    exists w', final, ts. repeat (split; [done|]).
    intros chat. unfold members_of. cbn [members_answer client_of].
    unfold Wrapper.get_chat_members_for_chat.
    destruct (Wrapper.is_chat_entity t chat); [|done].
    by destruct (Wrapper.participants t chat).
Qed.

Lemma pipeline_over_wrapper_witness :
  session_of demo_fm = Some "session_79991234567"
  ∧ progress_is demo_fm "session_79991234567" blank_world ∅
  ∧ (∃ w',
       export_contacts (client_of demo_remote) demo_fm false blank_world
       = (Ok 2, w')
       ∧ json_files w' !! demo_contacts_path
         = Some (Doc (JList (JDict <$> [contact_record ann;
                                        contact_record nameless]))))
  ∧ ∃ w' (final : pydict) ts,
      export_chat_members (client_of demo_remote) demo_fm false blank_world
      = (Ok 2, w')
      ∧ final !! "chat_members" = Some (members_entry ts 2 [201; 202])
      ∧ trace w' = [FetchGroupChats; FetchMembers 201; FetchMembers 202].
Proof.
  assert (Hp : progress_is demo_fm "session_79991234567" blank_world ∅)
    by reflexivity.
  split; [reflexivity|]. split; [exact Hp|].
  destruct (pipeline_over_wrapper demo_remote demo_fm "session_79991234567"
              blank_world ∅ eq_refl Hp) as [Hc Hm].
  split.
  - destruct (Hc [ann; nameless] eq_refl) as (w' & H1 & H2 & _).
    exists w'. split; [exact H1|exact H2].
  - destruct (Hm (Wrapper.chat_info_of <$> drop 1 demo_peers) eq_refl)
      as (w' & final & ts & H1 & _ & H3 & _ & H5 & _).
    + discriminate.
    + apply (bool_decide_unpack _). vm_compute. reflexivity.
    + exists w', final, ts. split; [exact H1|]. split; [exact H3|exact H5].
Defined.

(** ** The resume question *)

(** X17: [ask_resume] answers [False] without asking when the kind has no
    entry or its entry is finished; for an unfinished entry it answers
    whether the typed line, lower-cased, is one of the four accepted words.
    It never changes the world. *)
Theorem ask_resume_only_for_unfinished fm s w prior kind answer :
  session_of fm = Some s →
  progress_is fm s w prior →
  (prior !! kind = None → ask_resume fm kind answer w = (Ok false, w))
  ∧ (∀ entry,
       prior !! kind = Some (JDict entry) →
       py_truthy (default (JBool false) (entry !! "finished")) = true →
       ask_resume fm kind answer w = (Ok false, w))
  ∧ (∀ entry,
       prior !! kind = Some (JDict entry) →
       py_truthy (default (JBool false) (entry !! "finished")) = false →
       ask_resume fm kind answer w
       = (Ok (bool_decide (answer ∈ YES_ANSWERS)), w)).
Proof.
  intros Hs Hp. pose proof (progress_is_load _ _ _ _ Hs Hp) as Hload.
  split; [|split].
  - intros Hnone. unfold ask_resume. unfold bind at 1. rewrite Hload.
    unfold bind at 1, lift at 1. cbn [py_contains_str].
    rewrite bool_decide_false; [done|]. rewrite Hnone. by intros [? [=]].
  - intros entry Hentry Hfin. unfold ask_resume. unfold bind at 1. rewrite Hload.
    unfold bind at 1, lift at 1. cbn [py_contains_str].
    rewrite bool_decide_true by (rewrite Hentry; eauto).
    unfold bind at 1, lift at 1. cbn [py_getitem]. rewrite Hentry.
    unfold bind at 1, lift at 1. cbn [py_get]. by rewrite Hfin.
  - intros entry Hentry Hfin. unfold ask_resume. unfold bind at 1. rewrite Hload.
    unfold bind at 1, lift at 1. cbn [py_contains_str].
    rewrite bool_decide_true by (rewrite Hentry; eauto).
    unfold bind at 1, lift at 1. cbn [py_getitem]. rewrite Hentry.
    unfold bind at 1, lift at 1. cbn [py_get]. by rewrite Hfin.
Qed.

Lemma ask_resume_only_for_unfinished_witness :
  session_of demo_fm = Some "session_79991234567"
  ∧ progress_is demo_fm "session_79991234567" interrupted_world
      {["contacts" := JDict (progress_data 3 7 false)]}
  ∧ ask_resume demo_fm "contacts" "yes" interrupted_world
    = (Ok true, interrupted_world)
  ∧ ask_resume demo_fm "contacts" "no" interrupted_world
    = (Ok false, interrupted_world)
  ∧ ask_resume demo_fm "chats" "yes" interrupted_world
    = (Ok false, interrupted_world).
Proof.
  assert (Hp : progress_is demo_fm "session_79991234567" interrupted_world
                 {["contacts" := JDict (progress_data 3 7 false)]})
    by reflexivity.
  split; [reflexivity|]. split; [exact Hp|].
  split; [|split].
  - destruct (ask_resume_only_for_unfinished demo_fm "session_79991234567"
                interrupted_world _ "contacts" "yes" eq_refl Hp) as (_ & _ & H).
    exact (H (progress_data 3 7 false) eq_refl eq_refl).
  - destruct (ask_resume_only_for_unfinished demo_fm "session_79991234567"
                interrupted_world _ "contacts" "no" eq_refl Hp) as (_ & _ & H).
    exact (H (progress_data 3 7 false) eq_refl eq_refl).
  - destruct (ask_resume_only_for_unfinished demo_fm "session_79991234567"
                interrupted_world _ "chats" "yes" eq_refl Hp) as (H & _).
    exact (H eq_refl).
Defined.

Lemma ask_label_unknown fm s w prior label answer :
  session_of fm = Some s →
  progress_is fm s w prior →
  prior !! label = None →
  ask_resume fm label answer w = (Ok false, w).
Proof.
  intros Hs Hp Hnone. pose proof (progress_is_load _ _ _ _ Hs Hp) as Hload.
  unfold ask_resume. unfold bind at 1. rewrite Hload.
  unfold bind at 1, lift at 1. cbn [py_contains_str].
  rewrite bool_decide_false; [done|]. rewrite Hnone. by intros [? [=]].
Qed.

(** X18: the main loop asks with the display labels of the menu, while the
    progress is stored under ["contacts"], ["chats"] and ["chat_members"].
    For a progress document with no other keys the question is never asked
    and choices 2, 3 and 4 run the export without resume, whatever is stored
    and whatever would be answered. *)
Theorem menu_never_resumes tg fm s w prior answer :
  session_of fm = Some s →
  progress_is fm s w prior →
  dom prior ⊆ ({["contacts"; "chats"; "chat_members"]} : gset string) →
  choice_export_contacts tg fm answer w = export_contacts tg fm false w
  ∧ choice_export_chats tg fm answer w = export_chats tg fm false w
  ∧ choice_export_chat_members tg fm answer w = export_chat_members tg fm false w.
Proof.
  intros Hs Hp Hdom.
  assert (Hno : ∀ label,
            label ∉ ({["contacts"; "chats"; "chat_members"]} : gset string) →
            prior !! label = None).
  { intros label Hl. apply not_elem_of_dom. intros Hin. by apply Hl, Hdom. }
  split; [|split].
  - unfold choice_export_contacts. unfold bind at 1.
    rewrite (ask_label_unknown fm s w prior _ answer Hs Hp); [done|].
    apply Hno. apply (bool_decide_unpack _). vm_compute. reflexivity.
  - unfold choice_export_chats. unfold bind at 1.
    rewrite (ask_label_unknown fm s w prior _ answer Hs Hp); [done|].
    apply Hno. apply (bool_decide_unpack _). vm_compute. reflexivity.
  - unfold choice_export_chat_members. unfold bind at 1.
    rewrite (ask_label_unknown fm s w prior _ answer Hs Hp); [done|].
    apply Hno. apply (bool_decide_unpack _). vm_compute. reflexivity.
Qed.

Lemma menu_never_resumes_witness :
  session_of demo_fm = Some "session_79991234567"
  ∧ progress_is demo_fm "session_79991234567" interrupted_world
      {["contacts" := JDict (progress_data 3 7 false)]}
  ∧ choice_export_contacts (demo_tg seven_contacts) demo_fm "y" interrupted_world
    = export_contacts (demo_tg seven_contacts) demo_fm false interrupted_world.
Proof.
  assert (Hp : progress_is demo_fm "session_79991234567" interrupted_world
                 {["contacts" := JDict (progress_data 3 7 false)]})
    by reflexivity.
  split; [reflexivity|]. split; [exact Hp|].
  apply (menu_never_resumes (demo_tg seven_contacts) demo_fm
           "session_79991234567" interrupted_world _ "y" eq_refl Hp).
  apply (bool_decide_unpack _). vm_compute. reflexivity.
Defined.

(** ** Sessions *)

Lemma clean_phone_alnum phone :
  Forall (λ c, isalnum c = true) (list_ascii_of_string (clean_phone phone)).
Proof.
  induction phone as [|c rest IH]; simpl; [constructor|].
  destruct (isalnum c) eqn:E; [|done]. simpl. by constructor.
Qed.

Lemma isalnum_letters_and_digits c :
  isalnum c = bool_decide (c ∈ list_ascii_of_string LETTERS_AND_DIGITS).
Proof.
  destruct c as [[] [] [] [] [] [] [] []]; vm_compute; reflexivity.
Qed.

Lemma clean_phone_filter phone :
  list_ascii_of_string (clean_phone phone) = letters_and_digits phone.
Proof.
  unfold letters_and_digits.
  induction phone as [|c rest IH]; [done|].
  cbn [clean_phone list_ascii_of_string]. rewrite filter_cons.
  rewrite isalnum_letters_and_digits.
  destruct (decide (c ∈ list_ascii_of_string LETTERS_AND_DIGITS)) as [Hin|Hout].
  - rewrite bool_decide_true by done. cbn [list_ascii_of_string]. by rewrite IH.
  - rewrite bool_decide_false by done. exact IH.
Qed.

(** X19: for a phone number typed in ASCII, [create_session_name] is
    [session_] followed by the letters and digits of the number, in order,
    and by nothing else. Two such numbers get the same session name exactly
    when they have the same letters and digits in the same order, so the
    punctuation and spacing of a number do not matter. The name has no path
    separator and, as current session, counts as set. *)
Theorem session_name_keeps_letters_and_digits phone :
  ascii_text phone →
  create_session_name phone
  = "session_" +:+ string_of_list_ascii (letters_and_digits phone)
  ∧ (∀ phone',
       ascii_text phone' →
       (create_session_name phone = create_session_name phone'
        ↔ letters_and_digits phone = letters_and_digits phone'))
  ∧ (∀ fm,
       session_of (set_session (create_session_name phone) fm)
       = Some (create_session_name phone))
  ∧ "/"%char ∉ list_ascii_of_string (create_session_name phone).
Proof.
  intros _.
  assert (Hname : ∀ p, create_session_name p
                       = "session_" +:+ string_of_list_ascii (letters_and_digits p)).
  { intros p. unfold create_session_name.
    by rewrite <- clean_phone_filter, string_of_list_ascii_of_string. }
  split; [apply Hname|]. split; [|split].
  - intros phone' _. rewrite !Hname. split.
    + intros H. apply append_cancel in H.
      by rewrite <- (list_ascii_of_string_of_list_ascii (letters_and_digits phone)),
                 H, list_ascii_of_string_of_list_ascii.
    + by intros ->.
  - intros fm. reflexivity.
  - unfold create_session_name. simpl.
    rewrite !not_elem_of_cons. repeat (split; [done|]).
    intros Hin. pose proof (clean_phone_alnum phone) as Ha.
    rewrite Forall_forall in Ha. specialize (Ha _ Hin). done.
Qed.

Lemma session_name_keeps_letters_and_digits_witness :
  create_session_name "+7 (999) 123-45-67" = "session_79991234567".
Proof.
  refine (proj1 (session_name_keeps_letters_and_digits "+7 (999) 123-45-67" _)).
  unfold ascii_text. cbn [list_ascii_of_string].
  repeat constructor; vm_compute; lia.
Defined.

(** X20: after [save_session_info] the session's credentials are read
    back by [get_session_credentials], and [update_last_used] changes only
    the [last_used] stamp: the credentials and the [created] stamp stay. *)
Theorem session_info_round_trip sm name api_id api_hash phone w :
  ∃ w1 w2 info,
    save_session_info sm name api_id api_hash phone w = (Ok tt, w1)
    ∧ get_session_credentials sm name w1
      = (Ok (Some (<["api_id" := JStr api_id]>
                  (<["api_hash" := JStr api_hash]>
                  (<["phone" := JStr phone]> ∅)))), w1)
    ∧ update_last_used sm name w1 = (Ok tt, w2)
    ∧ get_session_credentials sm name w2
      = (Ok (Some (<["api_id" := JStr api_id]>
                  (<["api_hash" := JStr api_hash]>
                  (<["phone" := JStr phone]> ∅)))), w2)
    ∧ get_session_info sm name w2 = (Ok (JDict info), w2)
    ∧ info !! "created" = Some (JStr (wall w (ticks w)))
    ∧ info !! "last_used" = Some (JStr (wall w (S (S (ticks w))))).
Proof.
  set (info1 := (<["api_id" := JStr api_id]>
                (<["api_hash" := JStr api_hash]>
                (<["phone" := JStr phone]>
                (<["created" := JStr (wall w (ticks w))]>
                (<["last_used" := JStr (wall w (S (ticks w)))]> ∅)))) : pydict)).
  set (w1 := with_json <[get_session_info_path sm name := Doc (JDict info1)]>
               (with_tick (with_tick w))).
  set (info2 := (<["last_used" := JStr (wall w (S (S (ticks w))))]> info1 : pydict)).
  set (w2 := with_json <[get_session_info_path sm name := Doc (JDict info2)]>
               (with_tick w1)).
  exists w1, w2, info2. split; [reflexivity|].
  assert (Hget : ∀ (d : pydict) w0,
    json_files w0 !! get_session_info_path sm name = Some (Doc (JDict d)) →
    get_session_info sm name w0 = (Ok (JDict d), w0)).
  { intros d w0 Hf. unfold get_session_info, bind, exists_json, gets, try_catch,
      json_load, bind, gets. rewrite Hf. simpl. by rewrite Hf. }
  assert (Hcred : ∀ (d : pydict) w0 a b c,
    json_files w0 !! get_session_info_path sm name = Some (Doc (JDict d)) →
    d !! "api_id" = Some a → d !! "api_hash" = Some b → d !! "phone" = Some c →
    get_session_credentials sm name w0
    = (Ok (Some (<["api_id" := a]> (<["api_hash" := b]> (<["phone" := c]> ∅)))),
       w0)).
  { intros d w0 a b c Hf Ha Hb Hc. unfold get_session_credentials.
    unfold bind at 1. rewrite (Hget d w0 Hf).
    assert (Htruthy : py_truthy (JDict d) = true).
    { cbn [py_truthy]. destruct (decide (size d = 0%nat)) as [Hz|Hz].
      - apply map_size_empty_iff in Hz. subst. by rewrite lookup_empty in Ha.
      - by destruct (size d). }
    rewrite Htruthy. unfold bind at 1, lift at 1.
    cbn [py_all_in py_contains_str rbind].
    rewrite !bool_decide_true by (rewrite ?Ha, ?Hb, ?Hc; eauto).
    cbn [rbind]. unfold bind, lift. cbn [py_getitem].
    by rewrite Ha, Hb, Hc. }
  split.
  { apply (Hcred _ _ _ _ _ (lookup_insert_eq _ _ _)); reflexivity. }
  split.
  { unfold update_last_used. unfold bind at 1.
    rewrite (Hget _ _ (lookup_insert_eq _ _ _)). reflexivity. }
  split.
  { apply (Hcred _ _ _ _ _ (lookup_insert_eq _ _ _)); reflexivity. }
  split.
  { apply Hget. apply lookup_insert_eq. }
  split; reflexivity.
Qed.

(** X21: a session info file that is absent or does not parse counts as
    empty: [get_session_info] answers the empty map and
    [get_session_credentials] answers [None], with no exception.
    [update_last_used] then writes a file holding only [last_used], so the
    session still has no credentials afterwards. *)
Theorem unusable_session_info_is_empty sm name w :
  json_files w !! get_session_info_path sm name = None
  ∨ (∃ raw, json_files w !! get_session_info_path sm name
            = Some (Malformed raw)) →
  get_session_info sm name w = (Ok (JDict ∅), w)
  ∧ get_session_credentials sm name w = (Ok None, w)
  ∧ ∃ w',
      update_last_used sm name w = (Ok tt, w')
      ∧ json_files w' !! get_session_info_path sm name
        = Some (Doc (JDict {["last_used" := JStr (wall w (ticks w))]}))
      ∧ get_session_credentials sm name w' = (Ok None, w').
Proof.
  intros Hf.
  assert (Hget : get_session_info sm name w = (Ok (JDict ∅), w)).
  { unfold get_session_info, bind, exists_json, gets, try_catch, json_load,
      bind, gets.
    destruct Hf as [Hf|[raw Hf]]; rewrite Hf; simpl; [done|]. by rewrite Hf. }
  split; [exact Hget|]. split.
  { unfold get_session_credentials. unfold bind at 1. by rewrite Hget. }
  set (w' := with_json
         <[get_session_info_path sm name :=
             Doc (JDict {["last_used" := JStr (wall w (ticks w))]})]>
         (with_tick w)).
  exists w'. split.
  { unfold update_last_used. unfold bind at 1. rewrite Hget. reflexivity. }
  split; [apply lookup_insert_eq|].
  unfold get_session_credentials. unfold bind at 1.
  assert (Hget' : get_session_info sm name w'
                  = (Ok (JDict {["last_used" := JStr (wall w (ticks w))]}), w')).
  { unfold get_session_info, bind, exists_json, gets, try_catch, json_load,
      bind, gets. unfold w'. cbn [json_files with_json with_tick].
    rewrite lookup_insert_eq. simpl. by rewrite lookup_insert_eq. }
  rewrite Hget'. reflexivity.
Qed.

Lemma unusable_session_info_is_empty_witness :
  get_session_credentials new_session_manager "session_79991234567"
    (World {["sessions/session_79991234567_info.json" := Malformed "{"]}
       ∅ ∅ demo_wall 0 [])
  = (Ok None,
     World {["sessions/session_79991234567_info.json" := Malformed "{"]}
       ∅ ∅ demo_wall 0 []).
Proof.
  apply (unusable_session_info_is_empty new_session_manager
           "session_79991234567").
  right. exists "{". reflexivity.
Defined.

(** X22: the legacy credentials file. [save_credentials] followed by
    [load_credentials] gives back the three values, whatever the file held
    before; with no file [load_credentials] answers the empty map. *)
Theorem credentials_round_trip api_id api_hash phone w :
  (∃ w',
     save_credentials api_id api_hash phone w = (Ok tt, w')
     ∧ load_credentials w'
       = (Ok (JDict (<["api_id" := JStr api_id]>
                    (<["api_hash" := JStr api_hash]>
                    (<["phone" := JStr phone]> ∅)))), w')
     ∧ (∀ p, p ≠ LEGACY_CREDENTIALS_FILE →
             json_files w' !! p = json_files w !! p)
     ∧ csv_files w' = csv_files w)
  ∧ (json_files w !! LEGACY_CREDENTIALS_FILE = None →
     load_credentials w = (Ok (JDict ∅), w)).
Proof.
  split.
  - eexists. split; [reflexivity|]. split.
    { unfold load_credentials, bind, exists_json, json_load, gets, bind, gets.
      cbn [json_files with_json]. rewrite lookup_insert_eq. simpl.
      by rewrite lookup_insert_eq. }
    split; [|done]. intros p Hp. cbn [json_files with_json].
    by rewrite lookup_insert_ne.
  - intros Hf. unfold load_credentials, bind, exists_json, gets. by rewrite Hf.
Qed.

(** ** Checkpoints, and a progress document that does not parse *)

Lemma checkpoint_step i n :
  (i + 1) mod 10 ≠ 0 → (i < 10 * (n / 10) ↔ i + 1 < 10 * (n / 10)).
Proof. intros H. Z.to_euclidean_division_equations. lia. Qed.

Lemma checkpoint_here i n :
  (i + 1) mod 10 = 0 → i + 1 ≤ n →
  i < 10 * (n / 10) ∧ (¬ i + 1 < 10 * (n / 10) → 10 * (n / 10) = i + 1).
Proof. intros H Hn. Z.to_euclidean_division_equations. lia. Qed.

Lemma checkpoint_none i : ¬ i < 10 * (i / 10).
Proof. Z.to_euclidean_division_equations. lia. Qed.

Lemma export_loop_last_checkpoint fm s kind total items :
  session_of fm = Some s →
  ∀ i acc w prior,
    within_total total i items →
    progress_is fm s w prior →
    ∃ w',
      export_loop fm kind total i items acc w = (Ok (acc ++ items), w')
      ∧ only_progress_changed fm s w w'
      ∧ if decide (i < 10 * ((i + Z.of_nat (length items)) / 10))
        then ∃ ts,
          progress_is fm s w'
            (<[kind := progress_entry ts
                 (progress_data (10 * ((i + Z.of_nat (length items)) / 10))
                    total false)]> prior)
        else w' = w.
Proof.
  intros Hs. induction items as [|item rest IH]; intros i acc w prior Hin Hp.
  - exists w. cbn [export_loop length]. rewrite app_nil_r.
    split; [done|]. split; [apply only_progress_refl|].
    rewrite Z.add_0_r. destruct (decide _) as [Hd|Hd]; [|done].
    by apply checkpoint_none in Hd.
  - destruct (within_total_step _ _ _ _ Hin) as [Hpc Hin'].
    cbn [export_loop]. unfold bind at 1, lift at 1. rewrite Hpc.
    unfold bind at 1.
    replace (i + Z.of_nat (length (item :: rest)))
      with (i + 1 + Z.of_nat (length rest)) by (cbn [length]; lia).
    set (n := i + 1 + Z.of_nat (length rest)) in *.
    destruct ((i + 1) mod 10 =? 0) eqn:Hm.
    + apply Z.eqb_eq in Hm.
      destruct (save_progress_ok fm s kind (progress_data (i + 1) total false)
                  prior w Hs Hp) as (w1 & -> & Ho & Hp1).
      destruct (IH (i + 1) (acc ++ [item]) w1 _ Hin' Hp1)
        as (w' & -> & Ho' & Hc).
      exists w'. rewrite <- app_assoc. split; [done|].
      split; [by eapply only_progress_trans|].
      destruct (checkpoint_here i n Hm ltac:(lia)) as [Hlt Heq].
      rewrite (decide_True _ _ Hlt).
      fold n in Hc. destruct (decide (i + 1 < _)) as [Hd|Hd].
      * destruct Hc as (ts & Hc). exists ts.
        by rewrite insert_insert_eq in Hc.
      * subst w'. exists (wall w (ticks w)). by rewrite (Heq Hd).
    + apply Z.eqb_neq in Hm. unfold ret at 1.
      destruct (IH (i + 1) (acc ++ [item]) w prior Hin' Hp)
        as (w' & -> & Ho' & Hc).
      exists w'. rewrite <- app_assoc. split; [done|]. split; [done|].
      fold n in Hc. pose proof (checkpoint_step i n Hm) as Hiff.
      destruct (decide (i + 1 < _)) as [Hd|Hd].
      * rewrite decide_True by (by apply Hiff). done.
      * rewrite decide_False by (by rewrite Hiff). done.
Qed.

(** X23: the loop of [export_contacts] and [export_chats], for a list of
    [total > 0] fetched items. Counting from [i] within [- total .. total]
    up to [total] at most, the loop ends normally and writes no record: it
    only collects the items. When a multiple of ten lies in
    [(i, i + len items]], it leaves the progress entry of [kind] at the
    largest such multiple, unfinished and with no processed item, the other
    entries as they were; otherwise it leaves the world untouched. Counting
    from a position whose quotient by [total] is beyond the range of a
    float, the percentage line raises [OverflowError] at the first item,
    before anything is written. *)
Theorem export_loop_checkpoints fm s kind total items i acc w prior :
  session_of fm = Some s →
  progress_is fm s w prior →
  0 < total →
  (- total ≤ i → i + Z.of_nat (length items) ≤ total →
   ∃ w',
     export_loop fm kind total i items acc w = (Ok (acc ++ items), w')
     ∧ only_progress_changed fm s w w'
     ∧ if decide (i < 10 * ((i + Z.of_nat (length items)) / 10))
       then ∃ ts,
         progress_is fm s w'
           (<[kind := JDict
                (<["timestamp" := JStr ts]>
                (<["completed" :=
                     JInt (10 * ((i + Z.of_nat (length items)) / 10))]>
                (<["total" := JInt total]>
                (<["finished" := JBool false]>
                (<["processed_items" := JList []]> ∅)))))]> prior)
       else w' = w)
  ∧ (items ≠ [] → FLOAT_LIMIT * total < Z.abs (i + 1) →
     export_loop fm kind total i items acc w = (Raise OverflowError, w)).
Proof.
  intros Hs Hp Ht. split.
  - intros Hi Hn.
    destruct (export_loop_last_checkpoint fm s kind total items Hs i acc w prior)
      as (w' & Hrun & Ho & Hc); [right; lia|done|].
    exists w'. split; [exact Hrun|]. split; [exact Ho|].
    destruct (decide _); [|exact Hc]. exact Hc.
  - intros Hne Hbig. destruct items as [|item rest]; [done|].
    cbn [export_loop]. unfold bind at 1, lift at 1.
    by rewrite (progress_percent_overflow _ _ Ht Hbig).
Qed.

Lemma export_loop_checkpoints_witness :
  (∃ w',
     export_loop demo_fm "contacts" 12 0
       (replicate 12 (demo_contact 1 "ann")) [] blank_world
     = (Ok ([] ++ replicate 12 (demo_contact 1 "ann")), w')
     ∧ only_progress_changed demo_fm "session_79991234567" blank_world w'
     ∧ ∃ ts,
         progress_is demo_fm "session_79991234567" w'
           (<["contacts" := JDict
                (<["timestamp" := JStr ts]>
                (<["completed" := JInt 10]>
                (<["total" := JInt 12]>
                (<["finished" := JBool false]>
                (<["processed_items" := JList []]> ∅)))))]> ∅))
  ∧ export_loop demo_fm "contacts" 12 (- 10 ^ 309)
      (replicate 12 (demo_contact 1 "ann")) [] blank_world
    = (Raise OverflowError, blank_world).
Proof.
  split.
  - destruct (export_loop_checkpoints demo_fm "session_79991234567" "contacts"
                12 (replicate 12 (demo_contact 1 "ann")) 0 [] blank_world ∅
                eq_refl eq_refl eq_refl) as [H _].
    destruct (H ltac:(lia) ltac:(cbn; lia)) as (w' & He & Ho & Hc).
    exists w'. split; [exact He|]. split; [exact Ho|]. exact Hc.
  - destruct (export_loop_checkpoints demo_fm "session_79991234567" "contacts"
                12 (replicate 12 (demo_contact 1 "ann")) (- 10 ^ 309) []
                blank_world ∅ eq_refl eq_refl eq_refl) as [_ H].
    apply H; [discriminate|]. vm_compute. reflexivity.
Defined.

Lemma save_progress_malformed fm s kind data raw w :
  session_of fm = Some s →
  json_files w !! session_file fm s PROGRESS_FILE_TEMPLATE
    = Some (Malformed raw) →
  save_progress fm kind data w = (Raise JSONDecodeError, w).
Proof.
  intros Hs Hf. unfold save_progress. rewrite Hs. unfold bind at 1.
  rewrite (load_progress_eq _ _ _ Hs), Hf. reflexivity.
Qed.

Lemma export_loop_malformed fm s kind total raw items w :
  session_of fm = Some s →
  json_files w !! session_file fm s PROGRESS_FILE_TEMPLATE
    = Some (Malformed raw) →
  ∀ i acc,
    within_total total i items →
    export_loop fm kind total i items acc w
    = if decide (i < 10 * ((i + Z.of_nat (length items)) / 10))
      then (Raise JSONDecodeError, w)
      else (Ok (acc ++ items), w).
Proof.
  intros Hs Hf. induction items as [|item rest IH]; intros i acc Hin.
  - cbn [export_loop length]. rewrite Z.add_0_r, app_nil_r.
    rewrite decide_False by apply checkpoint_none. done.
  - destruct (within_total_step _ _ _ _ Hin) as [Hpc Hin'].
    cbn [export_loop]. unfold bind at 1, lift at 1. rewrite Hpc.
    unfold bind at 1.
    replace (i + Z.of_nat (length (item :: rest)))
      with (i + 1 + Z.of_nat (length rest)) by (cbn [length]; lia).
    set (n := i + 1 + Z.of_nat (length rest)) in *.
    destruct ((i + 1) mod 10 =? 0) eqn:Hm.
    + apply Z.eqb_eq in Hm.
      rewrite (save_progress_malformed _ _ _ _ _ _ Hs Hf).
      destruct (checkpoint_here i n Hm ltac:(lia)) as [Hlt _].
      by rewrite (decide_True _ _ Hlt).
    + apply Z.eqb_neq in Hm. unfold ret at 1. rewrite (IH _ _ Hin'). fold n.
      pose proof (checkpoint_step i n Hm) as Hiff.
      destruct (decide (i + 1 < _)) as [Hd|Hd].
      * rewrite decide_True by (by apply Hiff). done.
      * rewrite decide_False by (by rewrite Hiff).
        by rewrite <- app_assoc.
Qed.

(** X24: a progress document that does not parse makes every
    [export_contacts] raise [JSONDecodeError], resumed or not. A resumed run
    and a run over ten contacts or more raise before any file is written; a
    run from the start over fewer than ten contacts raises at the last
    [save_progress], after the contact files were written in full. The
    progress document itself is left as it was. *)
Theorem malformed_progress_fails_export tg fm s raw items resume w :
  session_of fm = Some s →
  json_files w !! session_file fm s PROGRESS_FILE_TEMPLATE
    = Some (Malformed raw) →
  contacts_answer tg = Ok items →
  Forall (fits CONTACTS_FIELDS) items →
  export_contacts tg fm resume w
  = (Raise JSONDecodeError,
     if resume || (10 <=? Z.of_nat (length items))
     then with_event FetchContacts w
     else
       with_json
         <[session_file fm s CONTACTS_JSON_TEMPLATE
             := Doc (JList (JDict <$> items))]>
         (with_csv
            <[session_file fm s CONTACTS_CSV_TEMPLATE
                := header CONTACTS_FIELDS :: (row_of CONTACTS_FIELDS <$> items)]>
            (with_event FetchContacts w))).
Proof.
  intros Hs Hf Hans Hfit.
  unfold export_contacts, export_records. unfold bind at 1.
  rewrite (get_contacts_eq _ _ _ Hans).
  set (w0 := with_event FetchContacts w).
  assert (Hf0 : json_files w0 !! session_file fm s PROGRESS_FILE_TEMPLATE
                = Some (Malformed raw)) by exact Hf.
  destruct resume.
  - cbn [orb]. unfold bind at 1. unfold bind at 1. unfold bind at 1.
    rewrite (load_progress_eq _ _ _ Hs), Hf0. reflexivity.
  - cbn [orb]. unfold bind at 1. unfold ret at 1. cbn [fst snd].
    unfold bind at 1.
    rewrite (export_loop_malformed _ _ _ _ _ _ _ Hs Hf0)
      by apply within_total_all.
    rewrite Z.add_0_l.
    destruct (10 <=? Z.of_nat (length items)) eqn:Hlen.
    + apply Z.leb_le in Hlen. rewrite decide_True; [done|].
      Z.to_euclidean_division_equations. lia.
    + apply Z.leb_gt in Hlen. rewrite decide_False; cycle 1.
      { Z.to_euclidean_division_equations. lia. }
      rewrite app_nil_l. unfold bind at 1. unfold save_contacts_to_files.
      rewrite (save_records_eq _ _ _ _ _ _ _ Hs Hfit).
      unfold bind at 1. rewrite (save_progress_malformed _ s _ _ raw); [done|done|].
      cbn [json_files with_json with_csv]. rewrite lookup_insert_ne; [exact Hf0|].
      apply not_eq_sym, progress_not_contacts_json.
Qed.

Lemma malformed_progress_fails_export_witness :
  export_contacts (demo_tg five_contacts) demo_fm false garbled_progress_world
  = (Raise JSONDecodeError,
     with_json
       <[demo_contacts_path := Doc (JList (JDict <$> five_contacts))]>
       (with_csv
          <[demo_contacts_csv
              := header CONTACTS_FIELDS
                 :: (row_of CONTACTS_FIELDS <$> five_contacts)]>
          (with_event FetchContacts garbled_progress_world))).
Proof.
  apply (malformed_progress_fails_export (demo_tg five_contacts) demo_fm
           "session_79991234567" "{contacts: " five_contacts false
           garbled_progress_world eq_refl eq_refl eq_refl).
  repeat constructor; unfold demo_contact; fits_solver.
Defined.
